(** * PrepAI: the scoring, oracle-adapter, proctoring and session logic

    A shallow embedding of the parts of the application that decide its
    observable behaviour:

    - [Feedback]: the [generate-feedback] edge function (evaluation parsing,
      fallback and padding, clamping of the stored scores, the overall score
      and its two roundings);
    - [Questions]: the [generate-questions] edge function (parsing, line
      splitting, canned fallback sets, padding and truncation);
    - [Server]: the two handlers run over the gateway and the database
      ([Oracle] holds what the gateway replies and what a handler answers);
    - [DeviceDetection]: the [useDeviceDetection] hook (filtering of the
      predictions and the warning debounce);
    - [Interview]: the [Interview] page (penalty bookkeeping, question loop,
      start and submission of a session);
    - [Coaching]: the [generate-coaching] edge function;
    - [FeedbackPage]: the colours and labels of the feedback page;
    - [Dashboard]: the statistics of the dashboard.

    JavaScript numbers are modelled as exact rationals ([Q]); the one value
    outside them that the code can produce, [NaN] from a division of zero by
    zero, is [None].  Strings are sequences of 8-bit characters. *)

From Stdlib Require Import QArith Qround Qminmax Lqa.
From Stdlib Require Import ZArith Lia Bool List.
From Stdlib Require Import Ascii String DecimalString.
Import ListNotations.

(** ** JavaScript primitives used by the sources *)

Module JS.

Local Open Scope Q_scope.

(** [Math.round]: the nearest integer, halves towards plus infinity. *)
Definition Math_round (x : Q) : Z := Qfloor (x + (1 # 2)).

Definition Math_max (a b : Q) : Q := Qmax a b.
Definition Math_min (a b : Q) : Q := Qmin a b.

(** [v || d] on numbers: [0] is falsy. *)
Definition num_or (v d : Q) : Q := if Qeq_bool v 0 then d else v.

(** [s || d] on strings: the empty string is falsy. *)
Definition str_or (s d : string) : string :=
  match s with EmptyString => d | _ => s end.

(** [Math.round(x * 10) / 10], the rounding to one decimal place that both
    the feedback handler and the dashboard use. *)
Definition round1 (x : Q) : Q := inject_Z (Math_round (x * 10)) / 10.

(** [response.ok]. *)
Definition status_ok (status : Z) : bool :=
  ((200 <=? status) && (status <=? 299))%Z.

End JS.

(** ** The hosted language-model gateway, as the handlers see it *)

Module Oracle.

(** What [content.match(/\[[\s\S]*\]/)] followed by [JSON.parse] makes of the
    message content of a chat completion, read at the element type the
    handler declares for the array. *)
Inductive Content (A : Type) : Type :=
| JsonArray (items : list A)   (* a bracketed part that parses to an array *)
| BadJson                      (* a bracketed part on which JSON.parse throws *)
| PlainText (text : string).   (* no bracketed part at all *)

Arguments JsonArray {A} items.
Arguments BadJson {A}.
Arguments PlainText {A} text.

(** One [fetch] of the gateway: the promise rejects (network failure, or a
    body that is not JSON), or a response arrives with its status and the
    content of the first choice's message (the empty string when there is
    none). *)
Inductive Reply (A : Type) : Type :=
| Rejected (message : string)
| Replied (status : Z) (content : Content A).

Arguments Rejected {A} message.
Arguments Replied {A} status content.

(** The HTTP response an edge function sends back (the CORS headers, the
    same on every response, are left out). *)
Inductive Body : Type :=
| QuestionsBody (questions : list string)
| FeedbackBody (success : bool) (overallScore : option Z)
| ErrorBody (error : string).

Record Response := mkResponse {
  status : Z;
  body : Body
}.

(** What a handler's [try] block can be left with. *)
Inductive Exn : Type :=
| Error (message : string)   (* [new Error(message)] *)
| PostgrestError.            (* the error object of a failed database call *)

(** [error.message] for an [Error], and a fixed text for anything else. *)
Definition error_message (e : Exn) : string :=
  match e with
  | Error message => message
  | PostgrestError => "Unknown error"
  end.

Definition internal_error (e : Exn) : Response :=
  mkResponse 500 (ErrorBody (error_message e)).

Definition rate_limited : Response :=
  mkResponse 429 (ErrorBody "Rate limit exceeded. Please try again later.").

Definition credits_exhausted : Response :=
  mkResponse 402 (ErrorBody "AI credits exhausted. Please add more credits.").

(** The decimal text of a status, as a template literal prints it. *)
Definition show_Z (z : Z) : string := NilEmpty.string_of_int (Z.to_int z).

Definition gateway_error (status : Z) : Exn :=
  Error ("AI gateway error: " ++ show_Z status).

End Oracle.

(** ** The [generate-feedback] edge function: evaluations and scores *)

Module Feedback.

Import JS.
Local Open Scope Q_scope.

(** An evaluation as the handler declares it: four numbers and a text. *)
Record Evaluation := mkEvaluation {
  relevance : Q;
  clarity : Q;
  grammar : Q;
  confidence : Q;
  feedback : string
}.

(** The accumulator of [evaluations.reduce(...)]. *)
Definition reduce_step (acc : Q) (e : Evaluation) : Q :=
  acc + (relevance e + clarity e + grammar e + confidence e) / 4.

(** [evaluations.reduce(..., 0) / evaluations.length]; [None] is the [NaN]
    that an empty list gives. *)
Definition overallScoreBeforePenalty (evaluations : list Evaluation) : option Q :=
  match evaluations with
  | [] => None
  | _ => Some (fold_left reduce_step evaluations 0
               / inject_Z (Z.of_nat (List.length evaluations)))
  end.

(** The penalty is applied, with the floor at [0], only when it is positive. *)
Definition applyPenalty (overallScore scorePenalty : Q) : Q :=
  if Qlt_le_dec 0 scorePenalty
  then Math_max 0 (overallScore - scorePenalty)
  else overallScore.

Definition overallScore (evaluations : list Evaluation) (scorePenalty : Q)
  : option Q :=
  option_map (fun s => applyPenalty s scorePenalty)
             (overallScoreBeforePenalty evaluations).

(** The value written to [interviews.overall_score]. *)
Definition persistedScore (evaluations : list Evaluation) (scorePenalty : Q)
  : option Q :=
  option_map round1 (overallScore evaluations scorePenalty).

(** The value returned in the response body. *)
Definition returnedScore (evaluations : list Evaluation) (scorePenalty : Q)
  : option Z :=
  option_map Math_round (overallScore evaluations scorePenalty).

(** The question and answer pairs sent to the gateway. *)
Record QA := mkQA {
  question : string;
  answer : string
}.

Definition fallbackEvaluation : Evaluation :=
  mkEvaluation 70 70 75 65
    "Good attempt! Consider providing more specific examples.".

Definition paddingEvaluation : Evaluation :=
  mkEvaluation 70 70 75 65 "Consider elaborating more on your response.".

(** The [try]/[catch] around the parse: the parsed array as it is, or one
    fallback evaluation per answer. *)
Definition parseEvaluations (content : Oracle.Content Evaluation)
  (answersToEvaluate : list QA) : list Evaluation :=
  match content with
  | Oracle.JsonArray items => items
  | Oracle.BadJson | Oracle.PlainText _ =>
      map (fun _ => fallbackEvaluation) answersToEvaluate
  end.

(** [while (evaluations.length < n) evaluations.push(...)], with the number
    of iterations left as fuel. *)
Fixpoint pushWhileShort (fuel : nat) (n : nat) (evaluations : list Evaluation)
  : list Evaluation :=
  match fuel with
  | O => evaluations
  | S fuel' =>
      if (List.length evaluations <? n)%nat
      then pushWhileShort fuel' n (evaluations ++ [paddingEvaluation])
      else evaluations
  end.

Definition padEvaluations (n : nat) (evaluations : list Evaluation)
  : list Evaluation :=
  pushWhileShort n n evaluations.

(** The evaluations the rest of the handler works with. *)
Definition evaluateAnswers (content : Oracle.Content Evaluation)
  (answersToEvaluate : list QA) : list Evaluation :=
  padEvaluations (List.length answersToEvaluate)
    (parseEvaluations content answersToEvaluate).

(** [Math.min(100, Math.max(0, v || d))]. *)
Definition clampScore (v : option Q) (d : Q) : Q :=
  Math_min 100 (Math_max 0 (match v with Some x => num_or x d | None => d end)).

(** A row of the [answers] table. *)
Record AnswerRow := mkAnswerRow {
  interview_id : string;
  row_question : string;
  row_answer : string;
  relevance_score : Q;
  clarity_score : Q;
  grammar_score : Q;
  confidence_score : Q;
  row_feedback : string
}.

(** The body of [answersToEvaluate.map((qa, index) => ...)]; [evaluations[index]]
    is [undefined] past the end of the array, and [?.] then gives [undefined],
    which is falsy like [0] and the empty string. *)
Definition answerRow (interviewId : string) (evaluations : list Evaluation)
  (index : nat) (qa : QA) : AnswerRow :=
  let e := nth_error evaluations index in
  mkAnswerRow interviewId (question qa) (answer qa)
    (clampScore (option_map relevance e) 70)
    (clampScore (option_map clarity e) 70)
    (clampScore (option_map grammar e) 75)
    (clampScore (option_map confidence e) 65)
    (match e with
     | Some x => str_or (feedback x) "Good effort!"
     | None => "Good effort!"
     end).

Fixpoint mapi {A B : Type} (f : nat -> A -> B) (index : nat) (l : list A)
  : list B :=
  match l with
  | [] => []
  | x :: l' => f index x :: mapi f (S index) l'
  end.

Definition answersToInsert (interviewId : string) (evaluations : list Evaluation)
  (answersToEvaluate : list QA) : list AnswerRow :=
  mapi (answerRow interviewId evaluations) 0 answersToEvaluate.

(** The aggregation as the specification words it: the mean, over the
    evaluations, of the mean of the four sub-scores. *)
Definition mean4 (e : Evaluation) : Q :=
  (relevance e + clarity e + grammar e + confidence e) / 4.

Definition Qsum (l : list Q) : Q := fold_right Qplus 0 l.

Definition mean (l : list Q) : Q := Qsum l / inject_Z (Z.of_nat (List.length l)).


Definition sub_scores_in_range (e : Evaluation) : Prop :=
  (0 <= relevance e <= 100) /\ (0 <= clarity e <= 100) /\
  (0 <= grammar e <= 100) /\ (0 <= confidence e <= 100).

(** The scores of the fallback and padding evaluations. *)
Definition fallback_scores (e : Evaluation) : Prop :=
  relevance e = 70 /\ clarity e = 70 /\ grammar e = 75 /\ confidence e = 65.

Definition row_scores_in_range (r : AnswerRow) : Prop :=
  (0 <= relevance_score r <= 100) /\ (0 <= clarity_score r <= 100) /\
  (0 <= grammar_score r <= 100) /\ (0 <= confidence_score r <= 100).

End Feedback.

(** ** The [generate-questions] edge function: the list of questions *)

Module Questions.

Local Open Scope string_scope.

(** White space as [trim] and the regular expressions' [\s] see it, among
    the characters below 256. *)
Definition is_space (c : ascii) : bool :=
  match nat_of_ascii c with
  | 9%nat | 10%nat | 11%nat | 12%nat | 13%nat | 32%nat | 160%nat => true
  | _ => false
  end.

(** [\d]. *)
Definition is_digit (c : ascii) : bool :=
  let n := nat_of_ascii c in ((48 <=? n) && (n <=? 57))%nat.

Fixpoint dropWhile (p : ascii -> bool) (s : string) : string :=
  match s with
  | EmptyString => EmptyString
  | String c s' => if p c then dropWhile p s' else s
  end.

Fixpoint reverse (s acc : string) : string :=
  match s with
  | EmptyString => acc
  | String c s' => reverse s' (String c acc)
  end.

Definition trimStart (s : string) : string := dropWhile is_space s.

Definition trimEnd (s : string) : string :=
  reverse (dropWhile is_space (reverse s EmptyString)) EmptyString.

Definition trim (s : string) : string := trimEnd (trimStart s).

(** [s.split(sep)] for a one-character separator. *)
Fixpoint split (sep : ascii) (s : string) : list string :=
  match s with
  | EmptyString => [EmptyString]
  | String c s' =>
      if Ascii.eqb c sep then EmptyString :: split sep s'
      else match split sep s' with
           | [] => [String c EmptyString]
           | line :: lines => String c line :: lines
           end
  end.

Definition newline : ascii := ascii_of_nat 10.

(** [q.replace] of [/^\d+\.\s*/] by the empty string. *)
Definition stripNumbering (q : string) : string :=
  let rest := dropWhile is_digit q in
  if (String.length rest <? String.length q)%nat then
    match rest with
    | String "." rest' => dropWhile is_space rest'
    | _ => q
    end
  else q.

(** [q.replace] of [/^[-*]\s*/] by the empty string. *)
Definition stripBullet (q : string) : string :=
  match q with
  | String c rest =>
      if (Ascii.eqb c "-" || Ascii.eqb c "*")%bool
      then dropWhile is_space rest
      else q
  | EmptyString => q
  end.

(** The branch taken when the content has no bracketed part. *)
Definition splitLines (content : string) : list string :=
  map (fun q => trim (stripBullet (stripNumbering q)))
    (firstn 5
       (filter (fun line => (10 <? String.length (trim line))%nat)
          (split newline content))).

Definition fallbackSets : list (list string) :=
  [ [ "What drew you to this career path?";
      "Describe your approach to solving complex problems.";
      "How do you prioritize competing deadlines?";
      "Tell me about a time you led a team.";
      "What's your biggest professional achievement?" ];
    [ "What excites you most about this role?";
      "How do you handle constructive criticism?";
      "Describe a project that challenged you.";
      "How do you stay updated with industry trends?";
      "What would you change about your last project?" ];
    [ "Why are you passionate about this field?";
      "How do you approach learning new skills?";
      "Tell me about a failure and what you learned.";
      "How do you collaborate with remote teams?";
      "What metrics do you use to measure success?" ] ].

(** [Date.now() % 10000]. *)
Definition randomSeed (now : Z) : Z := (now mod 10000)%Z.

(** [fallbackSets[randomSeed % 3]]. *)
Definition fallbackSet (seed : Z) : list string :=
  nth (Z.to_nat (seed mod 3)) fallbackSets [].

Definition parseQuestions (seed : Z) (content : Oracle.Content string)
  : list string :=
  match content with
  | Oracle.JsonArray items => items
  | Oracle.PlainText text => splitLines text
  | Oracle.BadJson => fallbackSet seed
  end.

Definition filler : string :=
  "What unique perspective would you bring to our team?".

(** [while (questions.length < 5) questions.push(filler)], with the number
    of iterations left as fuel. *)
Fixpoint pushWhileShort (fuel : nat) (questions : list string) : list string :=
  match fuel with
  | O => questions
  | S fuel' =>
      if (List.length questions <? 5)%nat
      then pushWhileShort fuel' (questions ++ [filler])%list
      else questions
  end.

(** The padding and [questions.slice(0, 5)]. *)
Definition exactlyFive (questions : list string) : list string :=
  firstn 5 (pushWhileShort 5 questions).

Definition generateQuestions (seed : Z) (content : Oracle.Content string)
  : list string :=
  exactlyFive (parseQuestions seed content).

Definition non_empty (q : string) : Prop := q <> EmptyString.

End Questions.

(** ** The two edge functions, over the gateway and the database *)

Module Server.

Import Oracle.

Inductive InterviewStatus : Type := in_progress | completed.

(** A row of the [interviews] table. *)
Record InterviewRow := mkInterviewRow {
  id : string;
  user_id : string;
  role : string;
  overall_score : option Q;
  status : InterviewStatus;
  completed_at : option Z
}.

(** Everything outside the code that a run reads or writes: the
    configuration and the clock, the replies the gateway will give to the
    successive requests of each kind, the outcome of the successive
    persistence calls ([true]: the call reports an error), the stored rows
    and files, and whether the browser grants the camera. *)
Record World := mkWorld {
  api_key : bool;
  now : Z;
  questions_oracle : list (Reply string);
  feedback_oracle : list (Reply Feedback.Evaluation);
  faults : list bool;
  interviews : list InterviewRow;
  answers : list Feedback.AnswerRow;
  uploads : list string;
  camera_granted : bool
}.

Definition set_questions_oracle (o : list (Reply string)) (w : World) : World :=
  mkWorld (api_key w) (now w) o (feedback_oracle w) (faults w)
          (interviews w) (answers w) (uploads w) (camera_granted w).

Definition set_feedback_oracle (o : list (Reply Feedback.Evaluation))
  (w : World) : World :=
  mkWorld (api_key w) (now w) (questions_oracle w) o (faults w)
          (interviews w) (answers w) (uploads w) (camera_granted w).

Definition set_faults (f : list bool) (w : World) : World :=
  mkWorld (api_key w) (now w) (questions_oracle w) (feedback_oracle w) f
          (interviews w) (answers w) (uploads w) (camera_granted w).

Definition set_interviews (i : list InterviewRow) (w : World) : World :=
  mkWorld (api_key w) (now w) (questions_oracle w) (feedback_oracle w)
          (faults w) i (answers w) (uploads w) (camera_granted w).

Definition set_answers (a : list Feedback.AnswerRow) (w : World) : World :=
  mkWorld (api_key w) (now w) (questions_oracle w) (feedback_oracle w)
          (faults w) (interviews w) a (uploads w) (camera_granted w).

Definition set_uploads (u : list string) (w : World) : World :=
  mkWorld (api_key w) (now w) (questions_oracle w) (feedback_oracle w)
          (faults w) (interviews w) (answers w) u (camera_granted w).

(** A persistence call: it consumes the next scripted outcome and, unless
    that is an error, applies its write.  The result is the [error] flag. *)
Definition db_call (write : World -> World) (w : World) : bool * World :=
  match faults w with
  | true :: rest => (true, set_faults rest w)
  | false :: rest => (false, write (set_faults rest w))
  | [] => (false, write w)
  end.

(** The body of a handler's [try] block: a computation over the world that
    yields a value, returns a response early, or throws. *)
Inductive Exit : Type :=
| Respond (r : Response)
| Raise (e : Exn).

Definition M (A : Type) : Type := World -> (A + Exit) * World.

Definition ret {A : Type} (a : A) : M A := fun w => (inl a, w).

Definition bind {A B : Type} (m : M A) (k : A -> M B) : M B :=
  fun w =>
    match m w with
    | (inl a, w') => k a w'
    | (inr x, w') => (inr x, w')
    end.

Definition raise {A : Type} (e : Exn) : M A := fun w => (inr (Raise e), w).

Definition respond {A : Type} (r : Response) : M A :=
  fun w => (inr (Respond r), w).

Declare Scope handler_scope.
Delimit Scope handler_scope with handler.
Notation "x <- m ;; k" := (bind m (fun x => k))
  (at level 61, m at next level, right associativity) : handler_scope.
Notation "m ;;; k" := (bind m (fun _ => k))
  (at level 61, right associativity) : handler_scope.

Local Open Scope handler_scope.

(** [if (!LOVABLE_API_KEY) throw new Error(...)]. *)
Definition require_api_key : M unit :=
  fun w =>
    if api_key w then (inl tt, w)
    else (inr (Raise (Error "LOVABLE_API_KEY is not configured")), w).

(** One [fetch] of the gateway followed by [response.json()]: the next
    scripted reply is consumed; a script that has run out stands for a
    gateway that cannot be reached. *)
Definition next_reply {A : Type} (script : list (Reply A))
  : (Z * Content A + Exit) * list (Reply A) :=
  match script with
  | [] => (inr (Raise (Error "error sending request")), [])
  | Rejected message :: rest => (inr (Raise (Error message)), rest)
  | Replied st content :: rest => (inl (st, content), rest)
  end.

Definition fetch_questions : M (Z * Content string) :=
  fun w =>
    let (r, rest) := next_reply (questions_oracle w) in
    (r, set_questions_oracle rest w).

Definition fetch_feedback : M (Z * Content Feedback.Evaluation) :=
  fun w =>
    let (r, rest) := next_reply (feedback_oracle w) in
    (r, set_feedback_oracle rest w).

(** The [if (!response.ok) { ... }] block, the same in both handlers. *)
Definition check_ok (st : Z) : M unit :=
  if JS.status_ok st then ret tt
  else if (st =? 429)%Z then respond rate_limited
  else if (st =? 402)%Z then respond credits_exhausted
  else raise (gateway_error st).

(** A database call of a handler: [if (error) throw error]. *)
Definition db_or_throw (write : World -> World) : M unit :=
  fun w =>
    match db_call write w with
    | (true, w') => (inr (Raise PostgrestError), w')
    | (false, w') => (inl tt, w')
    end.

(** [serve]: the response of the [try] block, or the [500] of the [catch]. *)
Definition serve (handler : M Response) (w : World) : Response * World :=
  match handler w with
  | (inl r, w') => (r, w')
  | (inr (Respond r), w') => (r, w')
  | (inr (Raise e), w') => (internal_error e, w')
  end.

(** *** generate-questions *)

Definition generate_questions_body : M Response :=
  require_api_key ;;;
  seed <- (fun w => (inl (Questions.randomSeed (now w)), w)) ;;
  reply <- fetch_questions ;;
  check_ok (fst reply) ;;;
  ret (mkResponse 200
         (QuestionsBody (Questions.generateQuestions seed (snd reply)))).

Definition generate_questions : World -> Response * World :=
  serve generate_questions_body.

(** *** generate-feedback *)

(** A question as the page holds it. *)
Record Question := mkQuestion {
  text : string;
  answer : option string
}.

(** The body of a request, as the page sends it. *)
Record FeedbackRequest := mkFeedbackRequest {
  interviewId : string;
  questions : list Question;
  req_role : string;
  scorePenalty : Q;
  tabSwitchCount : Z;
  deviceWarningCount : Z
}.

(** [question: q.text] and [answer: q.answer], the empty string when there
    is no answer. *)
Definition answersToEvaluate (qs : list Question) : list Feedback.QA :=
  map (fun q => Feedback.mkQA (text q)
                   (match answer q with Some a => a | None => EmptyString end))
      qs.

(** The [update] of the rows whose [id] is [interviewId]. *)
Definition complete_interview (interview : string) (score : option Q)
  (at_time : Z) (row : InterviewRow) : InterviewRow :=
  if String.eqb (id row) interview
  then mkInterviewRow (id row) (user_id row) (role row) score completed
                      (Some at_time)
  else row.

Definition generate_feedback_body (req : FeedbackRequest) : M Response :=
  require_api_key ;;;
  let qas := answersToEvaluate (questions req) in
  reply <- fetch_feedback ;;
  check_ok (fst reply) ;;;
  let evaluations := Feedback.evaluateAnswers (snd reply) qas in
  db_or_throw (fun w =>
    set_answers (answers w
                 ++ Feedback.answersToInsert (interviewId req) evaluations qas)
                w) ;;;
  let overallScore := Feedback.overallScore evaluations (scorePenalty req) in
  db_or_throw (fun w =>
    set_interviews
      (map (complete_interview (interviewId req)
              (option_map JS.round1 overallScore) (now w))
           (interviews w))
      w) ;;;
  ret (mkResponse 200
         (FeedbackBody true (option_map JS.Math_round overallScore))).

Definition generate_feedback (req : FeedbackRequest)
  : World -> Response * World :=
  serve (generate_feedback_body req).

(** The next [n] persistence calls report no error. *)
Definition calls_succeed (n : nat) (w : World) : Prop :=
  forallb negb (firstn n (faults w)) = true.

(** What a successful run of [generate-feedback] returns and writes. *)
Definition feedback_outcome (req : FeedbackRequest) (w : World)
  (content : Content Feedback.Evaluation)
  (rest : list (Reply Feedback.Evaluation)) (r : Response) (w' : World)
  : Prop :=
  let evaluations :=
    Feedback.evaluateAnswers content (answersToEvaluate (questions req)) in
  r = mkResponse 200
        (FeedbackBody true
           (Feedback.returnedScore evaluations (scorePenalty req)))
  /\ interviews w'
     = map (complete_interview (interviewId req)
              (Feedback.persistedScore evaluations (scorePenalty req)) (now w))
           (interviews w)
  /\ answers w'
     = (answers w
        ++ Feedback.answersToInsert (interviewId req) evaluations
             (answersToEvaluate (questions req)))%list
  /\ feedback_oracle w' = rest.

(** How a handler surfaces a gateway status outside [200..299]. *)
Definition surfaced (st : Z) (r : Response) : Prop :=
  (st = 429%Z -> r = rate_limited)
  /\ (st = 402%Z -> r = credits_exhausted)
  /\ (st <> 429%Z -> st <> 402%Z ->
      r = mkResponse 500 (ErrorBody ("AI gateway error: " ++ show_Z st))).

End Server.

(** ** The [useDeviceDetection] hook *)

Module DeviceDetection.

Local Open Scope string_scope.

Definition SUSPICIOUS_OBJECTS : list string :=
  [ "cell phone"; "mobile phone"; "book"; "laptop"; "remote"; "tablet";
    "computer" ].

(** One result of the object classifier. *)
Record Prediction := mkPrediction {
  label : string;
  score : Q
}.

Record DetectedDevice := mkDetectedDevice {
  class : string;
  device_score : Q;
  timestamp : Z
}.

(** The hook's state: the [useState] cells and the refs.  [detector] stands
    for [detectorRef.current] and [canvasRef.current], which are set
    together; [isDetecting] also stands for the interval handle, which is
    set and cleared with it. *)
Record State := mkState {
  detector : bool;
  isModelLoaded : bool;
  isDetecting : bool;
  detectedDevices : list DetectedDevice;
  deviceWarningCount : nat;
  showDeviceWarning : bool;
  currentDeviceWarning : option string;
  lastWarningTime : Z
}.

Definition initial : State :=
  mkState false false false [] 0 false None 0.

(** [c.toLowerCase()] on the characters below 256. *)
Definition lower_char (c : ascii) : ascii :=
  let n := nat_of_ascii c in
  if (((65 <=? n) && (n <=? 90))
      || ((192 <=? n) && (n <=? 222) && negb (n =? 215)))%nat%bool
  then ascii_of_nat (n + 32)
  else c.

Fixpoint toLowerCase (s : string) : string :=
  match s with
  | EmptyString => EmptyString
  | String c s' => String (lower_char c) (toLowerCase s')
  end.

(** [s.includes(sub)]. *)
Fixpoint includes (s sub : string) : bool :=
  if String.prefix sub s then true
  else match s with
       | EmptyString => false
       | String _ s' => includes s' sub
       end.

(** The filter of [detectObjects]. *)
Definition isSuspicious (pred : Prediction) : bool :=
  existsb (fun obj => includes (toLowerCase (label pred)) obj) SUSPICIOUS_OBJECTS
  && (if Qlt_le_dec (1 # 2) (score pred) then true else false).

(** [[...new Set(names)]]: the first occurrence of each name, in order. *)
Fixpoint unique (seen : list string) (names : list string) : list string :=
  match names with
  | [] => []
  | name :: rest =>
      if existsb (String.eqb name) seen then unique seen rest
      else name :: unique (name :: seen) rest
  end.

(** [names.join] with a comma and a space. *)
Fixpoint join (names : list string) : string :=
  match names with
  | [] => EmptyString
  | [name] => name
  | name :: rest => name ++ ", " ++ join rest
  end.

(** [suspiciousItems.find(i => i.label === name)?.score || 0]. *)
Definition scoreOf (suspiciousItems : list Prediction) (name : string) : Q :=
  match find (fun i => String.eqb (label i) name) suspiciousItems with
  | Some i => JS.num_or (score i) 0
  | None => 0
  end.

Definition deviceNames (suspiciousItems : list Prediction) : list string :=
  unique [] (map label suspiciousItems).

(** The state after a warning is raised at time [time]. *)
Definition raiseWarning (time : Z) (suspiciousItems : list Prediction)
  (st : State) : State :=
  let names := deviceNames suspiciousItems in
  mkState (detector st) (isModelLoaded st) (isDetecting st)
    (detectedDevices st
     ++ map (fun name => mkDetectedDevice name (scoreOf suspiciousItems name) time)
            names)
    (S (deviceWarningCount st))
    true
    (Some (join names))
    time.

(** [detectObjects]: [videoReady] says that the video element exists with
    [readyState === 4] and that the canvas gives a 2D context; [predictions]
    is [None] when the classifier throws, which the [catch] swallows;
    [time] is [Date.now()] in milliseconds. *)
Definition detectObjects (videoReady : bool) (time : Z)
  (predictions : option (list Prediction)) (st : State) : State :=
  if negb (detector st && videoReady) then st
  else match predictions with
       | None => st
       | Some preds =>
           let suspiciousItems := filter isSuspicious preds in
           if (0 <? List.length suspiciousItems)%nat then
             if (5000 <? time - lastWarningTime st)%Z
             then raiseWarning time suspiciousItems st
             else st
           else st
       end.

(** [loadModel]: a failure to load still marks the model as loaded. *)
Definition loadModel (ok : bool) (st : State) : State :=
  mkState (if ok then true else detector st) true (isDetecting st)
    (detectedDevices st) (deviceWarningCount st) (showDeviceWarning st)
    (currentDeviceWarning st) (lastWarningTime st).

Definition set_isDetecting (b : bool) (st : State) : State :=
  mkState (detector st) (isModelLoaded st) b
    (detectedDevices st) (deviceWarningCount st) (showDeviceWarning st)
    (currentDeviceWarning st) (lastWarningTime st).

Definition startDetection (st : State) : State :=
  if (negb (isModelLoaded st) || isDetecting st || negb (detector st))%bool
  then st
  else set_isDetecting true st.

Definition stopDetection (st : State) : State := set_isDetecting false st.

Definition dismissWarning (st : State) : State :=
  mkState (detector st) (isModelLoaded st) (isDetecting st)
    (detectedDevices st) (deviceWarningCount st) false None
    (lastWarningTime st).

End DeviceDetection.

(** ** The [Interview] page *)

Module Interview.

Import Server.
Local Open Scope string_scope.

Inductive Step : Type := step_role | step_interview | step_submitting.

Definition step_eqb (a b : Step) : bool :=
  match a, b with
  | step_role, step_role
  | step_interview, step_interview
  | step_submitting, step_submitting => true
  | _, _ => false
  end.

(** The component's state: its [useState] cells, the state of the
    device-detection hook, and the route the router is on. *)
Record State := mkState {
  step : Step;
  selectedRole : string;
  questions : list Server.Question;
  currentQuestion : nat;
  currentAnswer : string;
  isGenerating : bool;
  interviewId : string;
  userId : string;
  resumeFile : option string;
  cameraEnabled : bool;
  tabSwitchCount : nat;
  showTabWarning : bool;
  scorePenalty : nat;
  detection : DeviceDetection.State;
  location : string
}.

Definition set_step (v : Step) (st : State) : State :=
  mkState v (selectedRole st) (questions st) (currentQuestion st)
    (currentAnswer st) (isGenerating st) (interviewId st) (userId st)
    (resumeFile st) (cameraEnabled st) (tabSwitchCount st)
    (showTabWarning st) (scorePenalty st) (detection st) (location st).

Definition set_selectedRole (v : string) (st : State) : State :=
  mkState (step st) v (questions st) (currentQuestion st) (currentAnswer st)
    (isGenerating st) (interviewId st) (userId st) (resumeFile st)
    (cameraEnabled st) (tabSwitchCount st) (showTabWarning st)
    (scorePenalty st) (detection st) (location st).

Definition set_questions (v : list Server.Question) (st : State) : State :=
  mkState (step st) (selectedRole st) v (currentQuestion st)
    (currentAnswer st) (isGenerating st) (interviewId st) (userId st)
    (resumeFile st) (cameraEnabled st) (tabSwitchCount st)
    (showTabWarning st) (scorePenalty st) (detection st) (location st).

Definition set_currentQuestion (v : nat) (st : State) : State :=
  mkState (step st) (selectedRole st) (questions st) v (currentAnswer st)
    (isGenerating st) (interviewId st) (userId st) (resumeFile st)
    (cameraEnabled st) (tabSwitchCount st) (showTabWarning st)
    (scorePenalty st) (detection st) (location st).

Definition set_currentAnswer (v : string) (st : State) : State :=
  mkState (step st) (selectedRole st) (questions st) (currentQuestion st) v
    (isGenerating st) (interviewId st) (userId st) (resumeFile st)
    (cameraEnabled st) (tabSwitchCount st) (showTabWarning st)
    (scorePenalty st) (detection st) (location st).

Definition set_isGenerating (v : bool) (st : State) : State :=
  mkState (step st) (selectedRole st) (questions st) (currentQuestion st)
    (currentAnswer st) v (interviewId st) (userId st) (resumeFile st)
    (cameraEnabled st) (tabSwitchCount st) (showTabWarning st)
    (scorePenalty st) (detection st) (location st).

Definition set_interviewId (v : string) (st : State) : State :=
  mkState (step st) (selectedRole st) (questions st) (currentQuestion st)
    (currentAnswer st) (isGenerating st) v (userId st) (resumeFile st)
    (cameraEnabled st) (tabSwitchCount st) (showTabWarning st)
    (scorePenalty st) (detection st) (location st).

Definition set_resumeFile (v : option string) (st : State) : State :=
  mkState (step st) (selectedRole st) (questions st) (currentQuestion st)
    (currentAnswer st) (isGenerating st) (interviewId st) (userId st) v
    (cameraEnabled st) (tabSwitchCount st) (showTabWarning st)
    (scorePenalty st) (detection st) (location st).

Definition set_cameraEnabled (v : bool) (st : State) : State :=
  mkState (step st) (selectedRole st) (questions st) (currentQuestion st)
    (currentAnswer st) (isGenerating st) (interviewId st) (userId st)
    (resumeFile st) v (tabSwitchCount st) (showTabWarning st)
    (scorePenalty st) (detection st) (location st).

Definition set_tabSwitchCount (v : nat) (st : State) : State :=
  mkState (step st) (selectedRole st) (questions st) (currentQuestion st)
    (currentAnswer st) (isGenerating st) (interviewId st) (userId st)
    (resumeFile st) (cameraEnabled st) v (showTabWarning st)
    (scorePenalty st) (detection st) (location st).

Definition set_showTabWarning (v : bool) (st : State) : State :=
  mkState (step st) (selectedRole st) (questions st) (currentQuestion st)
    (currentAnswer st) (isGenerating st) (interviewId st) (userId st)
    (resumeFile st) (cameraEnabled st) (tabSwitchCount st) v
    (scorePenalty st) (detection st) (location st).

Definition set_scorePenalty (v : nat) (st : State) : State :=
  mkState (step st) (selectedRole st) (questions st) (currentQuestion st)
    (currentAnswer st) (isGenerating st) (interviewId st) (userId st)
    (resumeFile st) (cameraEnabled st) (tabSwitchCount st)
    (showTabWarning st) v (detection st) (location st).

Definition set_detection (v : DeviceDetection.State) (st : State) : State :=
  mkState (step st) (selectedRole st) (questions st) (currentQuestion st)
    (currentAnswer st) (isGenerating st) (interviewId st) (userId st)
    (resumeFile st) (cameraEnabled st) (tabSwitchCount st)
    (showTabWarning st) (scorePenalty st) v (location st).

Definition set_location (v : string) (st : State) : State :=
  mkState (step st) (selectedRole st) (questions st) (currentQuestion st)
    (currentAnswer st) (isGenerating st) (interviewId st) (userId st)
    (resumeFile st) (cameraEnabled st) (tabSwitchCount st)
    (showTabWarning st) (scorePenalty st) (detection st) v.

Definition initial (user : string) : State :=
  mkState step_role EmptyString [] 0 EmptyString false EmptyString user None
    false 0 false 0 DeviceDetection.initial "/interview".

Definition deviceWarningCount (st : State) : nat :=
  DeviceDetection.deviceWarningCount (detection st).

(** The effect with dependencies [[deviceWarningCount, step, toast]]
    ([toast] never changes): after a render in which a dependency differs
    from the previous render, it adds [10] to the penalty if there has been
    a device warning and the step is the interview. *)
Definition penaltyEffect (prev next : State) : State :=
  if (negb (deviceWarningCount prev =? deviceWarningCount next)%nat
      || negb (step_eqb (step prev) (step next)))%bool
  then
    if ((0 <? deviceWarningCount next)%nat
        && step_eqb (step next) step_interview)%bool
    then set_scorePenalty (scorePenalty next + 10) next
    else next
  else next.

(** A render: [prev] is the state of the previous render, [next] the state
    after the batched updates. *)
Definition render (prev next : State) : State := penaltyEffect prev next.

(** [handleVisibilityChange]; the listener is installed only while the step
    is the interview. *)
Definition handleVisibilityChange (hidden : bool) (st : State) : State :=
  if (step_eqb (step st) step_interview && hidden)%bool
  then render st
         (set_showTabWarning true
            (set_scorePenalty (scorePenalty st + 5)
               (set_tabSwitchCount (tabSwitchCount st + 1) st)))
  else st.

(** One run of the detection interval's callback. *)
Definition detectionTick (videoReady : bool) (time : Z)
  (predictions : option (list DeviceDetection.Prediction)) (st : State)
  : State :=
  if DeviceDetection.isDetecting (detection st)
  then render st
         (set_detection
            (DeviceDetection.detectObjects videoReady time predictions
               (detection st))
            st)
  else st.

(** [startCamera]: with the camera granted, the stream is kept and, a
    second later, [startDetection] runs; otherwise only a toast is shown. *)
Definition startCamera (w : World) (st : State) : State :=
  if camera_granted w
  then set_detection (DeviceDetection.startDetection (detection st))
         (set_cameraEnabled true st)
  else st.

Definition stopCamera (st : State) : State :=
  set_detection (DeviceDetection.stopDetection (detection st))
    (set_cameraEnabled false st).

(** The identifier the database gives to a new row. *)
Definition new_id (w : World) : string :=
  NilEmpty.string_of_uint (Nat.to_uint (List.length (interviews w))).

(** [uploadResume]: the stored path is [userId/Date.now()-name]; an upload
    error gives [null]. *)
Definition uploadResume (st : State) (w : World) : option string * World :=
  match resumeFile st with
  | None => (None, w)
  | Some name =>
      if String.eqb (userId st) EmptyString then (None, w)
      else
        let path := userId st ++ "/" ++ Oracle.show_Z (now w) ++ "-" ++ name in
        match db_call (fun w' => set_uploads (uploads w' ++ [path]) w') w with
        | (true, w') => (None, w')
        | (false, w') => (Some name, w')
        end
  end.

(** [supabase.functions.invoke]: a response outside [200..299] is reported
    as [error]. *)
Definition invoke_ok (r : Oracle.Response) : bool :=
  JS.status_ok (Oracle.status r).

(** [generateQuestions]: the page's handler of the Start Interview button. *)
Definition generateQuestions (st : State) (w : World) : State * World :=
  let st1 := render st (set_isGenerating true st) in
  let (_, w1) := uploadResume st w in
  let row := mkInterviewRow (new_id w1) (userId st) (selectedRole st)
               (Some 0%Q) in_progress None in
  match db_call (fun w' => set_interviews (interviews w' ++ [row]) w') w1 with
  | (true, w2) => (render st1 (set_isGenerating false st1), w2)
  | (false, w2) =>
      let st2 := render st1 (set_interviewId (id row) st1) in
      let (response, w3) := generate_questions w2 in
      match invoke_ok response, Oracle.body response with
      | true, Oracle.QuestionsBody qs =>
          let st3 :=
            render st2
              (set_step step_interview
                 (set_questions (map (fun q => mkQuestion q None) qs) st2)) in
          let st4 := render st3 (startCamera w3 st3) in
          (render st4 (set_isGenerating false st4), w3)
      | _, _ => (render st2 (set_isGenerating false st2), w3)
      end
  end.

(** The body of the request to [generate-feedback], read from the state
    the handler was created in. *)
Definition feedbackRequest (closure : State) (finalQuestions : list Question)
  : FeedbackRequest :=
  mkFeedbackRequest (interviewId closure) finalQuestions
    (selectedRole closure)
    (inject_Z (Z.of_nat (scorePenalty closure)))
    (Z.of_nat (tabSwitchCount closure))
    (Z.of_nat (deviceWarningCount closure)).

(** [submitInterview], called by [handleNext] in the same batch of updates
    as its [setQuestions]: [closure] is the state the handler was created
    in and [st] the state with the updates made so far. *)
Definition submitInterview (closure : State) (finalQuestions : list Question)
  (st : State) (w : World) : State * World :=
  let st1 := render closure (stopCamera (set_step step_submitting st)) in
  let (response, w1) :=
    generate_feedback (feedbackRequest closure finalQuestions) w in
  if invoke_ok response
  then (render st1 (set_location ("/feedback/" ++ interviewId closure) st1), w1)
  else (render st1 (set_step step_interview st1), w1).

(** [updatedQuestions[currentQuestion].answer = currentAnswer]. *)
Fixpoint setAnswer (index : nat) (a : string) (qs : list Question)
  : list Question :=
  match qs, index with
  | [], _ => []
  | q :: qs', O => mkQuestion (text q) (Some a) :: qs'
  | q :: qs', S index' => q :: setAnswer index' a qs'
  end.

(** [handleNext]; with no question at the index the assignment throws and
    nothing is set. *)
Definition handleNext (st : State) (w : World) : State * World :=
  match nth_error (questions st) (currentQuestion st) with
  | None => (st, w)
  | Some _ =>
      let updatedQuestions :=
        setAnswer (currentQuestion st) (currentAnswer st) (questions st) in
      let st1 := set_questions updatedQuestions st in
      if (currentQuestion st <? List.length (questions st) - 1)%nat
      then (render st
              (set_currentAnswer EmptyString
                 (set_currentQuestion (currentQuestion st + 1) st1)), w)
      else submitInterview st updatedQuestions st1 w
  end.

(** What the user and the browser can do to the page. *)
Inductive Event : Type :=
| ModelLoaded (ok : bool)
| SelectRole (r : string)
| SelectResume (name : string)
| StartInterview
| TypeAnswer (a : string)
| Next
| VisibilityChange (hidden : bool)
| DetectionTick (videoReady : bool) (time : Z)
    (predictions : option (list DeviceDetection.Prediction))
| ToggleCamera
| DismissWarning.

(** The page's reaction to an event while it is mounted.  A control acts
    only where the page renders it enabled: the role picker and the start
    button on the role step (the button with a role selected and no
    generation under way), the answer box, the camera button and the next
    button on the interview step with questions (the next button with a
    non-blank answer). *)
Definition handle (e : Event) (st : State) (w : World) : State * World :=
  let on_role := step_eqb (step st) step_role in
  let on_interview :=
    (step_eqb (step st) step_interview
     && (0 <? List.length (questions st))%nat)%bool in
  match e with
  | ModelLoaded ok =>
      (render st (set_detection (DeviceDetection.loadModel ok (detection st)) st), w)
  | SelectRole r =>
      if on_role then (render st (set_selectedRole r st), w) else (st, w)
  | SelectResume name =>
      if on_role then (render st (set_resumeFile (Some name) st), w) else (st, w)
  | StartInterview =>
      if (on_role && negb (String.eqb (selectedRole st) EmptyString)
          && negb (isGenerating st))%bool
      then generateQuestions st w
      else (st, w)
  | TypeAnswer a =>
      if on_interview then (render st (set_currentAnswer a st), w) else (st, w)
  | Next =>
      if (on_interview
          && negb (String.eqb (Questions.trim (currentAnswer st)) EmptyString))%bool
      then handleNext st w
      else (st, w)
  | VisibilityChange hidden => (handleVisibilityChange hidden st, w)
  | DetectionTick videoReady time predictions =>
      (detectionTick videoReady time predictions st, w)
  | ToggleCamera =>
      if on_interview
      then (render st (if cameraEnabled st then stopCamera st
                       else startCamera w st), w)
      else (st, w)
  | DismissWarning =>
      (render st (set_detection (DeviceDetection.dismissWarning (detection st)) st), w)
  end.

(** Once the router has left the page, the component is unmounted and its
    listeners and interval are gone. *)
Definition react (e : Event) (st : State) (w : World) : State * World :=
  if String.eqb (location st) "/interview" then handle e st w else (st, w).

Fixpoint run (events : list Event) (st : State) (w : World) : State * World :=
  match events with
  | [] => (st, w)
  | e :: rest => let (st', w') := react e st w in run rest st' w'
  end.

(** The penalty ledger of a session is balanced when the penalty is five
    points per tab switch plus ten per device warning. *)
Definition ledger_balanced (st : State) : Prop :=
  scorePenalty st = (5 * tabSwitchCount st + 10 * deviceWarningCount st)%nat.

(** The page shows the last question of the interview. *)
Definition on_last_question (st : State) : Prop :=
  step st = step_interview
  /\ S (currentQuestion st) = List.length (questions st).

(** The answers of the questions as the database receives them. *)
Definition transcript (qs : list Question) : list string :=
  map Feedback.answer (answersToEvaluate qs).

(** The world lets a submission of the session through: the key is set,
    the gateway's next reply is a success, the next two persistence calls
    report no error and the session's row exists. *)
Definition retry_ready (st : State) (w : World) : Prop :=
  api_key w = true
  /\ (exists status content rest,
         feedback_oracle w = Oracle.Replied status content :: rest
         /\ JS.status_ok status = true)
  /\ calls_succeed 2 w
  /\ (exists row, In row (interviews w) /\ id row = interviewId st).

(** The session is completed: the router shows its feedback page and its
    row is marked completed. *)
Definition session_completed (session : string) (st : State) (w : World)
  : Prop :=
  location st = "/feedback/" ++ session
  /\ (exists row, In row (interviews w) /\ id row = session)
  /\ (forall row, In row (interviews w) -> id row = session ->
      status row = completed).

(** No field of the ledger is smaller in [st'] than in [st]. *)
Definition ledger_le (st st' : State) : Prop :=
  (tabSwitchCount st <= tabSwitchCount st')%nat
  /\ (deviceWarningCount st <= deviceWarningCount st')%nat
  /\ (scorePenalty st <= scorePenalty st')%nat.

End Interview.

(** ** Concrete inputs used in the examples below *)

Module Samples.

Import Server.
Local Open Scope string_scope.

Definition good_evaluation : Feedback.Evaluation :=
  Feedback.mkEvaluation 80 90 70 85 "Clear and relevant.".

(** An evaluation whose scores are far above the scale. *)
Definition wild_evaluation : Feedback.Evaluation :=
  Feedback.mkEvaluation 500 500 500 500 "Outstanding.".

(** An evaluation whose mean, 70.25, has a second decimal. *)
Definition uneven_evaluation : Feedback.Evaluation :=
  Feedback.mkEvaluation 70 70 75 66 "Good.".

Definition one_answer : list Feedback.QA :=
  [Feedback.mkQA "Why this role?" "Because I like it."].

(** A reply with no bracketed part whose only long line is a bare item
    number. *)
Definition numbered_blank : string := "12345678901.".

Definition two_questions : list string :=
  ["Why this role?"; "What is a monad?"].

Definition phone : DeviceDetection.Prediction :=
  DeviceDetection.mkPrediction "Cell Phone" (9 # 10).

Definition book : DeviceDetection.Prediction :=
  DeviceDetection.mkPrediction "book" (7 # 10).

Definition five_texts : list string :=
  ["Why this role?"; "What is a monad?"; "How do you test your code?";
   "Tell me about a bug you fixed."; "Where do you want to grow?"].

(** A world in which the start of an interview succeeds, the first
    submission meets a rate-limited gateway and the second goes through. *)
Definition session_world : World :=
  mkWorld true 1700000000123
    [Oracle.Replied 200 (Oracle.JsonArray five_texts)]
    [Oracle.Replied 429 Oracle.BadJson; Oracle.Replied 200 Oracle.BadJson]
    [] [] [] [] true.

(** A world in which the start of an interview succeeds and the gateway
    scores every submission, but the first insertion of the answers fails. *)
Definition faulty_world : World :=
  mkWorld true 1700000000123
    [Oracle.Replied 200 (Oracle.JsonArray five_texts)]
    [Oracle.Replied 200 Oracle.BadJson; Oracle.Replied 200 Oracle.BadJson]
    [false; true] [] [] [] true.

(** A world whose gateway is rate limited when the interview is started. *)
Definition rate_limited_world : World :=
  mkWorld true 1700000000123
    [Oracle.Replied 429 Oracle.BadJson]
    [Oracle.Replied 429 Oracle.BadJson]
    [] [] [] [] true.

(** A user starts an interview, shows a phone to the camera once, and
    answers the first four questions and types the fifth answer. *)
Definition until_last_answer : list Interview.Event :=
  [ Interview.ModelLoaded true;
    Interview.SelectRole "software-engineer";
    Interview.StartInterview;
    Interview.DetectionTick true 1700000010000 (Some [phone]);
    Interview.TypeAnswer "I like it."; Interview.Next;
    Interview.TypeAnswer "A monoid."; Interview.Next;
    Interview.TypeAnswer "With care."; Interview.Next;
    Interview.TypeAnswer "An off-by-one."; Interview.Next;
    Interview.TypeAnswer "Everywhere." ].

Definition before_submission : Interview.State * World :=
  Interview.run until_last_answer (Interview.initial "u1") session_world.

Definition before_faulty_submission : Interview.State * World :=
  Interview.run until_last_answer (Interview.initial "u1") faulty_world.

(** A request to score one answered question of the session [0], without
    penalty. *)
Definition one_question_request : FeedbackRequest :=
  mkFeedbackRequest "0" [mkQuestion "Why this role?" (Some "I like it.")]
    "software-engineer" 0 0 0.

(** A world holding the session [0] in progress, whose gateway scores the
    answer 70, 70, 75, 66. *)
Definition scoring_world : World :=
  mkWorld true 1700000000123 []
    [Oracle.Replied 200 (Oracle.JsonArray [uneven_evaluation])]
    []
    [mkInterviewRow "0" "u1" "software-engineer" (Some 0%Q) in_progress None]
    [] [] true.

(** The hook with its model loaded and the interval running. *)
Definition watching : DeviceDetection.State :=
  DeviceDetection.startDetection
    (DeviceDetection.loadModel true DeviceDetection.initial).

End Samples.

(** ** Conditions used in the statements below *)

Module Conditions.

(** The content gives no evaluation: it holds an empty array, or nothing
    that parses. *)
Definition no_evaluations (content : Oracle.Content Feedback.Evaluation)
  : Prop :=
  match content with
  | Oracle.JsonArray items => items = []
  | _ => True
  end.

(** A detection as the interval delivers it: whether the video was ready,
    the time, and what the classifier returned. *)
Definition Tick : Type :=
  (bool * Z * option (list DeviceDetection.Prediction))%type.

(** The hook's state after the detections of [ticks], in order. *)
Fixpoint detectAll (ticks : list Tick) (st : DeviceDetection.State)
  : DeviceDetection.State :=
  match ticks with
  | [] => st
  | (ready, time, predictions) :: rest =>
      detectAll rest
        (DeviceDetection.detectObjects ready time predictions st)
  end.

Definition tick_time (t : Tick) : Z := snd (fst t).

(** A logged device is well formed for a detection at [time] over [preds]:
    it carries that time, the label of a suspicious prediction of the
    frame, and a confidence above one half. *)
Definition logged_from (time : Z) (preds : list DeviceDetection.Prediction)
  (d : DeviceDetection.DetectedDevice) : Prop :=
  DeviceDetection.timestamp d = time
  /\ (1 # 2 < DeviceDetection.device_score d)%Q
  /\ exists p, In p preds
              /\ DeviceDetection.isSuspicious p = true
              /\ DeviceDetection.label p = DeviceDetection.class d
              /\ DeviceDetection.score p = DeviceDetection.device_score d.

(** The events of a user typing and confirming each answer of [texts] in
    turn. *)
Definition answering (texts : list string) : list Interview.Event :=
  flat_map (fun a => [Interview.TypeAnswer a; Interview.Next]) texts.

(** The questions after the answers [texts] have been written, one per
    question, from the question at [index] on. *)
Fixpoint recordAnswers (index : nat) (texts : list string)
  (qs : list Server.Question) : list Server.Question :=
  match texts with
  | [] => qs
  | a :: rest => recordAnswers (S index) rest (Interview.setAnswer index a qs)
  end.

(** The answer is not blank, so the page enables its next button. *)
Definition not_blank (a : string) : Prop :=
  Questions.trim a <> EmptyString.



(** The event is not a successful load of the detection model. *)
Definition not_loaded (e : Interview.Event) : Prop :=
  e <> Interview.ModelLoaded true.

(** The string has no white space at either end. *)
Definition trimmed (q : string) : Prop :=
  Questions.trimStart q = q /\ Questions.trimEnd q = q.

(** The line is too short for the line-splitting branch to keep it. *)
Definition short_line (line : string) : Prop :=
  (String.length (Questions.trim line) <= 10)%nat.

End Conditions.

(** ** The [generate-coaching] edge function *)

Module Coaching.

Local Open Scope string_scope.

(** The coaching object as the handler declares it. *)
Record Advice := mkAdvice {
  strengths : list string;
  weaknesses : list string;
  focusAreas : list string;
  recommendations : list string
}.

(** What [content.match(/\{[\s\S]*\}/)] followed by [JSON.parse] makes of
    the message content, read at the type the handler declares. *)
Inductive Content : Type :=
| JsonObject (coaching : Advice)   (* a braced part that parses *)
| BadJson                          (* a braced part on which JSON.parse throws *)
| PlainText (text : string).       (* no braced part at all *)

(** One [fetch] of the gateway, as in [Oracle.Reply]. *)
Inductive Reply : Type :=
| Rejected (message : string)
| Replied (status : Z) (content : Content).

Inductive Body : Type :=
| CoachingBody (coaching : Advice)
| ErrorBody (error : string).

Record Response := mkResponse {
  status : Z;
  body : Body
}.



Definition internal_error (message : string) : Response :=
  mkResponse 500 (ErrorBody message).



End Coaching.

(** ** The feedback page: colours and labels of a score *)

Module FeedbackPage.

Local Open Scope string_scope.

Definition ge_bool (score bound : Q) : bool := Qle_bool bound score.

Definition getScoreColor (score : Q) : string :=
  if ge_bool score 80 then "text-green-500"
  else if ge_bool score 60 then "text-amber-400"
  else "text-red-400".

Definition getScoreLabel (score : Q) : string :=
  if ge_bool score 80 then "Excellent"
  else if ge_bool score 60 then "Good"
  else if ge_bool score 40 then "Fair"
  else "Needs Work".

(** The labels from worst to best. *)
Definition labelRank (label : string) : nat :=
  if String.eqb label "Excellent" then 3
  else if String.eqb label "Good" then 2
  else if String.eqb label "Fair" then 1
  else 0.

End FeedbackPage.

(** ** The dashboard: statistics over a user's sessions *)

Module Dashboard.

Import JS.
Local Open Scope Q_scope.

(** [rows.reduce((acc, a) => acc + Number(a.score || 0), 0) / rows.length]
    for one of the four score columns; the page computes it only for a list
    that has a first row. *)
Definition averageOf (column : Feedback.AnswerRow -> Q)
  (first : Feedback.AnswerRow) (others : list Feedback.AnswerRow) : Q :=
  fold_left (fun acc a => acc + num_or (column a) 0) (first :: others) 0
  / inject_Z (Z.of_nat (List.length (first :: others))).

Record Averages := mkAverages {
  relevance : Q;
  clarity : Q;
  grammar : Q;
  confidence : Q
}.

Definition zeros : Averages := mkAverages 0 0 0 0.

Definition averages (first : Feedback.AnswerRow)
  (others : list Feedback.AnswerRow) : Averages :=
  mkAverages (averageOf Feedback.relevance_score first others)
    (averageOf Feedback.clarity_score first others)
    (averageOf Feedback.grammar_score first others)
    (averageOf Feedback.confidence_score first others).

(** The averages are computed only [if (rows && rows.length > 0)]; [None]
    is the [null] of a failed query. *)
Definition averagesOrZeros (rows : option (list Feedback.AnswerRow))
  : Averages :=
  match rows with
  | Some (a :: l) => averages a l
  | _ => zeros
  end.

(** [Number(i.overall_score || 0)]. *)
Definition overallOrZero (row : Server.InterviewRow) : Q :=
  match Server.overall_score row with
  | Some s => num_or s 0
  | None => 0
  end.

Definition avgScore (first : Server.InterviewRow)
  (others : list Server.InterviewRow) : Q :=
  fold_left (fun acc i => acc + overallOrZero i) (first :: others) 0
  / inject_Z (Z.of_nat (List.length (first :: others))).

(** [Object.entries(userSkills)]. *)
Definition entries (userSkills : Averages) : list (string * Q) :=
  [ ("Relevance"%string, relevance userSkills);
    ("Clarity"%string, clarity userSkills);
    ("Grammar"%string, grammar userSkills);
    ("Confidence"%string, confidence userSkills) ].

(** [.sort((a, b) => b[1] - a[1])]: the sort is stable, so its result is
    the one of an insertion that puts an entry before the first entry, among
    those that followed it, whose value is not larger. *)
Fixpoint insertEntry (x : string * Q) (l : list (string * Q))
  : list (string * Q) :=
  match l with
  | [] => [x]
  | y :: l' =>
      if Qle_bool (snd y) (snd x) then x :: l else y :: insertEntry x l'
  end.

Definition sortEntries (l : list (string * Q)) : list (string * Q) :=
  fold_right insertEntry [] l.

(** [sortedSkills[0]?.[0] || "N/A"]. *)
Definition firstName (sorted : list (string * Q)) : string :=
  match sorted with
  | [] => "N/A"
  | x :: _ => str_or (fst x) "N/A"
  end.

(** [sortedSkills[sortedSkills.length - 1]?.[0] || "N/A"]. *)
Definition lastName (sorted : list (string * Q)) : string :=
  match rev sorted with
  | [] => "N/A"
  | x :: _ => str_or (fst x) "N/A"
  end.

Record Stats := mkStats {
  totalInterviews : nat;
  averageScore : Q;
  bestSkill : string;
  weakSkill : string
}.

Definition initialStats : Stats := mkStats 0 0 "N/A" "N/A".

Record SkillData := mkSkillData {
  skill : string;
  userScore : Z;
  platformScore : Z
}.

(** The four bars of the comparison chart ([score] and [userScore] are the
    same number). *)
Definition skillData (userSkills platformAvg : Averages) : list SkillData :=
  [ mkSkillData "Relevance" (Math_round (relevance userSkills))
      (Math_round (relevance platformAvg));
    mkSkillData "Clarity" (Math_round (clarity userSkills))
      (Math_round (clarity platformAvg));
    mkSkillData "Grammar" (Math_round (grammar userSkills))
      (Math_round (grammar platformAvg));
    mkSkillData "Confidence" (Math_round (confidence userSkills))
      (Math_round (confidence platformAvg)) ].

(** The part of [fetchData] after its queries: [interviewData] are the
    user's sessions, [userAnswers] the answers of those sessions and
    [allAnswers] the answers of every user; [stats] is the state so far,
    which is kept when the user has no session. *)
Definition fetchData (stats : Stats)
  (interviewData : option (list Server.InterviewRow))
  (userAnswers allAnswers : option (list Feedback.AnswerRow))
  : Stats * list SkillData :=
  let platformAvg := averagesOrZeros allAnswers in
  match interviewData with
  | Some (i :: l) =>
      let userSkills := averagesOrZeros userAnswers in
      let named :=
        match userAnswers with
        | Some (_ :: _) =>
            let sortedSkills := sortEntries (entries userSkills) in
            (firstName sortedSkills, lastName sortedSkills)
        | _ => ("Communication"%string, "Technical"%string)
        end in
      (mkStats (List.length (i :: l)) (round1 (avgScore i l))
         (fst named) (snd named),
       skillData userSkills platformAvg)
  | _ => (stats, skillData zeros platformAvg)
  end.

(** Every number of a bar lies on the scale of the scores. *)
Definition bar_on_scale (bar : SkillData) : Prop :=
  (0 <= userScore bar <= 100)%Z /\ (0 <= platformScore bar <= 100)%Z.

(** A session's overall score, when it has one, lies on the scale. *)
Definition session_on_scale (row : Server.InterviewRow) : Prop :=
  forall s, Server.overall_score row = Some s -> 0 <= s <= 100.

(** The sessions of a query, when it gave any, have scores on the scale. *)
Definition sessions_on_scale
  (interviewData : option (list Server.InterviewRow)) : Prop :=
  forall l, interviewData = Some l -> Forall session_on_scale l.

(** The rows of a query, when it gave any, hold scores on the scale. *)
Definition rows_on_scale (rows : option (list Feedback.AnswerRow)) : Prop :=
  forall l, rows = Some l -> Forall Feedback.row_scores_in_range l.

End Dashboard.

(** ** Further concrete inputs *)

Module MoreSamples.

Import Server.
Local Open Scope string_scope.

(** A world without the gateway's key. *)
Definition keyless_world : World :=
  mkWorld false 1700000000123
    [Oracle.Replied 200 (Oracle.JsonArray Samples.five_texts)]
    [Oracle.Replied 200 Oracle.BadJson]
    [] [] [] [] true.

(** The world of [Samples.scoring_world], but the update of the session's
    row fails after the answers went in. *)
Definition update_fault_world : World :=
  mkWorld true 1700000000123 []
    [Oracle.Replied 200 (Oracle.JsonArray [Samples.uneven_evaluation])]
    [false; true]
    [mkInterviewRow "0" "u1" "software-engineer" (Some 0%Q) in_progress None]
    [] [] true.

(** A request to score a session without questions. *)
Definition empty_request : FeedbackRequest :=
  mkFeedbackRequest "0" [] "software-engineer" 0 0 0.

(** A world holding the session [0], whose gateway replies with text that
    holds no array. *)
Definition chatty_world : World :=
  mkWorld true 1700000000123 []
    [Oracle.Replied 200 (Oracle.PlainText "I cannot score this.")]
    []
    [mkInterviewRow "0" "u1" "software-engineer" (Some 0%Q) in_progress None]
    [] [] true.

(** A session in which the detection model fails to load and the user
    leaves the tab twice, comes back, and then shows a phone. *)
Definition tabbing : list Interview.Event :=
  [ Interview.ModelLoaded false;
    Interview.SelectRole "data-analyst";
    Interview.StartInterview;
    Interview.VisibilityChange true;
    Interview.VisibilityChange false;
    Interview.VisibilityChange true;
    Interview.DetectionTick true 1700000010000 (Some [Samples.phone]);
    Interview.TypeAnswer "With SQL." ].

(** A world in which the insertion of the session's row fails. *)
Definition insert_fault_world : World :=
  mkWorld true 1700000000123
    [Oracle.Replied 200 (Oracle.JsonArray Samples.five_texts)]
    [] [true] [] [] [] true.

(** The page with a role selected. *)
Definition ready_to_start : Interview.State :=
  fst (Interview.run [Interview.SelectRole "software-engineer"]
         (Interview.initial "u1") Samples.session_world).

(** The page of a session that has just started. *)
Definition just_started : Interview.State * World :=
  Interview.run
    [Interview.SelectRole "software-engineer"; Interview.StartInterview]
    (Interview.initial "u1") Samples.session_world.

Definition three_answers : list string :=
  ["I like it."; "A monoid."; "With care."].

(** The world of [Samples.scoring_world] with two replies of the gateway,
    in which the first update of the session's row fails. *)
Definition retry_world : World :=
  mkWorld true 1700000000123 []
    [Oracle.Replied 200 (Oracle.JsonArray [Samples.uneven_evaluation]);
     Oracle.Replied 200 (Oracle.JsonArray [Samples.good_evaluation])]
    [false; true]
    [mkInterviewRow "0" "u1" "software-engineer" (Some 0%Q) in_progress None]
    [] [] true.

(** A reply in prose, without brackets, whose lines are all short. *)
Definition terse_reply : string :=
  "Sorry." ++ String Questions.newline "  Try again. ".

(** Two sessions of one user, the second without a score yet. *)
Definition two_sessions : list Server.InterviewRow :=
  [ Server.mkInterviewRow "1" "u1" "data-analyst" (Some (703 # 10))
      Server.completed (Some 1700000000000%Z);
    Server.mkInterviewRow "2" "u1" "data-analyst" None
      Server.in_progress None ].

(** The rows of two answers of the first session. *)
Definition scored_rows : list Feedback.AnswerRow :=
  [ Feedback.mkAnswerRow "1" "Why data?" "I like numbers." 70 80 75 65
      "Good attempt!";
    Feedback.mkAnswerRow "1" "Which tools?" "SQL." 60 80 90 65
      "Say more." ].

End MoreSamples.

(** * Properties *)

(** ** Arithmetic of the roundings *)

Module RoundingFacts.

Import JS.
Local Open Scope Q_scope.

Lemma Math_round_mono (x y : Q) : x <= y -> (Math_round x <= Math_round y)%Z.
Proof.
  intros Hxy. unfold Math_round. apply Qfloor_resp_le. lra.
Qed.

#[export] Instance round1_Proper : Proper (Qeq ==> Qeq) round1.
Proof.
  intros x y Hxy. unfold round1, Math_round.
  assert (H : x * 10 + (1 # 2) == y * 10 + (1 # 2)) by (rewrite Hxy; reflexivity).
  rewrite (Qfloor_comp _ _ H). reflexivity.
Qed.

Lemma round1_mono (x y : Q) : x <= y -> round1 x <= round1 y.
Proof.
  intros Hxy. unfold round1.
  assert (H : (Math_round (x * 10) <= Math_round (y * 10))%Z)
    by (apply Math_round_mono; lra).
  rewrite Zle_Qle in H.
  apply Qmult_le_compat_r; [exact H | discriminate].
Qed.

Lemma round1_0 : round1 0 == 0.
Proof. reflexivity. Qed.

Lemma round1_100 : round1 100 == 100.
Proof. reflexivity. Qed.

Lemma round1_range (x : Q) : 0 <= x <= 100 -> 0 <= round1 x <= 100.
Proof.
  intros [H0 H1]. split.
  - rewrite <- round1_0. now apply round1_mono.
  - rewrite <- round1_100. now apply round1_mono.
Qed.


End RoundingFacts.

(** ** The overall score *)

Module ScoreFacts.

Import JS Feedback RoundingFacts.
Local Open Scope Q_scope.

Lemma fold_reduce_step (l : list Evaluation) (a : Q) :
  fold_left reduce_step l a == a + Qsum (map mean4 l).
Proof.
  revert a. induction l as [| e l IH]; intros a; simpl.
  - ring.
  - rewrite IH. unfold reduce_step, mean4. ring.
Qed.

Lemma mean4_range (e : Evaluation) :
  sub_scores_in_range e -> 0 <= mean4 e <= 100.
Proof.
  intros (Hr & Hc & Hg & Hf). unfold mean4.
  split.
  - apply Qle_shift_div_l; [reflexivity | lra].
  - apply Qle_shift_div_r; [reflexivity | lra].
Qed.

Lemma Qsum_mean4_range (l : list Evaluation) :
  Forall sub_scores_in_range l ->
  0 <= Qsum (map mean4 l) <= 100 * inject_Z (Z.of_nat (List.length l)).
Proof.
  induction 1 as [| e l He _ IH].
  - simpl. split; [apply Qle_refl | discriminate].
  - cbn [map Qsum fold_right List.length].
    fold (Qsum (map mean4 l)).
    rewrite Nat2Z.inj_succ, <- Z.add_1_r, inject_Z_plus.
    change (inject_Z 1) with 1.
    pose proof (mean4_range e He). lra.
Qed.

Lemma length_positive {A : Type} (l : list A) :
  (1 <= List.length l)%nat -> 0 < inject_Z (Z.of_nat (List.length l)).
Proof.
  intros H. change 0 with (inject_Z 0). rewrite <- Zlt_Qlt. lia.
Qed.

Lemma mean_mean4_range (l : list Evaluation) :
  (1 <= List.length l)%nat -> Forall sub_scores_in_range l ->
  0 <= mean (map mean4 l) <= 100.
Proof.
  intros Hn Hl. unfold mean. rewrite length_map.
  pose proof (length_positive l Hn) as Hpos.
  pose proof (Qsum_mean4_range l Hl) as [Hlo Hhi].
  split.
  - apply Qle_shift_div_l; [exact Hpos | lra].
  - apply Qle_shift_div_r; [exact Hpos | lra].
Qed.

(** The [reduce] of the handler computes the mean of the per-answer means. *)
Lemma overallScoreBeforePenalty_mean (l : list Evaluation) :
  (1 <= List.length l)%nat ->
  exists s, overallScoreBeforePenalty l = Some s /\ s == mean (map mean4 l).
Proof.
  intros Hn. destruct l as [| e l]; [simpl in Hn; lia |].
  eexists. split; [reflexivity |].
  unfold mean. rewrite length_map, fold_reduce_step.
  apply Qmult_comp; [ring | reflexivity].
Qed.

(** Skipping the floor at zero when the penalty is not positive changes
    nothing on a score that is not negative. *)
Lemma applyPenalty_max (s P : Q) :
  0 <= s -> 0 <= P -> applyPenalty s P == Math_max 0 (s - P).
Proof.
  intros Hs HP. unfold applyPenalty, Math_max.
  destruct (Qlt_le_dec 0 P) as [Hlt | Hle]; [reflexivity |].
  rewrite Q.max_r by lra. lra.
Qed.


#[export] Instance Math_max_Proper : Proper (Qeq ==> Qeq ==> Qeq) Math_max.
Proof. intros a b Hab c d Hcd. unfold Math_max. now rewrite Hab, Hcd. Qed.



End ScoreFacts.

(** ** Evaluations: parsing, padding and the stored rows *)

Module EvaluationFacts.

Import JS Feedback RoundingFacts.
Local Open Scope Q_scope.

Lemma pushPadding_spec (fuel n : nat) (l : list Evaluation) :
  (n - List.length l <= fuel)%nat ->
  pushWhileShort fuel n l
  = (l ++ repeat paddingEvaluation (n - List.length l))%list.
Proof.
  revert l. induction fuel as [| fuel IH]; intros l Hfuel; simpl.
  - replace (n - List.length l)%nat with 0%nat by lia.
    simpl. now rewrite app_nil_r.
  - destruct (Nat.ltb_spec (List.length l) n) as [Hlt | Hge].
    + rewrite IH by (rewrite length_app; simpl; lia).
      rewrite length_app. simpl.
      replace (n - List.length l)%nat
        with (S (n - (List.length l + 1)))%nat by lia.
      simpl. now rewrite <- app_assoc.
    + replace (n - List.length l)%nat with 0%nat by lia.
      simpl. now rewrite app_nil_r.
Qed.

(** The loop that pads the evaluations ends, and appends exactly the missing
    number of padding evaluations. *)
Lemma padEvaluations_spec (n : nat) (l : list Evaluation) :
  padEvaluations n l
  = (l ++ repeat paddingEvaluation (n - List.length l))%list.
Proof. apply pushPadding_spec. lia. Qed.

Lemma clampScore_range (v : option Q) (d : Q) : 0 <= clampScore v d <= 100.
Proof.
  unfold clampScore, Math_min, Math_max.
  set (x := match v with Some y => num_or y d | None => d end).
  split.
  - apply Q.min_glb; [discriminate | apply Q.le_max_l].
  - apply Q.le_min_l.
Qed.

Lemma answerRow_in_range (i : string) (evaluations : list Evaluation)
  (index : nat) (qa : QA) :
  row_scores_in_range (answerRow i evaluations index qa).
Proof.
  unfold row_scores_in_range, answerRow; simpl.
  repeat split; apply clampScore_range.
Qed.

Lemma mapi_Forall {A B : Type} (P : B -> Prop) (f : nat -> A -> B) :
  (forall index x, P (f index x)) ->
  forall l index, Forall P (mapi f index l).
Proof.
  intros Hf l. induction l as [| x l IH]; intros index; simpl; constructor.
  - apply Hf.
  - apply IH.
Qed.

Lemma mapi_length {A B : Type} (f : nat -> A -> B) (l : list A) (index : nat) :
  List.length (mapi f index l) = List.length l.
Proof.
  revert index. induction l as [| x l IH]; intros index; simpl; [| rewrite IH];
    reflexivity.
Qed.

Lemma mapi_map {A B C : Type} (g : B -> C) (f : nat -> A -> B) (h : A -> C) :
  (forall index x, g (f index x) = h x) ->
  forall l index, map g (mapi f index l) = map h l.
Proof.
  intros Hf l. induction l as [| x l IH]; intros index; simpl; [reflexivity |].
  now rewrite Hf, IH.
Qed.

(** Every stored sub-score lies in [0,100], whatever the gateway sent. *)
Lemma stored_scores_in_range (i : string) (evaluations : list Evaluation)
  (qas : list QA) :
  Forall row_scores_in_range (answersToInsert i evaluations qas).
Proof.
  unfold answersToInsert. apply mapi_Forall. intros. apply answerRow_in_range.
Qed.

(** C2, at the failing input: the gateway answers one question with the
    scores 500, 500, 500, 500.  The stored row holds the clamped scores
    (100 each), and the overall score, computed from the scores as they
    came, is persisted as 500. *)
Theorem overall_score_not_clamped :
  let evaluations :=
    evaluateAnswers (Oracle.JsonArray [Samples.wild_evaluation])
      Samples.one_answer in
  Forall row_scores_in_range
    (answersToInsert "0" evaluations Samples.one_answer)
  /\ exists s, persistedScore evaluations 0 = Some s /\ s == 500 /\ 100 < s.
Proof.
  split.
  - apply stored_scores_in_range.
  - eexists. split; [reflexivity |]. split; reflexivity.
Qed.

(** C4, as amended.  The evaluations are the parsed array in its order,
    padded at the end up to the number of answers with evaluations scored
    70, 70, 75, 65; when nothing could be parsed they are one fallback
    evaluation, scored the same, per answer.  Their number is the larger of
    the number of answers and the number of parsed entries, so it equals the
    number of answers whenever the gateway sent no more entries than
    answers; and the stored rows always follow the answers one for one, in
    order. *)
Theorem evaluations_cover_answers (content : Oracle.Content Evaluation)
  (qas : list QA) (i : string) :
  let evaluations := evaluateAnswers content qas in
  let rows := answersToInsert i evaluations qas in
  match content with
  | Oracle.JsonArray items =>
      evaluations
      = (items
         ++ repeat paddingEvaluation (List.length qas - List.length items))%list
      /\ List.length evaluations
         = Nat.max (List.length qas) (List.length items)
  | _ =>
      evaluations = map (fun _ => fallbackEvaluation) qas
      /\ List.length evaluations = List.length qas
  end
  /\ fallback_scores fallbackEvaluation
  /\ fallback_scores paddingEvaluation
  /\ List.length rows = List.length qas
  /\ map row_question rows = map question qas
  /\ map row_answer rows = map answer qas.
Proof.
  intros evaluations rows. subst evaluations rows.
  unfold evaluateAnswers. rewrite padEvaluations_spec.
  split; [| split; [| split; [| split; [| split]]]].
  - destruct content as [items | | text]; simpl.
    + split; [reflexivity |].
      rewrite length_app, repeat_length. lia.
    + rewrite length_map, Nat.sub_diag. simpl. rewrite app_nil_r.
      split; [reflexivity | apply length_map].
    + rewrite length_map, Nat.sub_diag. simpl. rewrite app_nil_r.
      split; [reflexivity | apply length_map].
  - repeat split.
  - repeat split.
  - apply mapi_length.
  - apply mapi_map. reflexivity.
  - apply mapi_map. reflexivity.
Qed.

(** C4 as stated fails: when the gateway sends two evaluations for one
    answer, both are kept. *)
Lemma longer_reply_kept :
  List.length Samples.one_answer = 1%nat
  /\ evaluateAnswers
       (Oracle.JsonArray [Samples.good_evaluation; Samples.wild_evaluation])
       Samples.one_answer
     = [Samples.good_evaluation; Samples.wild_evaluation].
Proof. split; reflexivity. Qed.

End EvaluationFacts.

(** ** The handlers' responses *)

Module ServerFacts.

Import Oracle Server.

Ltac unfold_handler :=
  unfold generate_feedback, generate_questions, serve, generate_feedback_body,
    generate_questions_body, bind, require_api_key, fetch_feedback,
    fetch_questions, next_reply, check_ok, db_or_throw, db_call, ret, raise,
    respond.

Ltac split_match :=
  match goal with
  | |- context [match ?x with _ => _ end] => destruct x eqn:?
  | |- context [if ?x then _ else _] => destruct x eqn:?
  end.

Lemma surfaced_check (st : Z) :
  surfaced st (if (st =? 429)%Z then rate_limited
               else if (st =? 402)%Z then credits_exhausted
               else internal_error (gateway_error st)).
Proof.
  unfold surfaced.
  destruct (Z.eqb_spec st 429) as [-> | H429]; [simpl; intuition congruence |].
  destruct (Z.eqb_spec st 402) as [-> | H402]; [simpl; intuition congruence |].
  intuition congruence.
Qed.

(** A gateway status outside [200..299] ends [generate-questions] after its
    one request, with nothing else touched. *)
Lemma generate_questions_not_ok (w : World) (st : Z) (content : Content string)
  (rest : list (Reply string)) :
  api_key w = true ->
  questions_oracle w = Replied st content :: rest ->
  JS.status_ok st = false ->
  generate_questions w
  = (if (st =? 429)%Z then rate_limited
     else if (st =? 402)%Z then credits_exhausted
     else internal_error (gateway_error st),
     set_questions_oracle rest w).
Proof.
  intros Hkey Horacle Hst. unfold_handler.
  rewrite Hkey, Horacle. simpl. rewrite Hst.
  destruct (st =? 429)%Z; [reflexivity |].
  destruct (st =? 402)%Z; reflexivity.
Qed.

Lemma generate_feedback_not_ok (req : FeedbackRequest) (w : World) (st : Z)
  (content : Content Feedback.Evaluation)
  (rest : list (Reply Feedback.Evaluation)) :
  api_key w = true ->
  feedback_oracle w = Replied st content :: rest ->
  JS.status_ok st = false ->
  generate_feedback req w
  = (if (st =? 429)%Z then rate_limited
     else if (st =? 402)%Z then credits_exhausted
     else internal_error (gateway_error st),
     set_feedback_oracle rest w).
Proof.
  intros Hkey Horacle Hst. unfold_handler.
  rewrite Hkey, Horacle. simpl. rewrite Hst.
  destruct (st =? 429)%Z; [reflexivity |].
  destruct (st =? 402)%Z; reflexivity.
Qed.

Lemma generate_feedback_ok (req : FeedbackRequest) (w : World) (st : Z)
  (content : Content Feedback.Evaluation)
  (rest : list (Reply Feedback.Evaluation)) :
  api_key w = true ->
  feedback_oracle w = Replied st content :: rest ->
  JS.status_ok st = true ->
  calls_succeed 2 w ->
  feedback_outcome req w content rest
    (fst (generate_feedback req w)) (snd (generate_feedback req w)).
Proof.
  intros Hkey Horacle Hst Hcalls.
  destruct w as [key time qo fo fl iv an up cam].
  simpl in Hkey, Horacle. subst key fo.
  unfold calls_succeed in Hcalls. simpl in Hcalls.
  unfold feedback_outcome, Feedback.returnedScore, Feedback.persistedScore.
  unfold_handler. simpl. rewrite Hst. simpl.
  destruct fl as [| [|] [| [|] fl]]; simpl in Hcalls; try discriminate;
    simpl; repeat split.
Qed.

(** An error of either persistence call ends the run with the 500 of the
    [catch]. *)
Lemma generate_feedback_fault (req : FeedbackRequest) (w : World) (st : Z)
  (content : Content Feedback.Evaluation)
  (rest : list (Reply Feedback.Evaluation)) :
  api_key w = true ->
  feedback_oracle w = Replied st content :: rest ->
  JS.status_ok st = true ->
  ~ calls_succeed 2 w ->
  fst (generate_feedback req w) = internal_error PostgrestError.
Proof.
  intros Hkey Horacle Hst Hcalls.
  destruct w as [key time qo fo fl iv an up cam].
  simpl in Hkey, Horacle. subst key fo.
  unfold calls_succeed in Hcalls. simpl in Hcalls.
  unfold_handler. simpl. rewrite Hst. simpl.
  destruct fl as [| [|] [| [|] fl]]; simpl in Hcalls; simpl;
    try reflexivity; now contradiction Hcalls.
Qed.

(** Only the complete run answers with status 200. *)
Lemma generate_feedback_200 (req : FeedbackRequest) (w : World) :
  Oracle.status (fst (generate_feedback req w)) = 200%Z ->
  exists st content rest,
    feedback_oracle w = Replied st content :: rest
    /\ feedback_outcome req w content rest
         (fst (generate_feedback req w)) (snd (generate_feedback req w)).
Proof.
  destruct w as [key time qo fo fl iv an up cam].
  unfold feedback_outcome, Feedback.returnedScore, Feedback.persistedScore.
  unfold_handler. simpl.
  destruct key; simpl; [| discriminate].
  destruct fo as [| [message | st content] rest]; simpl; try discriminate.
  destruct (JS.status_ok st); simpl.
  - destruct fl as [| [|] [| [|] fl]]; simpl; try discriminate;
      intros _; exists st, content, rest; repeat split.
  - destruct (st =? 429)%Z; simpl; [discriminate |].
    destruct (st =? 402)%Z; simpl; discriminate.
Qed.

(** C7. When the gateway answers either handler with a status outside
    [200..299], the handler makes no second request and writes nothing: it
    answers 429 with the rate-limit message for a 429, 402 with the
    credits message for a 402, and 500 with a generic gateway-error message
    for anything else; the three responses differ. *)
Theorem gateway_failures_surfaced (w : World) (st : Z) :
  api_key w = true ->
  JS.status_ok st = false ->
  (forall content rest,
      questions_oracle w = Replied st content :: rest ->
      surfaced st (fst (generate_questions w))
      /\ snd (generate_questions w) = set_questions_oracle rest w)
  /\ (forall req content rest,
         feedback_oracle w = Replied st content :: rest ->
         surfaced st (fst (generate_feedback req w))
         /\ snd (generate_feedback req w) = set_feedback_oracle rest w)
  /\ Oracle.status rate_limited = 429%Z
  /\ Oracle.status credits_exhausted = 402%Z
  /\ Oracle.status (internal_error (gateway_error st)) = 500%Z.
Proof.
  intros Hkey Hst. split; [| split; [| repeat split]].
  - intros content rest Horacle.
    rewrite (generate_questions_not_ok w st content rest Hkey Horacle Hst).
    split; [apply surfaced_check | reflexivity].
  - intros req content rest Horacle.
    rewrite (generate_feedback_not_ok req w st content rest Hkey Horacle Hst).
    split; [apply surfaced_check | reflexivity].
Qed.

Lemma gateway_failures_surfaced_witness :
  generate_questions Samples.rate_limited_world
  = (rate_limited, set_questions_oracle [] Samples.rate_limited_world)
  /\ generate_feedback Samples.one_question_request Samples.rate_limited_world
     = (rate_limited, set_feedback_oracle [] Samples.rate_limited_world).
Proof.
  destruct (gateway_failures_surfaced Samples.rate_limited_world 429
              eq_refl eq_refl) as (Hq & Hf & _).
  destruct (Hq BadJson [] eq_refl) as ((Hq429 & _) & Hqw).
  destruct (Hf Samples.one_question_request BadJson [] eq_refl)
    as ((Hf429 & _) & Hfw).
  split; apply injective_projections; cbn [fst snd]; auto.
Defined.

(** C10. A run of [generate-feedback] that answers 200 has written the
    overall score rounded to one decimal place to the interview's row and
    returns it rounded to the nearest integer; for the single evaluation
    70, 70, 75, 66 the two differ (70.3 stored, 70 returned). *)
Theorem persisted_and_returned_scores :
  (forall req w,
      Oracle.status (fst (generate_feedback req w)) = 200%Z ->
      exists st content rest,
        feedback_oracle w = Replied st content :: rest
        /\ let evaluations :=
             Feedback.evaluateAnswers content
               (answersToEvaluate (questions req)) in
           body (fst (generate_feedback req w))
           = FeedbackBody true
               (option_map JS.Math_round
                  (Feedback.overallScore evaluations (scorePenalty req)))
           /\ interviews (snd (generate_feedback req w))
              = map (complete_interview (interviewId req)
                       (option_map JS.round1
                          (Feedback.overallScore evaluations
                             (scorePenalty req)))
                       (now w))
                    (interviews w))
  /\ exists s z,
       Feedback.persistedScore [Samples.uneven_evaluation] 0 = Some s
       /\ Feedback.returnedScore [Samples.uneven_evaluation] 0 = Some z
       /\ (s == 703 # 10)%Q /\ z = 70%Z /\ ~ (s == inject_Z z)%Q.
Proof.
  split.
  - intros req w H200.
    destruct (generate_feedback_200 req w H200)
      as (st & content & rest & Horacle & Hr & Hi & _).
    exists st, content, rest. split; [exact Horacle |].
    split; [rewrite Hr; reflexivity | exact Hi].
  - eexists. eexists. repeat split; try reflexivity. discriminate.
Qed.

Lemma persisted_and_returned_scores_witness :
  body (fst (generate_feedback Samples.one_question_request
               Samples.scoring_world))
  = FeedbackBody true (Some 70%Z)
  /\ map overall_score
       (interviews (snd (generate_feedback Samples.one_question_request
                           Samples.scoring_world)))
     = [Some (703 # 10)].
Proof.
  destruct (proj1 persisted_and_returned_scores Samples.one_question_request
              Samples.scoring_world eq_refl)
    as (st & content & rest & Horacle & Hbody & Hrows).
  injection Horacle as <- <- <-.
  split; [rewrite Hbody | rewrite Hrows]; reflexivity.
Defined.

End ServerFacts.

(** ** The list of questions *)

Module QuestionFacts.

Import Oracle Questions.

Lemma pushFiller_spec (fuel : nat) (l : list string) :
  (5 - List.length l <= fuel)%nat ->
  pushWhileShort fuel l = (l ++ repeat filler (5 - List.length l))%list.
Proof.
  revert l. induction fuel as [| fuel IH]; intros l Hfuel;
    cbn [pushWhileShort].
  - replace (5 - List.length l)%nat with 0%nat by lia.
    cbn [repeat]. now rewrite app_nil_r.
  - destruct (Nat.ltb_spec (List.length l) 5) as [Hlt | Hge].
    + rewrite IH by (rewrite length_app; cbn [List.length]; lia).
      rewrite length_app. cbn [List.length].
      replace (5 - List.length l)%nat
        with (S (5 - (List.length l + 1)))%nat by lia.
      cbn [repeat]. now rewrite <- app_assoc.
    + replace (5 - List.length l)%nat with 0%nat by lia.
      cbn [repeat]. now rewrite app_nil_r.
Qed.

(** The padding loop ends within five iterations, and the result of the
    padding and the slice is the first five of the padded list. *)
Lemma exactlyFive_spec (l : list string) :
  exactlyFive l = firstn 5 (l ++ repeat filler (5 - List.length l)).
Proof.
  unfold exactlyFive. rewrite pushFiller_spec by lia. reflexivity.
Qed.

Lemma exactlyFive_length (l : list string) : List.length (exactlyFive l) = 5%nat.
Proof.
  rewrite exactlyFive_spec, length_firstn, length_app, repeat_length. lia.
Qed.

Lemma In_firstn {A : Type} (n : nat) (l : list A) (x : A) :
  In x (firstn n l) -> In x l.
Proof.
  intros H. rewrite <- (firstn_skipn n l). apply in_or_app. now left.
Qed.

Lemma filler_non_empty : non_empty filler.
Proof. discriminate. Qed.

Lemma exactlyFive_non_empty (l : list string) :
  Forall non_empty (firstn 5 l) -> Forall non_empty (exactlyFive l).
Proof.
  intros Hl. rewrite exactlyFive_spec, firstn_app.
  apply Forall_app. split; [exact Hl |].
  apply Forall_forall. intros q Hq.
  apply In_firstn, repeat_spec in Hq. subst q. apply filler_non_empty.
Qed.

Lemma fallbackSet_cases (seed : Z) :
  fallbackSet seed = nth 0 fallbackSets []
  \/ fallbackSet seed = nth 1 fallbackSets []
  \/ fallbackSet seed = nth 2 fallbackSets [].
Proof.
  unfold fallbackSet.
  assert (H : (0 <= seed mod 3 < 3)%Z) by (apply Z.mod_pos_bound; lia).
  assert (Hn : (Z.to_nat (seed mod 3) < 3)%nat) by lia.
  destruct (Z.to_nat (seed mod 3)) as [| [| [| n]]]; [auto | auto | auto | lia].
Qed.

Lemma fallbackSets_well_formed :
  Forall (fun set => List.length set = 5%nat /\ Forall non_empty set)
    fallbackSets.
Proof.
  repeat constructor; discriminate.
Qed.

Lemma fallbackSet_well_formed (seed : Z) :
  In (fallbackSet seed) fallbackSets
  /\ List.length (fallbackSet seed) = 5%nat
  /\ Forall non_empty (fallbackSet seed).
Proof.
  assert (Hin : In (fallbackSet seed) fallbackSets).
  { destruct (fallbackSet_cases seed) as [-> | [-> | ->]]; simpl; auto. }
  split; [exact Hin |].
  exact (proj1 (Forall_forall _ _) fallbackSets_well_formed _ Hin).
Qed.

(** C3, as amended.  Whatever the gateway's reply, the handler returns
    exactly five entries: the first five of the parsed list padded with the
    filler question.  The parsed list is the JSON array as it came; or, when
    [JSON.parse] throws, the canned set picked by the seed modulo three,
    which is returned whole and has five non-empty questions; or, when the
    reply has no bracketed part, the cleaned lines of the reply.  The five
    entries are non-empty as soon as the first five parsed ones are. *)
Theorem five_questions (seed : Z) (content : Content string) :
  let parsed := parseQuestions seed content in
  let result := generateQuestions seed content in
  List.length result = 5%nat
  /\ result = firstn 5 (parsed ++ repeat filler (5 - List.length parsed))
  /\ match content with
     | JsonArray items => parsed = items
     | BadJson =>
         parsed = nth (Z.to_nat (seed mod 3)) fallbackSets []
         /\ In parsed fallbackSets
         /\ result = parsed
         /\ Forall non_empty result
     | PlainText text => parsed = splitLines text
     end
  /\ (Forall non_empty (firstn 5 parsed) -> Forall non_empty result).
Proof.
  intros parsed result. subst parsed result. unfold generateQuestions.
  split; [apply exactlyFive_length |].
  split; [apply exactlyFive_spec |].
  split; [| apply exactlyFive_non_empty].
  destruct content as [items | | text]; simpl; try reflexivity.
  destruct (fallbackSet_well_formed seed) as (Hin & Hlen & Hne).
  assert (Hsame : exactlyFive (fallbackSet seed) = fallbackSet seed).
  { rewrite exactlyFive_spec, Hlen at 1. cbn [Nat.sub repeat].
    rewrite app_nil_r. apply firstn_all2. lia. }
  repeat split; try assumption. now rewrite Hsame.
Qed.

Lemma five_questions_witness :
  Forall non_empty
    (generateQuestions 7 (JsonArray Samples.two_questions)).
Proof.
  apply (five_questions 7 (JsonArray Samples.two_questions)).
  simpl. repeat constructor; discriminate.
Defined.

(** C3 as stated fails: a JSON array holding an empty string, and a reply
    without brackets whose only long line is an item number, both give a
    list with an empty entry. *)
Lemma empty_question_returned :
  generateQuestions 0 (JsonArray [EmptyString])
  = [EmptyString; filler; filler; filler; filler]
  /\ generateQuestions 0 (PlainText Samples.numbered_blank)
     = [EmptyString; filler; filler; filler; filler].
Proof. split; reflexivity. Qed.

End QuestionFacts.

(** ** The warning debounce *)

Module DetectionFacts.

Import DeviceDetection.

Lemma unique_In (names seen : list string) (x : string) :
  In x (unique seen names) <-> In x names /\ ~ In x seen.
Proof.
  revert seen. induction names as [| name rest IH]; intros seen; simpl.
  - tauto.
  - destruct (existsb (String.eqb name) seen) eqn:Hseen.
    + apply existsb_exists in Hseen. destruct Hseen as (y & Hy & Heq).
      apply String.eqb_eq in Heq. subst y.
      rewrite IH. split.
      * tauto.
      * intros [[-> | Hin] Hnot]; tauto.
    + assert (Hnot : ~ In name seen).
      { intros Hin. apply Bool.not_true_iff_false in Hseen. apply Hseen.
        apply existsb_exists. exists name. split; [exact Hin |].
        apply String.eqb_refl. }
      simpl. rewrite IH. simpl. split.
      * intros [-> | [Hin Hn]]; [tauto |]. split; [tauto |]. tauto.
      * intros [[-> | Hin] Hn]; [tauto |].
        destruct (String.eqb_spec name x) as [-> | Hne]; [tauto |].
        right. split; [exact Hin |]. intros [Heq | Hs]; [congruence | tauto].
Qed.

Lemma unique_NoDup (names seen : list string) : NoDup (unique seen names).
Proof.
  revert seen. induction names as [| name rest IH]; intros seen; simpl.
  - constructor.
  - destruct (existsb (String.eqb name) seen); [apply IH |].
    constructor; [| apply IH].
    rewrite unique_In. simpl. tauto.
Qed.

(** The names a warning carries are the labels of the suspicious items,
    each once. *)
Lemma deviceNames_set (items : list Prediction) :
  NoDup (deviceNames items)
  /\ forall x, In x (deviceNames items) <-> In x (map label items).
Proof.
  unfold deviceNames. split; [apply unique_NoDup |].
  intros x. rewrite unique_In. simpl. tauto.
Qed.

Lemma detectObjects_suspicious (time : Z) (preds : list Prediction)
  (st : State) :
  detector st = true ->
  filter isSuspicious preds <> [] ->
  detectObjects true time (Some preds) st
  = if (5000 <? time - lastWarningTime st)%Z
    then raiseWarning time (filter isSuspicious preds) st
    else st.
Proof.
  intros Hdet Hsusp. unfold detectObjects. rewrite Hdet. simpl.
  destruct (filter isSuspicious preds) as [| p l]; [congruence | reflexivity].
Qed.

(** C6, as amended.  Of two consecutive detections of suspicious objects,
    the first raising a warning at [t1]: the second, at [t2], changes
    nothing when [t2 - t1] is at most 5000 ms, and raises a second warning
    when it is more than 5000 ms.  A raised warning counts once, carries
    the labels of the matched items, each once, and moves the debounce
    timestamp to the time of the detection. *)
Theorem warnings_debounced (st : State) (t1 t2 : Z)
  (p1 p2 : list Prediction) :
  detector st = true ->
  filter isSuspicious p1 <> [] ->
  filter isSuspicious p2 <> [] ->
  (5000 < t1 - lastWarningTime st)%Z ->
  let st1 := detectObjects true t1 (Some p1) st in
  let st2 := detectObjects true t2 (Some p2) st1 in
  let carried (p : list Prediction) (s : State) :=
    currentDeviceWarning s = Some (join (deviceNames (filter isSuspicious p)))
    /\ NoDup (deviceNames (filter isSuspicious p))
    /\ (forall x, In x (deviceNames (filter isSuspicious p))
                  <-> In x (map label (filter isSuspicious p))) in
  deviceWarningCount st1 = S (deviceWarningCount st)
  /\ lastWarningTime st1 = t1
  /\ carried p1 st1
  /\ ((t2 - t1 <= 5000)%Z -> st2 = st1)
  /\ ((5000 < t2 - t1)%Z ->
      deviceWarningCount st2 = S (S (deviceWarningCount st))
      /\ lastWarningTime st2 = t2
      /\ carried p2 st2).
Proof.
  intros Hdet H1 H2 Hfirst st1 st2 carried.
  assert (Hst1 : st1 = raiseWarning t1 (filter isSuspicious p1) st).
  { subst st1. rewrite detectObjects_suspicious by assumption.
    destruct (Z.ltb_spec 5000 (t1 - lastWarningTime st)); [reflexivity | lia]. }
  assert (Hst2 : st2 = if (5000 <? t2 - t1)%Z
                       then raiseWarning t2 (filter isSuspicious p2) st1
                       else st1).
  { subst st2. rewrite detectObjects_suspicious; [| now rewrite Hst1 | exact H2].
    now rewrite Hst1. }
  split; [now rewrite Hst1 |].
  split; [now rewrite Hst1 |].
  split.
  { subst carried. simpl. rewrite Hst1. simpl.
    split; [reflexivity | apply deviceNames_set]. }
  split.
  - intros Hnear. rewrite Hst2.
    destruct (Z.ltb_spec 5000 (t2 - t1)); [lia | reflexivity].
  - intros Hfar. rewrite Hst2.
    destruct (Z.ltb_spec 5000 (t2 - t1)); [| lia].
    subst carried. simpl. rewrite Hst1. simpl.
    repeat split; apply deviceNames_set.
Qed.

Lemma warnings_debounced_witness :
  let st1 := detectObjects true 10000 (Some [Samples.phone]) Samples.watching in
  let st2 := detectObjects true 16000 (Some [Samples.book; Samples.phone]) st1 in
  deviceWarningCount st1 = 1%nat
  /\ deviceWarningCount st2 = 2%nat
  /\ lastWarningTime st2 = 16000%Z
  /\ currentDeviceWarning st2 = Some "book, Cell Phone"%string.
Proof.
  pose proof (warnings_debounced Samples.watching 10000 16000 [Samples.phone]
                [Samples.book; Samples.phone]) as H.
  simpl in H.
  destruct H as (Hc1 & _ & _ & _ & Hfar);
    [reflexivity | discriminate | discriminate | reflexivity |].
  destruct Hfar as (Hc2 & Ht2 & Hw2 & _); [reflexivity |].
  exact (conj Hc1 (conj Hc2 (conj Ht2 Hw2))).
Defined.

(** C6 as stated fails at exactly five seconds: the second of two
    detections 5000 ms apart raises nothing. *)
Lemma five_seconds_apart_collapse :
  let st1 := detectObjects true 10000 (Some [Samples.phone]) Samples.watching in
  let st2 := detectObjects true 15000 (Some [Samples.phone]) st1 in
  deviceWarningCount st1 = 1%nat
  /\ deviceWarningCount st2 = 1%nat
  /\ st2 = st1.
Proof. repeat split. Qed.

End DetectionFacts.

(** ** The page: renders and the penalty ledger *)

Module LedgerFacts.

Import Server Interview.

(** A render changes nothing but, possibly, the penalty. *)
Lemma render_cases (prev next : State) :
  render prev next = next
  \/ render prev next = set_scorePenalty (scorePenalty next + 10) next.
Proof.
  unfold render, penaltyEffect.
  destruct (_ || _)%bool; [| now left].
  destruct (_ && _)%bool; [now right | now left].
Qed.

Ltac by_render_cases :=
  intros;
  match goal with
  | |- context [render ?p ?n] =>
      destruct (render_cases p n) as [-> | ->]; reflexivity
  end.

Lemma step_render p n : step (render p n) = step n.
Proof. by_render_cases. Qed.
Lemma selectedRole_render p n : selectedRole (render p n) = selectedRole n.
Proof. by_render_cases. Qed.
Lemma questions_render p n : questions (render p n) = questions n.
Proof. by_render_cases. Qed.
Lemma currentQuestion_render p n :
  currentQuestion (render p n) = currentQuestion n.
Proof. by_render_cases. Qed.
Lemma currentAnswer_render p n : currentAnswer (render p n) = currentAnswer n.
Proof. by_render_cases. Qed.
Lemma isGenerating_render p n : isGenerating (render p n) = isGenerating n.
Proof. by_render_cases. Qed.
Lemma interviewId_render p n : interviewId (render p n) = interviewId n.
Proof. by_render_cases. Qed.
Lemma userId_render p n : userId (render p n) = userId n.
Proof. by_render_cases. Qed.
Lemma tabSwitchCount_render p n :
  tabSwitchCount (render p n) = tabSwitchCount n.
Proof. by_render_cases. Qed.
Lemma detection_render p n : detection (render p n) = detection n.
Proof. by_render_cases. Qed.
Lemma location_render p n : location (render p n) = location n.
Proof. by_render_cases. Qed.
Lemma deviceWarningCount_render p n :
  deviceWarningCount (render p n) = deviceWarningCount n.
Proof. by_render_cases. Qed.

Lemma scorePenalty_render p n :
  (scorePenalty n <= scorePenalty (render p n))%nat.
Proof.
  destruct (render_cases p n) as [-> | ->]; simpl; lia.
Qed.

Create Rewrite HintDb render.

#[export] Hint Rewrite step_render selectedRole_render questions_render
  currentQuestion_render currentAnswer_render isGenerating_render
  interviewId_render userId_render tabSwitchCount_render detection_render
  location_render deviceWarningCount_render : render.

(** With the same step and the same number of device warnings before and
    after, a render changes nothing. *)
Lemma render_same_deps (prev next : State) :
  step prev = step next ->
  deviceWarningCount prev = deviceWarningCount next ->
  render prev next = next.
Proof.
  intros Hstep Hcount. unfold render, penaltyEffect.
  rewrite Hstep, Hcount, Nat.eqb_refl.
  destruct (step next); reflexivity.
Qed.

Lemma ledger_le_refl (st : State) : ledger_le st st.
Proof. unfold ledger_le. lia. Qed.

Lemma ledger_le_trans (a b c : State) :
  ledger_le a b -> ledger_le b c -> ledger_le a c.
Proof. unfold ledger_le. lia. Qed.

Lemma ledger_le_render (prev next : State) : ledger_le next (render prev next).
Proof.
  unfold ledger_le. autorewrite with render.
  pose proof (scorePenalty_render prev next). lia.
Qed.

(** A render after updates that leave the ledger alone. *)
Lemma ledger_le_render_of (st prev next : State) :
  ledger_le st next -> ledger_le st (render prev next).
Proof.
  intros H. eapply ledger_le_trans; [exact H | apply ledger_le_render].
Qed.

Lemma ledger_le_same (a b c : State) :
  ledger_le a b ->
  tabSwitchCount c = tabSwitchCount b ->
  deviceWarningCount c = deviceWarningCount b ->
  scorePenalty c = scorePenalty b ->
  ledger_le a c.
Proof. unfold ledger_le. intros H -> -> ->. exact H. Qed.

Lemma count_startDetection d :
  DeviceDetection.deviceWarningCount (DeviceDetection.startDetection d)
  = DeviceDetection.deviceWarningCount d.
Proof.
  unfold DeviceDetection.startDetection. destruct (_ || _)%bool; reflexivity.
Qed.

Lemma count_detectObjects ready time preds d :
  (DeviceDetection.deviceWarningCount d
   <= DeviceDetection.deviceWarningCount
        (DeviceDetection.detectObjects ready time preds d))%nat.
Proof.
  unfold DeviceDetection.detectObjects.
  destruct (negb _); [lia |].
  destruct preds as [preds |]; [| lia].
  destruct (_ <? _)%nat; [| lia].
  destruct (_ <? _)%Z; simpl; lia.
Qed.

Lemma ledger_le_startCamera w st : ledger_le st (startCamera w st).
Proof.
  unfold startCamera, ledger_le, deviceWarningCount.
  destruct (camera_granted w); simpl; [rewrite count_startDetection |]; lia.
Qed.

Lemma ledger_le_stopCamera st : ledger_le st (stopCamera st).
Proof. unfold stopCamera, ledger_le, deviceWarningCount. simpl. lia. Qed.

(** Peels renders, camera switches and updates of other fields off the
    right-hand side of a [ledger_le] goal. *)
Ltac ledger :=
  repeat match goal with
    | |- ledger_le ?a ?a => apply ledger_le_refl
    | |- ledger_le _ (render _ _) => apply ledger_le_render_of
    | |- ledger_le _ (startCamera _ _) =>
        eapply ledger_le_trans; [| apply ledger_le_startCamera]
    | |- ledger_le _ (stopCamera _) =>
        eapply ledger_le_trans; [| apply ledger_le_stopCamera]
    | |- ledger_le ?a (_ _ ?b) =>
        apply (ledger_le_same a b); [| reflexivity | reflexivity | reflexivity]
    end.

Lemma ledger_le_generateQuestions st w :
  ledger_le st (fst (generateQuestions st w)).
Proof.
  unfold generateQuestions.
  destruct (uploadResume st w) as [name w1].
  destruct (db_call _ w1) as [[|] w2]; cbn [fst]; [ledger |].
  destruct (generate_questions w2) as [response w3].
  destruct (invoke_ok response); [destruct (Oracle.body response) |];
    cbn [fst]; ledger.
Qed.

Lemma ledger_le_submitInterview closure qs st w :
  ledger_le st (fst (submitInterview closure qs st w)).
Proof.
  unfold submitInterview.
  destruct (generate_feedback _ w) as [response w1].
  destruct (invoke_ok response); cbn [fst]; ledger.
Qed.

Lemma ledger_le_handleNext st w : ledger_le st (fst (handleNext st w)).
Proof.
  unfold handleNext.
  destruct (nth_error _ _); [| apply ledger_le_refl].
  destruct (_ <? _)%nat; [cbn [fst]; ledger |].
  eapply ledger_le_trans; [| apply ledger_le_submitInterview]. ledger.
Qed.

Lemma ledger_le_handleVisibilityChange hidden st :
  ledger_le st (handleVisibilityChange hidden st).
Proof.
  unfold handleVisibilityChange.
  destruct (_ && _)%bool; [| apply ledger_le_refl].
  apply ledger_le_render_of. unfold ledger_le, deviceWarningCount. simpl. lia.
Qed.

Lemma ledger_le_detectionTick ready time preds st :
  ledger_le st (detectionTick ready time preds st).
Proof.
  unfold detectionTick.
  destruct (DeviceDetection.isDetecting _); [| apply ledger_le_refl].
  apply ledger_le_render_of. unfold ledger_le, deviceWarningCount. simpl.
  pose proof (count_detectObjects ready time preds (detection st)). lia.
Qed.

(** No event makes a field of the ledger smaller. *)
Lemma ledger_le_react e st w : ledger_le st (fst (react e st w)).
Proof.
  unfold react. destruct (String.eqb _ _); [| apply ledger_le_refl].
  unfold handle.
  destruct e; cbn [fst];
    repeat match goal with
      | |- context [if ?c then _ else _] => destruct c
      end;
    cbn [fst];
    try apply ledger_le_generateQuestions;
    try apply ledger_le_handleNext;
    try apply ledger_le_handleVisibilityChange;
    try apply ledger_le_detectionTick;
    try (apply ledger_le_render_of;
         unfold ledger_le, deviceWarningCount; simpl; lia);
    ledger.
Qed.

Lemma ledger_le_run events : forall st w, ledger_le st (fst (run events st w)).
Proof.
  induction events as [| e events IH]; intros st w; simpl.
  - apply ledger_le_refl.
  - pose proof (ledger_le_react e st w) as He.
    destruct (react e st w) as [st' w']. cbn [fst] in He.
    eapply ledger_le_trans; [exact He | apply IH].
Qed.

(** A tab switch during the interview adds one switch and five points,
    and keeps a balanced ledger balanced. *)
Lemma balanced_handleVisibilityChange (hidden : bool) (st : State) :
  ledger_balanced st -> ledger_balanced (handleVisibilityChange hidden st).
Proof.
  unfold handleVisibilityChange.
  destruct (_ && _)%bool; [| tauto].
  rewrite render_same_deps by reflexivity.
  unfold ledger_balanced, deviceWarningCount. simpl. lia.
Qed.

(** A detection tick during the interview adds ten points exactly when it
    raises a warning, and keeps a balanced ledger balanced. *)
Lemma balanced_detectionTick ready time preds (st : State) :
  step st = step_interview ->
  ledger_balanced st -> ledger_balanced (detectionTick ready time preds st).
Proof.
  intros Hstep Hbal. unfold detectionTick.
  destruct (DeviceDetection.isDetecting _); [| exact Hbal].
  unfold DeviceDetection.detectObjects.
  assert (Hsame : ledger_balanced (render st (set_detection (detection st) st))).
  { rewrite render_same_deps by reflexivity.
    unfold ledger_balanced, deviceWarningCount in *. simpl. exact Hbal. }
  destruct (negb _); [exact Hsame |].
  destruct preds as [preds |]; [| exact Hsame].
  destruct (_ <? _)%nat; [| exact Hsame].
  destruct (_ <? _)%Z; [| exact Hsame].
  unfold render, penaltyEffect, ledger_balanced, deviceWarningCount in *.
  simpl. rewrite Hstep. simpl.
  destruct (Nat.eqb_spec (DeviceDetection.deviceWarningCount (detection st))
              (S (DeviceDetection.deviceWarningCount (detection st))));
    [lia |].
  simpl. lia.
Qed.

(** C5, at the failing input.  A user starts an interview, is warned once
    about a phone, answers the five questions and submits while the gateway
    is rate limited.  Before the submission the ledger is balanced (penalty
    10 for one device warning); when the failed submission brings the page
    back to the interview, the penalty is 20 with still one device warning
    and no tab switch.  No event ever lowers a field of the ledger. *)
Theorem ledger_unbalanced_after_failed_submission :
  let before := fst Samples.before_submission in
  let after :=
    fst (react Next before (snd Samples.before_submission)) in
  (ledger_balanced before
   /\ tabSwitchCount before = 0 /\ deviceWarningCount before = 1
   /\ scorePenalty before = 10)%nat
  /\ (step after = step_interview
      /\ tabSwitchCount after = 0 /\ deviceWarningCount after = 1
      /\ scorePenalty after = 20
      /\ scorePenalty after
         <> 5 * tabSwitchCount after + 10 * deviceWarningCount after)%nat
  /\ forall events st w, ledger_le st (fst (run events st w)).
Proof.
  split; [| split].
  - vm_compute. repeat split.
  - vm_compute. repeat split. discriminate.
  - intros. apply ledger_le_run.
Qed.

End LedgerFacts.

(** ** The page: starting and submitting a session *)

Module SessionFacts.

Import Oracle Server Interview LedgerFacts ServerFacts.

Lemma setAnswer_length (i : nat) (a : string) (qs : list Question) :
  List.length (setAnswer i a qs) = List.length qs.
Proof.
  revert i. induction qs as [| q qs IH]; intros [| i]; simpl; auto.
Qed.

Lemma setAnswer_other (i j : nat) (a : string) (qs : list Question) :
  i <> j -> nth_error (setAnswer i a qs) j = nth_error qs j.
Proof.
  revert i j. induction qs as [| q qs IH]; intros [| i] [| j] Hij; simpl;
    try reflexivity; try congruence.
  apply IH. congruence.
Qed.

Lemma setAnswer_same (i : nat) (a : string) (qs : list Question) :
  (i < List.length qs)%nat ->
  option_map answer (nth_error (setAnswer i a qs) i) = Some (Some a).
Proof.
  revert i. induction qs as [| q qs IH]; intros [| i] Hi; simpl in *;
    try lia; [reflexivity |].
  apply IH. lia.
Qed.

Lemma setAnswer_idem (i : nat) (a : string) (qs : list Question) :
  setAnswer i a (setAnswer i a qs) = setAnswer i a qs.
Proof.
  revert i. induction qs as [| q qs IH]; intros [| i]; simpl;
    try reflexivity.
  now rewrite IH.
Qed.

(** On the last question, [handleNext] is a submission. *)
Lemma handleNext_last (st : State) (w : World) :
  S (currentQuestion st) = List.length (questions st) ->
  handleNext st w
  = submitInterview st
      (setAnswer (currentQuestion st) (currentAnswer st) (questions st))
      (set_questions
         (setAnswer (currentQuestion st) (currentAnswer st) (questions st)) st)
      w.
Proof.
  intros Hlast. unfold handleNext.
  destruct (nth_error (questions st) (currentQuestion st)) eqn:Hnth.
  - destruct (Nat.ltb_spec (currentQuestion st) (List.length (questions st) - 1));
      [lia | reflexivity].
  - apply nth_error_None in Hnth. lia.
Qed.

Lemma uploadResume_no_fault (st : State) (w : World) :
  faults w = [] ->
  let w1 := snd (uploadResume st w) in
  faults w1 = [] /\ interviews w1 = interviews w
  /\ api_key w1 = api_key w /\ questions_oracle w1 = questions_oracle w.
Proof.
  intros Hf. unfold uploadResume.
  destruct (resumeFile st); [| now simpl].
  destruct (String.eqb _ _); [now simpl |].
  unfold db_call. rewrite Hf. now simpl.
Qed.

(** C8, as amended.  When the gateway answers the start of an interview
    with 429 (and no persistence call fails), the edge function answers
    with the rate-limit response after its one request, and the page stays
    on the role step without questions and is no longer generating; but the
    session's row, inserted before the edge function was invoked, stays in
    the database with status [in_progress], and the page keeps its
    identifier. *)
Theorem start_rate_limited (st : State) (w : World) (content : Content string)
  (rest : list (Reply string)) :
  api_key w = true ->
  questions_oracle w = Replied 429 content :: rest ->
  faults w = [] ->
  let row := mkInterviewRow (new_id w) (userId st) (selectedRole st)
               (Some 0%Q) in_progress None in
  let w1 := snd (uploadResume st w) in
  let invoked := set_interviews (interviews w1 ++ [row]) w1 in
  let st' := fst (generateQuestions st w) in
  let w' := snd (generateQuestions st w) in
  generate_questions invoked = (rate_limited, w')
  /\ w' = set_questions_oracle rest invoked
  /\ interviews w' = (interviews w ++ [row])%list
  /\ step st' = step st
  /\ questions st' = questions st
  /\ isGenerating st' = false
  /\ interviewId st' = new_id w.
Proof.
  intros Hkey Horacle Hfaults row w1 invoked st' w'.
  destruct (uploadResume_no_fault st w Hfaults) as (Hf1 & Hi1 & Hk1 & Ho1).
  fold w1 in Hf1, Hi1, Hk1, Ho1.
  assert (Hrow : mkInterviewRow (new_id w1) (userId st) (selectedRole st)
                   (Some 0%Q) in_progress None = row).
  { unfold row, new_id. now rewrite Hi1. }
  assert (Hinvoke : generate_questions invoked
                    = (rate_limited, set_questions_oracle rest invoked)).
  { rewrite (generate_questions_not_ok invoked 429 content rest);
      [reflexivity | | | reflexivity].
    - unfold invoked. simpl. congruence.
    - unfold invoked. simpl. congruence. }
  assert (Hrun : generateQuestions st w
                 = (let st1 := render st (set_isGenerating true st) in
                    let st2 := render st1 (set_interviewId (id row) st1) in
                    render st2 (set_isGenerating false st2),
                    set_questions_oracle rest invoked)).
  { unfold generateQuestions.
    rewrite (surjective_pairing (uploadResume st w)).
    fold w1. rewrite Hrow.
    unfold db_call at 1. rewrite Hf1. fold invoked.
    rewrite Hinvoke. reflexivity. }
  subst st' w'. rewrite Hrun. cbn [fst snd].
  split; [exact Hinvoke |].
  split; [reflexivity |].
  split; [unfold invoked; simpl; now rewrite Hi1 |].
  autorewrite with render. simpl. autorewrite with render. simpl.
  autorewrite with render. simpl.
  repeat split.
Qed.

Lemma start_rate_limited_witness :
  let st := fst (run [SelectRole "software-engineer"%string]
                   (initial "u1"%string) Samples.rate_limited_world) in
  let st' := fst (generateQuestions st Samples.rate_limited_world) in
  let w' := snd (generateQuestions st Samples.rate_limited_world) in
  List.length (interviews w') = 1%nat
  /\ step st' = step_role
  /\ questions st' = []
  /\ interviewId st' = "0"%string.
Proof.
  pose proof (start_rate_limited
                (fst (run [SelectRole "software-engineer"%string]
                        (initial "u1"%string) Samples.rate_limited_world))
                Samples.rate_limited_world BadJson []
                eq_refl eq_refl eq_refl) as H.
  cbv zeta in H.
  destruct H as (_ & _ & Hrows & Hstep & Hqs & _ & Hid).
  cbv zeta. rewrite Hrows, Hstep, Hqs, Hid. repeat split.
Defined.

(** C8 as stated fails: after a start that the gateway answers with 429,
    the database holds a session row in progress. *)
Lemma session_row_survives_rate_limit :
  let (st, w) :=
    run [SelectRole "software-engineer"%string; StartInterview]
      (initial "u1"%string) Samples.rate_limited_world in
  step st = step_role
  /\ interviews w
     = [mkInterviewRow "0" "u1" "software-engineer" (Some 0%Q) in_progress
          None]
  /\ interviewId st = "0"%string.
Proof. vm_compute. repeat split. Qed.

(** C9.  On the last question, a submission that the edge function does
    not answer with a success leaves the page on the interview step at the
    same question, with the answer just typed still in the box and every
    answer in place; and if the world then lets a submission through, a
    second click completes the session, sending the same answers. *)
Theorem failed_submission_can_be_retried (st : State) (w : World) :
  on_last_question st ->
  invoke_ok
    (fst (generate_feedback
            (feedbackRequest st
               (setAnswer (currentQuestion st) (currentAnswer st)
                  (questions st)))
            w)) = false ->
  let st1 := fst (handleNext st w) in
  let w1 := snd (handleNext st w) in
  step st1 = step_interview
  /\ currentQuestion st1 = currentQuestion st
  /\ currentAnswer st1 = currentAnswer st
  /\ questions st1
     = setAnswer (currentQuestion st) (currentAnswer st) (questions st)
  /\ (forall i, i <> currentQuestion st ->
        nth_error (questions st1) i = nth_error (questions st) i)
  /\ option_map answer (nth_error (questions st1) (currentQuestion st))
     = Some (Some (currentAnswer st))
  /\ location st1 = location st
  /\ (retry_ready st1 w1 ->
      let st2 := fst (handleNext st1 w1) in
      let w2 := snd (handleNext st1 w1) in
      session_completed (interviewId st) st2 w2
      /\ questions st2 = questions st1
      /\ exists rows,
           answers w2 = (answers w1 ++ rows)%list
           /\ map Feedback.row_answer rows = transcript (questions st1)).
Proof.
  intros [Hstep Hlast] Hfail st1 w1.
  assert (Hrun : handleNext st w
                 = submitInterview st
                     (setAnswer (currentQuestion st) (currentAnswer st)
                        (questions st))
                     (set_questions
                        (setAnswer (currentQuestion st) (currentAnswer st)
                           (questions st)) st)
                     w)
    by now apply handleNext_last.
  unfold submitInterview in Hrun.
  destruct (generate_feedback _ w) as [response wf] eqn:Hresp.
  cbn [fst] in Hfail. rewrite Hfail in Hrun.
  assert (Hst1 : st1 = fst (handleNext st w)) by reflexivity.
  assert (Hw1 : w1 = wf) by (unfold w1; now rewrite Hrun).
  rewrite Hrun in Hst1. cbn [fst] in Hst1.
  assert (Hq1 : questions st1
                = setAnswer (currentQuestion st) (currentAnswer st)
                    (questions st)).
  { rewrite Hst1. autorewrite with render. simpl. autorewrite with render.
    reflexivity. }
  assert (Hc1 : currentQuestion st1 = currentQuestion st).
  { rewrite Hst1. autorewrite with render. simpl. autorewrite with render.
    reflexivity. }
  assert (Ha1 : currentAnswer st1 = currentAnswer st).
  { rewrite Hst1. autorewrite with render. simpl. autorewrite with render.
    reflexivity. }
  assert (Hi1 : interviewId st1 = interviewId st).
  { rewrite Hst1. autorewrite with render. simpl. autorewrite with render.
    reflexivity. }
  assert (Hl1 : location st1 = location st).
  { rewrite Hst1. autorewrite with render. simpl. autorewrite with render.
    reflexivity. }
  split; [rewrite Hst1; now autorewrite with render |].
  split; [exact Hc1 |].
  split; [exact Ha1 |].
  split; [exact Hq1 |].
  split; [intros i Hi; rewrite Hq1; apply setAnswer_other; congruence |].
  split; [rewrite Hq1; apply setAnswer_same; lia |].
  split; [exact Hl1 |].
  intros (Hkey & (status & content & rest & Horacle & Hok) & Hcalls & Hrow)
         st2 w2.
  assert (Hlast1 : S (currentQuestion st1) = List.length (questions st1))
    by (rewrite Hc1, Hq1, setAnswer_length; exact Hlast).
  assert (Hrun2 : handleNext st1 w1
                  = submitInterview st1 (questions st1)
                      (set_questions (questions st1) st1) w1).
  { rewrite (handleNext_last st1 w1 Hlast1).
    rewrite Hc1, Ha1, Hq1, setAnswer_idem. reflexivity. }
  pose proof (generate_feedback_ok (feedbackRequest st1 (questions st1)) w1
                status content rest Hkey Horacle Hok Hcalls)
    as (Hr & Hrows & Hans & _).
  unfold submitInterview in Hrun2.
  destruct (generate_feedback (feedbackRequest st1 (questions st1)) w1)
    as [response2 wf2] eqn:Hresp2.
  cbn [fst snd] in Hr, Hrows, Hans.
  change (Server.interviewId (feedbackRequest st1 (questions st1)))
    with (interviewId st1) in Hrows.
  rewrite Hi1 in Hrows.
  assert (Hok2 : invoke_ok response2 = true) by (rewrite Hr; reflexivity).
  rewrite Hok2 in Hrun2.
  subst st2 w2. rewrite Hrun2. cbn [fst snd].
  split; [| split].
  - unfold session_completed. autorewrite with render. cbn [location set_location].
    rewrite Hi1. split; [reflexivity |].
    rewrite Hrows.
    destruct Hrow as (row & Hin & Hid). rewrite Hi1 in Hid.
    split.
    + eexists.
      split; [apply in_map; exact Hin |].
      unfold complete_interview. rewrite Hid, String.eqb_refl. reflexivity.
    + intros row' Hin' Hid'. apply in_map_iff in Hin'.
      destruct Hin' as (row0 & Heq & _). subst row'.
      unfold complete_interview in *.
      destruct (String.eqb_spec (id row0) (interviewId st)) as [He | Hne];
        [reflexivity | congruence].
  - autorewrite with render. simpl. autorewrite with render. simpl.
    autorewrite with render. reflexivity.
  - eexists. split; [exact Hans |].
    unfold Feedback.answersToInsert, transcript.
    apply EvaluationFacts.mapi_map. reflexivity.
Qed.

Lemma failed_submission_can_be_retried_witness :
  let st := fst Samples.before_faulty_submission in
  let w := snd Samples.before_faulty_submission in
  let st1 := fst (handleNext st w) in
  let w1 := snd (handleNext st w) in
  step st1 = step_interview
  /\ currentQuestion st1 = 4%nat
  /\ transcript (questions st1)
     = ["I like it."; "A monoid."; "With care."; "An off-by-one.";
        "Everywhere."]%string
  /\ interviewId st = "0"%string
  /\ session_completed (interviewId st)
       (fst (handleNext st1 w1)) (snd (handleNext st1 w1)).
Proof.
  intros st w st1 w1.
  assert (Hlast : on_last_question st) by (split; vm_compute; reflexivity).
  assert (Hfail : invoke_ok
                    (fst (generate_feedback
                            (feedbackRequest st
                               (setAnswer (currentQuestion st)
                                  (currentAnswer st) (questions st)))
                            w)) = false) by (vm_compute; reflexivity).
  destruct (failed_submission_can_be_retried st w Hlast Hfail)
    as (Hstep & _ & _ & _ & _ & _ & _ & Hretry).
  assert (Hready : retry_ready st1 w1).
  { split; [vm_compute; reflexivity |].
    split; [| split; [vm_compute; reflexivity |]].
    - exists 200%Z, BadJson, []. split; vm_compute; reflexivity.
    - eexists. split; [vm_compute; left; reflexivity | reflexivity]. }
  destruct (Hretry Hready) as (Hdone & _ & _).
  split; [exact Hstep |].
  split; [vm_compute; reflexivity |].
  split; [vm_compute; reflexivity |].
  split; [vm_compute; reflexivity |].
  exact Hdone.
Defined.

End SessionFacts.

(** ** The handlers: what they answer and what they touch *)

Module HandlerFacts.

Import Oracle Server ServerFacts.

(** Without the gateway's key, neither handler sends a request or writes
    anything: both answer 500 with the configuration message. *)
Theorem missing_key_stops_handlers (w : World) (req : FeedbackRequest) :
  api_key w = false ->
  generate_questions w
  = (mkResponse 500 (ErrorBody "LOVABLE_API_KEY is not configured"), w)
  /\ generate_feedback req w
     = (mkResponse 500 (ErrorBody "LOVABLE_API_KEY is not configured"), w).
Proof.
  intros Hkey. unfold_handler. rewrite Hkey. split; reflexivity.
Qed.

Lemma missing_key_stops_handlers_witness :
  generate_questions MoreSamples.keyless_world
  = (mkResponse 500 (ErrorBody "LOVABLE_API_KEY is not configured"),
     MoreSamples.keyless_world)
  /\ generate_feedback Samples.one_question_request MoreSamples.keyless_world
     = (mkResponse 500 (ErrorBody "LOVABLE_API_KEY is not configured"),
        MoreSamples.keyless_world).
Proof.
  apply (missing_key_stops_handlers MoreSamples.keyless_world
           Samples.one_question_request).
  reflexivity.
Defined.

(** [generate-questions] never writes: whatever the world, the rows, the
    files and the script of persistence outcomes are as before, at most one
    reply of the gateway is consumed, and the answer is either 200 with
    exactly five questions or an error with status 429, 402 or 500. *)
Theorem generate_questions_footprint (w : World) :
  let r := fst (generate_questions w) in
  let w' := snd (generate_questions w) in
  interviews w' = interviews w
  /\ answers w' = answers w
  /\ uploads w' = uploads w
  /\ faults w' = faults w
  /\ feedback_oracle w' = feedback_oracle w
  /\ (questions_oracle w' = questions_oracle w
      \/ questions_oracle w' = tl (questions_oracle w))
  /\ match body r with
     | QuestionsBody qs => Oracle.status r = 200%Z /\ List.length qs = 5%nat
     | ErrorBody _ =>
         Oracle.status r = 429%Z \/ Oracle.status r = 402%Z
         \/ Oracle.status r = 500%Z
     | FeedbackBody _ _ => False
     end.
Proof.
  destruct w as [key time qo fo fl iv an up cam].
  unfold_handler. simpl.
  destruct key; simpl; [| intuition auto].
  destruct qo as [| [message | st content] rest]; simpl; [intuition auto .. |].
  destruct (JS.status_ok st); simpl.
  - repeat split; auto. apply QuestionFacts.exactlyFive_length.
  - destruct (st =? 429)%Z; simpl; [intuition auto |].
    destruct (st =? 402)%Z; simpl; intuition auto.
Qed.

Lemma Forall2_same {A : Type} (R : A -> A -> Prop) (l : list A) :
  (forall x, R x x) -> Forall2 R l l.
Proof. intros HR. induction l; constructor; auto. Qed.

Lemma Forall2_map_right {A : Type} (R : A -> A -> Prop) (f : A -> A)
  (l : list A) :
  (forall x, R x (f x)) -> Forall2 R l (map f l).
Proof. intros HR. induction l; simpl; constructor; auto. Qed.

Lemma inserted_rows_shape (i : string) (evaluations : list Feedback.Evaluation)
  (qs : list Question) :
  let rows := Feedback.answersToInsert i evaluations (answersToEvaluate qs) in
  Forall Feedback.row_scores_in_range rows
  /\ Forall (fun row => Feedback.interview_id row = i) rows
  /\ map Feedback.row_question rows = map text qs.
Proof.
  split; [apply EvaluationFacts.stored_scores_in_range |].
  split.
  - unfold Feedback.answersToInsert. apply EvaluationFacts.mapi_Forall.
    reflexivity.
  - unfold Feedback.answersToInsert, answersToEvaluate.
    rewrite (EvaluationFacts.mapi_map Feedback.row_question _ Feedback.question)
      by reflexivity.
    rewrite map_map. reflexivity.
Qed.

Lemma complete_interview_keeps (i : string) (score : option Q) (t : Z)
  (row : InterviewRow) :
  let row' := complete_interview i score t row in
  id row' = id row /\ user_id row' = user_id row /\ role row' = role row
  /\ (row' = row \/ (id row = i /\ status row' = completed)).
Proof.
  unfold complete_interview.
  destruct (String.eqb_spec (id row) i); simpl; repeat split; auto.
Qed.

(** Whatever the request and the world, [generate-feedback] only appends
    to the answers, and what it appends is nothing or one row per question,
    in the questions' order, tagged with the request's session and with
    every sub-score in [0,100]; it keeps every session row's identity, user
    and role, and the only change it makes to a row is to complete the
    session of the request; it touches no file and no reply meant for the
    other handler. *)
Theorem generate_feedback_footprint (req : FeedbackRequest) (w : World) :
  let w' := snd (generate_feedback req w) in
  (exists rows,
      answers w' = (answers w ++ rows)%list
      /\ Forall Feedback.row_scores_in_range rows
      /\ Forall (fun row => Feedback.interview_id row = interviewId req) rows
      /\ (rows = [] \/ map Feedback.row_question rows = map text (questions req)))
  /\ Forall2
       (fun old new =>
          id new = id old /\ user_id new = user_id old /\ role new = role old
          /\ (new = old
              \/ (id old = interviewId req /\ status new = completed)))
       (interviews w) (interviews w')
  /\ uploads w' = uploads w
  /\ questions_oracle w' = questions_oracle w.
Proof.
  assert (Hnone : forall an : list Feedback.AnswerRow,
             exists rows,
               an = (an ++ rows)%list
               /\ Forall Feedback.row_scores_in_range rows
               /\ Forall (fun row => Feedback.interview_id row = interviewId req)
                    rows
               /\ (rows = []
                   \/ map Feedback.row_question rows
                      = map text (questions req))).
  { intros an. exists []. rewrite app_nil_r. auto. }
  assert (Hsome : forall (an : list Feedback.AnswerRow) evaluations,
             exists rows,
               (an ++ Feedback.answersToInsert (interviewId req) evaluations
                        (answersToEvaluate (questions req)))%list
               = (an ++ rows)%list
               /\ Forall Feedback.row_scores_in_range rows
               /\ Forall (fun row => Feedback.interview_id row = interviewId req)
                    rows
               /\ (rows = []
                   \/ map Feedback.row_question rows
                      = map text (questions req))).
  { intros an evaluations. eexists. split; [reflexivity |].
    destruct (inserted_rows_shape (interviewId req) evaluations (questions req))
      as (H1 & H2 & H3). auto. }
  assert (Hsame : forall iv : list InterviewRow,
             Forall2
               (fun old new =>
                  id new = id old /\ user_id new = user_id old
                  /\ role new = role old
                  /\ (new = old
                      \/ (id old = interviewId req /\ status new = completed)))
               iv iv).
  { intros iv. apply Forall2_same. auto. }
  assert (Hdone : forall (iv : list InterviewRow) score t,
             Forall2
               (fun old new =>
                  id new = id old /\ user_id new = user_id old
                  /\ role new = role old
                  /\ (new = old
                      \/ (id old = interviewId req /\ status new = completed)))
               iv (map (complete_interview (interviewId req) score t) iv)).
  { intros iv score t. apply Forall2_map_right. intros row.
    apply complete_interview_keeps. }
  destruct w as [key time qo fo fl iv an up cam].
  unfold_handler. simpl.
  destruct key; simpl; [| auto].
  destruct fo as [| [message | st content] rest]; simpl; auto.
  destruct (JS.status_ok st); simpl.
  - destruct fl as [| [|] [| [|] fl]]; simpl; auto.
  - destruct (st =? 429)%Z; simpl; [auto |].
    destruct (st =? 402)%Z; simpl; auto.
Qed.

(** No transaction ties the two writes of [generate-feedback]: when the
    answers go in and the update of the session's row then fails, the
    handler answers 500, the answers stay inserted and the session rows are
    as they were. *)
Theorem failed_update_keeps_answers (req : FeedbackRequest) (w : World)
  (st : Z) (content : Content Feedback.Evaluation)
  (rest : list (Reply Feedback.Evaluation)) (later : list bool) :
  api_key w = true ->
  feedback_oracle w = Replied st content :: rest ->
  JS.status_ok st = true ->
  faults w = false :: true :: later ->
  let r := fst (generate_feedback req w) in
  let w' := snd (generate_feedback req w) in
  r = mkResponse 500 (ErrorBody "Unknown error")
  /\ answers w'
     = (answers w
        ++ Feedback.answersToInsert (interviewId req)
             (Feedback.evaluateAnswers content
                (answersToEvaluate (questions req)))
             (answersToEvaluate (questions req)))%list
  /\ interviews w' = interviews w
  /\ faults w' = later.
Proof.
  intros Hkey Horacle Hst Hfaults.
  destruct w as [key time qo fo fl iv an up cam].
  simpl in Hkey, Horacle, Hfaults. subst key fo fl.
  unfold_handler. simpl. rewrite Hst. simpl. repeat split.
Qed.

Lemma failed_update_keeps_answers_witness :
  let w' := snd (generate_feedback Samples.one_question_request
                   MoreSamples.update_fault_world) in
  Oracle.status (fst (generate_feedback Samples.one_question_request
                        MoreSamples.update_fault_world)) = 500%Z
  /\ List.length (answers w') = 1%nat
  /\ map status (interviews w') = [in_progress].
Proof.
  destruct (failed_update_keeps_answers Samples.one_question_request
              MoreSamples.update_fault_world 200
              (JsonArray [Samples.uneven_evaluation]) [] []
              eq_refl eq_refl eq_refl eq_refl) as (Hr & Ha & Hi & _).
  cbv zeta. rewrite Hr, Ha, Hi. repeat split.
Defined.

(** A request without questions, answered by the gateway with nothing that
    parses to evaluations, still succeeds: no answer is stored, and the
    overall score, a division of zero by zero, is absent both from the
    response and from the completed row. *)
Theorem no_questions_no_score (req : FeedbackRequest) (w : World) (st : Z)
  (content : Content Feedback.Evaluation)
  (rest : list (Reply Feedback.Evaluation)) :
  api_key w = true ->
  feedback_oracle w = Replied st content :: rest ->
  JS.status_ok st = true ->
  calls_succeed 2 w ->
  questions req = [] ->
  Conditions.no_evaluations content ->
  let r := fst (generate_feedback req w) in
  let w' := snd (generate_feedback req w) in
  r = mkResponse 200 (FeedbackBody true None)
  /\ answers w' = answers w
  /\ interviews w'
     = map (complete_interview (interviewId req) None (now w)) (interviews w).
Proof.
  intros Hkey Horacle Hst Hcalls Hqs Hcontent.
  destruct (generate_feedback_ok req w st content rest Hkey Horacle Hst Hcalls)
    as (Hr & Hi & Ha & _).
  assert (Hnil : Feedback.evaluateAnswers content
                   (answersToEvaluate (questions req)) = []).
  { rewrite Hqs. destruct content as [items | | t]; simpl in *;
      [subst items |..]; reflexivity. }
  rewrite Hnil in Hr, Hi, Ha. rewrite Hqs in Ha. simpl in Ha.
  rewrite app_nil_r in Ha. cbv zeta. rewrite Hr, Hi, Ha. repeat split.
Qed.

Lemma no_questions_no_score_witness :
  fst (generate_feedback MoreSamples.empty_request MoreSamples.chatty_world)
  = mkResponse 200 (FeedbackBody true None)
  /\ map overall_score
       (interviews (snd (generate_feedback MoreSamples.empty_request
                           MoreSamples.chatty_world)))
     = [None].
Proof.
  destruct (no_questions_no_score MoreSamples.empty_request
              MoreSamples.chatty_world 200
              (PlainText "I cannot score this.") []
              eq_refl eq_refl eq_refl eq_refl eq_refl I) as (Hr & _ & Hi).
  rewrite Hr, Hi. split; reflexivity.
Defined.

(** Nothing ties a retry to the attempt before it: when a first run fails
    at the update of the session's row and the same request is sent again
    and goes through, the answers are in the table twice, once per run, for
    the same questions. *)
Theorem retry_stores_answers_twice (req : FeedbackRequest) (w : World)
  (s1 s2 : Z) (c1 c2 : Content Feedback.Evaluation)
  (rest : list (Reply Feedback.Evaluation)) :
  api_key w = true ->
  feedback_oracle w = Replied s1 c1 :: Replied s2 c2 :: rest ->
  JS.status_ok s1 = true ->
  JS.status_ok s2 = true ->
  faults w = [false; true] ->
  let first := generate_feedback req w in
  let second := generate_feedback req (snd first) in
  Oracle.status (fst first) = 500%Z
  /\ Oracle.status (fst second) = 200%Z
  /\ exists rows1 rows2,
       answers (snd second) = (answers w ++ rows1 ++ rows2)%list
       /\ map Feedback.row_question rows1 = map text (questions req)
       /\ map Feedback.row_question rows2 = map text (questions req)
       /\ map Feedback.row_answer rows1 = map Feedback.row_answer rows2.
Proof.
  intros Hkey Horacle Hs1 Hs2 Hfaults.
  destruct w as [key time qo fo fl iv an up cam].
  simpl in Hkey, Horacle, Hfaults. subst key fo fl.
  cbv zeta.
  assert (Hfirst : generate_feedback req
                     (mkWorld true time qo
                        (Replied s1 c1 :: Replied s2 c2 :: rest)
                        [false; true] iv an up cam)
                   = (mkResponse 500 (ErrorBody "Unknown error"),
                      mkWorld true time qo (Replied s2 c2 :: rest) [] iv
                        (an ++ Feedback.answersToInsert (interviewId req)
                                 (Feedback.evaluateAnswers c1
                                    (answersToEvaluate (questions req)))
                                 (answersToEvaluate (questions req)))
                        up cam)).
  { unfold_handler. simpl. rewrite Hs1. reflexivity. }
  rewrite Hfirst. cbn [fst snd].
  match goal with
  | |- context [generate_feedback req ?w1] =>
      destruct (generate_feedback_ok req w1 s2 c2 rest eq_refl eq_refl Hs2
                  eq_refl) as (Hr & _ & Ha & _)
  end.
  simpl in Ha. rewrite Hr, Ha. simpl.
  split; [reflexivity |]. split; [reflexivity |].
  eexists. eexists. split; [now rewrite <- app_assoc |].
  destruct (inserted_rows_shape (interviewId req)
              (Feedback.evaluateAnswers c1 (answersToEvaluate (questions req)))
              (questions req)) as (_ & _ & Hq1).
  destruct (inserted_rows_shape (interviewId req)
              (Feedback.evaluateAnswers c2 (answersToEvaluate (questions req)))
              (questions req)) as (_ & _ & Hq2).
  split; [exact Hq1 |]. split; [exact Hq2 |].
  unfold Feedback.answersToInsert.
  rewrite !(EvaluationFacts.mapi_map Feedback.row_answer _ Feedback.answer)
    by reflexivity.
  reflexivity.
Qed.

Lemma retry_stores_answers_twice_witness :
  let first := generate_feedback Samples.one_question_request
                 MoreSamples.retry_world in
  let second := generate_feedback Samples.one_question_request (snd first) in
  Oracle.status (fst first) = 500%Z
  /\ Oracle.status (fst second) = 200%Z
  /\ map Feedback.row_answer (answers (snd second))
     = ["I like it."; "I like it."]%string.
Proof.
  destruct (retry_stores_answers_twice Samples.one_question_request
              MoreSamples.retry_world 200 200
              (JsonArray [Samples.uneven_evaluation])
              (JsonArray [Samples.good_evaluation]) []
              eq_refl eq_refl eq_refl eq_refl eq_refl)
    as (H1 & H2 & _).
  cbv zeta. split; [exact H1 |]. split; [exact H2 |].
  vm_compute. reflexivity.
Defined.

Lemma generate_feedback_keeps_ids (req : FeedbackRequest) (w : World) :
  map id (interviews (snd (generate_feedback req w))) = map id (interviews w).
Proof.
  assert (Hdone : forall (iv : list InterviewRow) score t,
             map id (map (complete_interview (interviewId req) score t) iv)
             = map id iv).
  { intros iv score t. rewrite map_map. apply map_ext. intros row.
    apply (complete_interview_keeps (interviewId req) score t row). }
  destruct w as [key time qo fo fl iv an up cam].
  unfold_handler. simpl.
  destruct key; simpl; [| reflexivity].
  destruct fo as [| [message | st content] rest]; simpl; try reflexivity.
  destruct (JS.status_ok st); simpl.
  - destruct fl as [| [|] [| [|] fl]]; simpl; auto.
  - destruct (st =? 429)%Z; simpl; [reflexivity |].
    destruct (st =? 402)%Z; reflexivity.
Qed.

End HandlerFacts.

(** ** Scores: clamping, penalty and the two roundings *)

Module ScoringFacts.

Import JS Feedback RoundingFacts ScoreFacts.
Local Open Scope Q_scope.

Lemma num_or_zero (v d : Q) : v == 0 -> num_or v d = d.
Proof.
  intros Hv. unfold num_or.
  destruct (Qeq_bool v 0) eqn:Hb; [reflexivity |].
  apply Qeq_bool_neq in Hb. contradiction.
Qed.

Lemma num_or_nonzero (v d : Q) : ~ v == 0 -> num_or v d = v.
Proof.
  intros Hv. unfold num_or.
  destruct (Qeq_bool v 0) eqn:Hb; [| reflexivity].
  apply Qeq_bool_iff in Hb. contradiction.
Qed.

(** What is stored for a sub-score [v] with default [d]: a score of zero
    counts as missing and gives the default; a score in (0,100] is stored
    as it is; a larger one is stored as 100 and a negative one as 0; a
    missing evaluation gives the default. *)
Theorem clampScore_cases (v d : Q) :
  0 <= d <= 100 ->
  (v == 0 -> clampScore (Some v) d == d)
  /\ (0 < v <= 100 -> clampScore (Some v) d == v)
  /\ (100 <= v -> clampScore (Some v) d == 100)
  /\ (v < 0 -> clampScore (Some v) d == 0)
  /\ clampScore None d == d.
Proof.
  intros [Hd0 Hd1]. unfold clampScore, Math_min, Math_max.
  assert (Hd : Qmin 100 (Qmax 0 d) == d).
  { rewrite (Q.max_r 0 d) by exact Hd0. apply Q.min_r. exact Hd1. }
  split; [| split; [| split; [| split]]].
  - intros Hv. rewrite (num_or_zero v d Hv). exact Hd.
  - intros [Hlo Hhi]. rewrite num_or_nonzero by lra.
    rewrite (Q.max_r 0 v) by lra. apply Q.min_r. exact Hhi.
  - intros Hv. rewrite num_or_nonzero by lra.
    rewrite (Q.max_r 0 v) by lra. apply Q.min_l. exact Hv.
  - intros Hv. rewrite num_or_nonzero by lra.
    rewrite (Q.max_l 0 v) by lra. apply Q.min_r. discriminate.
  - exact Hd.
Qed.

Lemma clampScore_cases_witness :
  clampScore (Some 0) 70 == 70
  /\ clampScore (Some (85 # 2)) 70 == 85 # 2
  /\ clampScore (Some 500) 70 == 100
  /\ clampScore (Some (-3)) 70 == 0.
Proof.
  assert (Hd : 0 <= 70 <= 100) by (split; discriminate).
  destruct (clampScore_cases 0 70 Hd) as (H0 & _).
  destruct (clampScore_cases (85 # 2) 70 Hd) as (_ & H1 & _).
  destruct (clampScore_cases 500 70 Hd) as (_ & _ & H2 & _).
  destruct (clampScore_cases (-3) 70 Hd) as (_ & _ & _ & H3 & _).
  split; [apply H0; reflexivity |].
  split; [apply H1; split; reflexivity || discriminate |].
  split; [apply H2; discriminate | apply H3; reflexivity].
Defined.

(** For evaluations on the scale, a larger penalty never gives a larger
    persisted score, and a penalty of 100 or more gives 0. *)
Theorem larger_penalty_lower_score (evaluations : list Evaluation) (P P' : Q) :
  (1 <= List.length evaluations)%nat ->
  Forall sub_scores_in_range evaluations ->
  0 <= P <= P' ->
  exists s s',
    persistedScore evaluations P = Some s
    /\ persistedScore evaluations P' = Some s'
    /\ s' <= s
    /\ (100 <= P' -> s' == 0).
Proof.
  intros Hn Hrange [HP HPP'].
  destruct (overallScoreBeforePenalty_mean evaluations Hn) as (m & Hm & Hmean).
  pose proof (mean_mean4_range evaluations Hn Hrange) as Hm_range.
  rewrite <- Hmean in Hm_range.
  exists (round1 (applyPenalty m P)), (round1 (applyPenalty m P')).
  unfold persistedScore, overallScore. rewrite Hm. simpl.
  split; [reflexivity |]. split; [reflexivity |].
  rewrite !applyPenalty_max by lra.
  split.
  - apply round1_mono. unfold Math_max. apply Q.max_le_compat_l. lra.
  - intros Hbig. unfold Math_max. rewrite (Q.max_l 0 (m - P')) by lra.
    apply round1_0.
Qed.

Lemma larger_penalty_lower_score_witness :
  exists s s',
    persistedScore [Samples.good_evaluation] 5 = Some s
    /\ persistedScore [Samples.good_evaluation] 120 = Some s'
    /\ s' <= s
    /\ (100 <= 120 -> s' == 0).
Proof.
  apply (larger_penalty_lower_score [Samples.good_evaluation] 5 120).
  - simpl. lia.
  - repeat constructor; simpl; discriminate.
  - split; discriminate.
Defined.

Lemma Math_round_bounds (x : Q) :
  inject_Z (Math_round x) <= x + (1 # 2)
  /\ x + (1 # 2) < inject_Z (Math_round x) + 1.
Proof.
  unfold Math_round. split.
  - apply Qfloor_le.
  - pose proof (Qlt_floor (x + (1 # 2))) as H.
    rewrite inject_Z_plus in H. exact H.
Qed.

Lemma roundings_close (x : Q) :
  - (1 # 2) <= inject_Z (Math_round x) - round1 x <= 1 # 2.
Proof.
  unfold round1.
  destruct (Math_round_bounds x) as [Hn1 Hn2].
  destruct (Math_round_bounds (x * 10)) as [Hk1 Hk2].
  set (n := Math_round x) in *. set (k := Math_round (x * 10)) in *.
  assert (Hup : (10 * n - k <= 5)%Z).
  { assert (H : inject_Z (10 * n - k) < inject_Z 6).
    { unfold Zminus. rewrite inject_Z_plus, inject_Z_mult, inject_Z_opp.
      change (inject_Z 10) with 10. change (inject_Z 6) with 6. lra. }
    rewrite <- Zlt_Qlt in H. lia. }
  assert (Hdown : (k - 10 * n <= 5)%Z).
  { assert (H : inject_Z (k - 10 * n) < inject_Z 6).
    { unfold Zminus. rewrite inject_Z_plus, inject_Z_opp, inject_Z_mult.
      change (inject_Z 10) with 10. change (inject_Z 6) with 6. lra. }
    rewrite <- Zlt_Qlt in H. lia. }
  rewrite Zle_Qle in Hup, Hdown.
  unfold Zminus in Hup, Hdown.
  rewrite inject_Z_plus, inject_Z_opp, inject_Z_mult in Hup, Hdown.
  change (inject_Z 10) with 10 in Hup, Hdown.
  change (inject_Z 5) with 5 in Hup, Hdown.
  assert (Hdiv : inject_Z k / 10 == inject_Z k * (1 # 10)) by reflexivity.
  rewrite Hdiv. lra.
Qed.

(** The integer score of the response and the one-decimal score of the row
    are never more than half a point apart. *)
Theorem returned_near_persisted (evaluations : list Evaluation) (P : Q) :
  (1 <= List.length evaluations)%nat ->
  exists s z,
    persistedScore evaluations P = Some s
    /\ returnedScore evaluations P = Some z
    /\ - (1 # 2) <= inject_Z z - s <= 1 # 2.
Proof.
  intros Hn.
  destruct (overallScoreBeforePenalty_mean evaluations Hn) as (m & Hm & _).
  exists (round1 (applyPenalty m P)), (Math_round (applyPenalty m P)).
  unfold persistedScore, returnedScore, overallScore. rewrite Hm. simpl.
  split; [reflexivity |]. split; [reflexivity |]. apply roundings_close.
Qed.

Lemma returned_near_persisted_witness :
  exists s z,
    persistedScore [Samples.uneven_evaluation] 0 = Some s
    /\ returnedScore [Samples.uneven_evaluation] 0 = Some z
    /\ - (1 # 2) <= inject_Z z - s <= 1 # 2.
Proof.
  apply (returned_near_persisted [Samples.uneven_evaluation] 0).
  simpl. lia.
Defined.

End ScoringFacts.

(** ** The hook: the log of devices and bursts of detections *)

Module HookFacts.

Import DeviceDetection Conditions.
Local Open Scope Q_scope.

Lemma isSuspicious_score (p : Prediction) :
  isSuspicious p = true -> 1 # 2 < score p.
Proof.
  unfold isSuspicious. intros H. apply andb_prop in H. destruct H as [_ H].
  destruct (Qlt_le_dec (1 # 2) (score p)); [assumption | discriminate].
Qed.

Lemma scoreOf_found (items : list Prediction) (name : string) :
  Forall (fun p => isSuspicious p = true) items ->
  In name (map label items) ->
  exists p, In p items /\ label p = name /\ scoreOf items name = score p.
Proof.
  intros Hall Hin. unfold scoreOf.
  destruct (find (fun i => String.eqb (label i) name) items) as [p |] eqn:Hfind.
  - apply find_some in Hfind. destruct Hfind as [Hp Heq].
    apply String.eqb_eq in Heq. exists p. repeat split; try assumption.
    unfold JS.num_or.
    destruct (Qeq_bool (score p) 0) eqn:Hz; [| reflexivity].
    apply Qeq_bool_iff in Hz.
    pose proof (isSuspicious_score p
                  (proj1 (Forall_forall _ _) Hall p Hp)) as Hs.
    rewrite Hz in Hs. discriminate.
  - apply in_map_iff in Hin. destruct Hin as (p & Hl & Hp).
    pose proof (find_none _ _ Hfind p Hp) as Hno. simpl in Hno.
    rewrite Hl, String.eqb_refl in Hno. discriminate.
Qed.


(** The log of detected devices only grows.  A detection either changes
    nothing, or raises one warning: then more than five seconds have passed
    since the last one, the counter goes up by one, the debounce time is
    the detection's, and the entries appended carry that time, distinct
    labels, each the label of a suspicious prediction of the frame, with
    its confidence, above one half. *)
Theorem detection_log_grows (ready : bool) (time : Z)
  (predictions : option (list Prediction)) (st : State) :
  let st' := detectObjects ready time predictions st in
  st' = st
  \/ exists preds new,
       predictions = Some preds
       /\ new <> []
       /\ detectedDevices st' = (detectedDevices st ++ new)%list
       /\ deviceWarningCount st' = S (deviceWarningCount st)
       /\ lastWarningTime st' = time
       /\ (5000 < time - lastWarningTime st)%Z
       /\ NoDup (map class new)
       /\ Forall (logged_from time preds) new.
Proof.
  unfold detectObjects.
  destruct (negb _); [now left |].
  destruct predictions as [preds |]; [| now left].
  destruct (filter isSuspicious preds) as [| p0 items0] eqn:Hitems;
    [now left |].
  cbn [List.length Nat.ltb Nat.leb].
  destruct (Z.ltb_spec 5000 (time - lastWarningTime st)) as [Hfar | Hnear];
    [| now left].
  right. rewrite <- Hitems.
  set (items := filter isSuspicious preds).
  assert (Hall : Forall (fun p => isSuspicious p = true) items).
  { apply Forall_forall. intros p Hp. apply filter_In in Hp. tauto. }
  exists preds,
    (map (fun name => mkDetectedDevice name (scoreOf items name) time)
       (deviceNames items)).
  split; [reflexivity |]. split.
  { unfold items. rewrite Hitems. discriminate. }
  split; [reflexivity |]. split; [reflexivity |]. split; [reflexivity |].
  split; [exact Hfar |]. split.
  - rewrite map_map. simpl. rewrite map_id.
    apply (DetectionFacts.deviceNames_set items).
  - apply Forall_forall. intros d Hd. apply in_map_iff in Hd.
    destruct Hd as (name & <- & Hname).
    apply (DetectionFacts.deviceNames_set items) in Hname.
    destruct (scoreOf_found items name Hall Hname) as (p & Hp & Hl & Hs).
    unfold logged_from. simpl. rewrite Hs.
    assert (Hsusp : isSuspicious p = true)
      by exact (proj1 (Forall_forall _ _) Hall p Hp).
    split; [reflexivity |]. split; [now apply isSuspicious_score |].
    exists p. unfold items in Hp. apply filter_In in Hp. tauto.
Qed.

(** However many detections arrive within five seconds of the last
    warning, none changes the state. *)
Theorem burst_raises_nothing (ticks : list Tick) (st : State) :
  Forall (fun t => (tick_time t - lastWarningTime st <= 5000)%Z) ticks ->
  detectAll ticks st = st.
Proof.
  induction 1 as [| [[ready time] predictions] ticks Htime _ IH]; simpl;
    [reflexivity |].
  assert (Hsame : detectObjects ready time predictions st = st).
  { unfold tick_time in Htime. simpl in Htime. unfold detectObjects.
    destruct (negb _); [reflexivity |].
    destruct predictions as [preds |]; [| reflexivity].
    destruct (_ <? _)%nat; [| reflexivity].
    destruct (Z.ltb_spec 5000 (time - lastWarningTime st)); [lia | reflexivity]. }
  rewrite Hsame. exact IH.
Qed.

Lemma burst_raises_nothing_witness :
  let st := detectObjects true 10000 (Some [Samples.phone]) Samples.watching in
  detectAll [ (true, 11000%Z, Some [Samples.phone]);
              (true, 13000%Z, Some [Samples.book; Samples.phone]);
              (true, 15000%Z, Some [Samples.book]) ] st
  = st.
Proof.
  apply (burst_raises_nothing
           [ (true, 11000%Z, Some [Samples.phone]);
             (true, 13000%Z, Some [Samples.book; Samples.phone]);
             (true, 15000%Z, Some [Samples.book]) ]).
  repeat constructor; vm_compute; discriminate.
Defined.

End HookFacts.

(** ** The page: what its handlers leave alone *)

Module PageFacts.

Import Server Interview LedgerFacts Conditions.

Lemma render_quiet (prev next : State) :
  deviceWarningCount next = 0%nat -> render prev next = next.
Proof.
  intros Hquiet. unfold render, penaltyEffect. rewrite Hquiet.
  destruct (_ || _)%bool; reflexivity.
Qed.

Lemma scorePenalty_render_cases (prev next : State) :
  scorePenalty (render prev next) = scorePenalty next
  \/ scorePenalty (render prev next) = (scorePenalty next + 10)%nat.
Proof.
  destruct (render_cases prev next) as [-> | ->]; simpl; auto.
Qed.

Lemma cameraEnabled_render p n : cameraEnabled (render p n) = cameraEnabled n.
Proof.
  destruct (render_cases p n) as [-> | ->]; reflexivity.
Qed.

#[export] Hint Rewrite cameraEnabled_render : render.

Lemma detection_startCamera w st :
  detection (startCamera w st) = detection st
  \/ detection (startCamera w st)
     = DeviceDetection.startDetection (detection st).
Proof.
  unfold startCamera. destruct (camera_granted w); simpl; auto.
Qed.

(** What [generateQuestions] does to the fields the invariants talk about. *)
Lemma generateQuestions_frame (st : State) (w : World) :
  let st' := fst (generateQuestions st w) in
  tabSwitchCount st' = tabSwitchCount st
  /\ deviceWarningCount st' = deviceWarningCount st
  /\ location st' = location st
  /\ ((step st' = step st /\ detection st' = detection st)
      \/ (step st' = step_interview
          /\ (detection st' = detection st
              \/ detection st'
                 = DeviceDetection.startDetection (detection st)))).
Proof.
  unfold generateQuestions.
  destruct (uploadResume st w) as [name w1].
  destruct (db_call _ w1) as [[|] w2]; cbn [fst].
  - unfold deviceWarningCount. repeat (autorewrite with render; simpl).
    repeat split; auto.
  - destruct (generate_questions w2) as [response w3].
    destruct (invoke_ok response); [destruct (Oracle.body response) |];
      cbn [fst]; unfold deviceWarningCount;
      repeat (autorewrite with render; simpl);
      try (repeat split; auto; fail).
    unfold startCamera. destruct (camera_granted w3); simpl;
      repeat (autorewrite with render; simpl);
      rewrite ?count_startDetection; repeat split; auto.
Qed.

(** What [handleNext] does to the same fields. *)
Lemma handleNext_frame (st : State) (w : World) :
  let st' := fst (handleNext st w) in
  tabSwitchCount st' = tabSwitchCount st
  /\ deviceWarningCount st' = deviceWarningCount st
  /\ interviewId st' = interviewId st
  /\ selectedRole st' = selectedRole st
  /\ ((step st' = step st /\ detection st' = detection st
       /\ location st' = location st /\ snd (handleNext st w) = w)
      \/ (detection st' = DeviceDetection.stopDetection (detection st)
          /\ cameraEnabled st' = false
          /\ (step st' = step_interview \/ step st' = step_submitting))).
Proof.
  unfold handleNext.
  destruct (nth_error _ _); [| cbn [fst snd]; repeat split; auto].
  destruct (_ <? _)%nat.
  - cbn [fst snd]. unfold deviceWarningCount.
    repeat (autorewrite with render; simpl). repeat split; auto.
  - unfold submitInterview.
    destruct (generate_feedback _ w) as [response w1].
    destruct (invoke_ok response); cbn [fst snd]; unfold deviceWarningCount;
      rewrite ?cameraEnabled_render;
      repeat (autorewrite with render; simpl);
      rewrite ?cameraEnabled_render;
      repeat (autorewrite with render; simpl);
      repeat split; auto.
Qed.

Lemma isDetecting_detectObjects ready time preds d :
  DeviceDetection.isDetecting
    (DeviceDetection.detectObjects ready time preds d)
  = DeviceDetection.isDetecting d.
Proof.
  unfold DeviceDetection.detectObjects.
  destruct (negb _); [reflexivity |].
  destruct preds; [| reflexivity].
  destruct (_ <? _)%nat; [| reflexivity].
  destruct (_ <? _)%Z; reflexivity.
Qed.






Lemma scorePenalty_render_quiet (prev next : State) :
  deviceWarningCount next = 0%nat ->
  scorePenalty (render prev next) = scorePenalty next.
Proof. intros H. now rewrite render_quiet. Qed.

(** Discharges the renders of a handler when no device warning has been
    recorded. *)
Ltac quiet_renders Hq :=
  repeat (rewrite scorePenalty_render_quiet
            by (unfold deviceWarningCount;
                repeat (autorewrite with render; simpl);
                rewrite ?count_startDetection; exact Hq);
          simpl).

Lemma generateQuestions_quiet (st : State) (w : World) :
  deviceWarningCount st = 0%nat ->
  scorePenalty (fst (generateQuestions st w)) = scorePenalty st.
Proof.
  intros Hq. unfold deviceWarningCount in Hq. unfold generateQuestions.
  destruct (uploadResume st w) as [name w1].
  destruct (db_call _ w1) as [[|] w2]; cbn [fst]; [now quiet_renders Hq |].
  destruct (generate_questions w2) as [response w3].
  destruct (invoke_ok response); [destruct (Oracle.body response) |];
    cbn [fst]; unfold startCamera; try destruct (camera_granted w3);
    now quiet_renders Hq.
Qed.

Lemma handleNext_quiet (st : State) (w : World) :
  deviceWarningCount st = 0%nat ->
  scorePenalty (fst (handleNext st w)) = scorePenalty st.
Proof.
  intros Hq. unfold deviceWarningCount in Hq. unfold handleNext.
  destruct (nth_error _ _); [| reflexivity].
  destruct (_ <? _)%nat; [cbn [fst]; now quiet_renders Hq |].
  unfold submitInterview.
  destruct (generate_feedback _ w) as [response w1].
  destruct (invoke_ok response); cbn [fst]; unfold stopCamera;
    now quiet_renders Hq.
Qed.

Lemma quiet_react (e : Event) (st : State) (w : World) :
  deviceWarningCount (fst (react e st w)) = 0%nat ->
  scorePenalty st = (5 * tabSwitchCount st)%nat ->
  scorePenalty (fst (react e st w))
  = (5 * tabSwitchCount (fst (react e st w)))%nat.
Proof.
  intros Hq' Hbal.
  assert (Hq : deviceWarningCount st = 0%nat).
  { destruct (ledger_le_react e st w) as (_ & Hd & _). lia. }
  revert Hq'. unfold react.
  destruct (String.eqb (location st) "/interview"); [| intros _; exact Hbal].
  unfold handle.
  destruct e as [ok | r | name | | a | | hidden | ready time preds | | ].
  - cbn [fst]. intros Hq'. rewrite deviceWarningCount_render in Hq'.
    rewrite render_quiet by exact Hq'. exact Hbal.
  - destruct (step_eqb _ _); cbn [fst]; intros _; [| exact Hbal].
    rewrite render_quiet by exact Hq. exact Hbal.
  - destruct (step_eqb _ _); cbn [fst]; intros _; [| exact Hbal].
    rewrite render_quiet by exact Hq. exact Hbal.
  - destruct (_ && _)%bool; intros _; [| exact Hbal].
    rewrite generateQuestions_quiet by exact Hq.
    destruct (generateQuestions_frame st w) as (-> & _). exact Hbal.
  - destruct (_ && _)%bool; cbn [fst]; intros _; [| exact Hbal].
    rewrite render_quiet by exact Hq. exact Hbal.
  - destruct (_ && _)%bool; intros _; [| exact Hbal].
    rewrite handleNext_quiet by exact Hq.
    destruct (handleNext_frame st w) as (-> & _). exact Hbal.
  - cbn [fst]. intros _. unfold handleVisibilityChange.
    destruct (_ && _)%bool; [| exact Hbal].
    rewrite render_same_deps by reflexivity. simpl. lia.
  - cbn [fst]. unfold detectionTick.
    destruct (DeviceDetection.isDetecting _); [| intros _; exact Hbal].
    intros Hq'. rewrite deviceWarningCount_render in Hq'.
    rewrite render_quiet by exact Hq'. exact Hbal.
  - destruct (_ && _)%bool; cbn [fst]; [| intros _; exact Hbal].
    intros Hq'. rewrite deviceWarningCount_render in Hq'.
    rewrite render_quiet by exact Hq'.
    destruct (cameraEnabled st); [exact Hbal |].
    unfold startCamera. destruct (camera_granted w); exact Hbal.
  - cbn [fst]. intros Hq'. rewrite deviceWarningCount_render in Hq'.
    rewrite render_quiet by exact Hq'. exact Hbal.
Qed.

Lemma quiet_run (events : list Event) :
  forall (st : State) (w : World),
    deviceWarningCount (fst (run events st w)) = 0%nat ->
    scorePenalty st = (5 * tabSwitchCount st)%nat ->
    scorePenalty (fst (run events st w))
    = (5 * tabSwitchCount (fst (run events st w)))%nat.
Proof.
  induction events as [| e events IH]; intros st w Hq Hbal; simpl in *;
    [exact Hbal |].
  pose proof (quiet_react e st w) as Hstep.
  destruct (react e st w) as [st' w'] eqn:Hreact. cbn [fst] in Hstep.
  apply IH; [exact Hq |]. apply Hstep; [| exact Hbal].
  destruct (ledger_le_run events st' w') as (_ & Hd & _). lia.
Qed.

(** As long as no device warning has been recorded, the penalty is exactly
    five points per tab switch, whatever else happened in the session,
    failed starts and failed submissions included. *)
Theorem tab_switches_cost_five_each (events : list Event) (user : string)
  (w : World) :
  let st := fst (run events (initial user) w) in
  deviceWarningCount st = 0%nat ->
  scorePenalty st = (5 * tabSwitchCount st)%nat.
Proof.
  intros st Hq. apply quiet_run; [exact Hq | reflexivity].
Qed.

Lemma tab_switches_cost_five_each_witness :
  let st := fst (run MoreSamples.tabbing (initial "u1"%string)
                   Samples.session_world) in
  tabSwitchCount st = 2%nat /\ scorePenalty st = 10%nat.
Proof.
  pose proof (tab_switches_cost_five_each MoreSamples.tabbing "u1"%string
                Samples.session_world) as H.
  cbv zeta in H. cbv zeta.
  assert (Ht : tabSwitchCount
                 (fst (run MoreSamples.tabbing (initial "u1"%string)
                         Samples.session_world)) = 2%nat)
    by (vm_compute; reflexivity).
  split; [exact Ht |]. rewrite H; [rewrite Ht; reflexivity |].
  vm_compute. reflexivity.
Defined.

(** The hook cannot detect: no detector, and no interval. *)
Lemma blind_react (e : Event) (st : State) (w : World) :
  not_loaded e ->
  DeviceDetection.detector (detection st) = false ->
  DeviceDetection.isDetecting (detection st) = false ->
  let st' := fst (react e st w) in
  DeviceDetection.detector (detection st') = false
  /\ DeviceDetection.isDetecting (detection st') = false
  /\ deviceWarningCount st' = deviceWarningCount st.
Proof.
  intros Hload Hdet Hrun.
  assert (Hstart : DeviceDetection.startDetection (detection st)
                   = detection st).
  { unfold DeviceDetection.startDetection. rewrite Hdet.
    destruct (negb _ || _)%bool; reflexivity. }
  cbv zeta. unfold react.
  destruct (String.eqb (location st) "/interview"); [| auto].
  unfold handle.
  destruct e as [ok | r | name | | a | | hidden | ready time preds | | ].
  - cbn [fst]. unfold deviceWarningCount. autorewrite with render. simpl.
    destruct ok; [now contradiction Hload | auto].
  - destruct (step_eqb _ _); cbn [fst]; unfold deviceWarningCount;
      autorewrite with render; simpl; auto.
  - destruct (step_eqb _ _); cbn [fst]; unfold deviceWarningCount;
      autorewrite with render; simpl; auto.
  - destruct (_ && _)%bool; [| auto].
    destruct (generateQuestions_frame st w) as (_ & Hd & _ & Hstep).
    split; [| split; [| exact Hd]];
      destruct Hstep as [[_ ->] | [_ [-> | ->]]];
      rewrite ?Hstart; assumption.
  - destruct (_ && _)%bool; cbn [fst]; unfold deviceWarningCount;
      autorewrite with render; simpl; auto.
  - destruct (_ && _)%bool; [| auto].
    destruct (handleNext_frame st w) as (_ & Hd & _ & _ & Hstep).
    split; [| split; [| exact Hd]];
      destruct Hstep as [(_ & -> & _) | (-> & _)]; simpl; auto.
  - cbn [fst]. unfold handleVisibilityChange.
    destruct (_ && _)%bool; unfold deviceWarningCount;
      autorewrite with render; simpl; auto.
  - cbn [fst]. unfold detectionTick. rewrite Hrun. auto.
  - destruct (_ && _)%bool; cbn [fst]; [| auto].
    unfold deviceWarningCount. autorewrite with render.
    destruct (cameraEnabled st); simpl; [auto |].
    unfold startCamera. destruct (camera_granted w); simpl;
      rewrite ?Hstart; auto.
  - cbn [fst]. unfold deviceWarningCount. autorewrite with render. simpl.
    auto.
Qed.

Lemma blind_run (events : list Event) :
  forall (st : State) (w : World),
    Forall not_loaded events ->
    DeviceDetection.detector (detection st) = false ->
    DeviceDetection.isDetecting (detection st) = false ->
    deviceWarningCount (fst (run events st w)) = deviceWarningCount st.
Proof.
  induction events as [| e events IH]; intros st w Hall Hdet Hrun; simpl;
    [reflexivity |].
  inversion Hall as [| e' events' He Hevents]; subst.
  destruct (blind_react e st w He Hdet Hrun) as (Hdet' & Hrun' & Hcount).
  destruct (react e st w) as [st' w']. cbn [fst] in Hdet', Hrun', Hcount.
  rewrite IH by assumption. exact Hcount.
Qed.

(** A detection model that never loads does not block the session and
    never costs anything: as long as no load of the model succeeds, no
    device warning is recorded, whatever the camera shows, and the penalty
    is five points per tab switch. *)
Theorem no_model_no_device_penalty (events : list Event) (user : string)
  (w : World) :
  Forall not_loaded events ->
  let st := fst (run events (initial user) w) in
  deviceWarningCount st = 0%nat
  /\ scorePenalty st = (5 * tabSwitchCount st)%nat.
Proof.
  intros Hall st.
  assert (Hq : deviceWarningCount st = 0%nat).
  { subst st. rewrite blind_run by (assumption || reflexivity). reflexivity. }
  split; [exact Hq |]. apply quiet_run; [exact Hq | reflexivity].
Qed.

Lemma no_model_no_device_penalty_witness :
  let st := fst (run MoreSamples.tabbing (initial "u1"%string)
                   Samples.session_world) in
  deviceWarningCount st = 0%nat
  /\ scorePenalty st = (5 * tabSwitchCount st)%nat.
Proof.
  apply (no_model_no_device_penalty MoreSamples.tabbing "u1"%string
           Samples.session_world).
  repeat constructor; discriminate.
Defined.

End PageFacts.

(** ** The page: starting a session and answering its questions *)

Module StartFacts.

Import Oracle Server Interview LedgerFacts ServerFacts SessionFacts
  Conditions PageFacts.

Lemma generate_questions_ok (w : World) (st : Z) (content : Content string)
  (rest : list (Reply string)) :
  api_key w = true ->
  questions_oracle w = Replied st content :: rest ->
  JS.status_ok st = true ->
  generate_questions w
  = (mkResponse 200
       (QuestionsBody
          (Questions.generateQuestions (Questions.randomSeed (now w)) content)),
     set_questions_oracle rest w).
Proof.
  intros Hkey Horacle Hst. unfold_handler.
  rewrite Hkey, Horacle. simpl. rewrite Hst. reflexivity.
Qed.

Lemma uploadResume_keeps (st : State) (w : World) :
  let w1 := snd (uploadResume st w) in
  api_key w1 = api_key w /\ now w1 = now w
  /\ questions_oracle w1 = questions_oracle w
  /\ feedback_oracle w1 = feedback_oracle w
  /\ interviews w1 = interviews w /\ answers w1 = answers w
  /\ camera_granted w1 = camera_granted w.
Proof.
  unfold uploadResume.
  destruct (resumeFile st); [| simpl; repeat split].
  destruct (String.eqb _ _); [simpl; repeat split |].
  unfold db_call. destruct (faults w) as [| [|] fl]; simpl; repeat split.
Qed.

(** A start that goes through puts the page on the interview step with the
    handler's five questions, none answered, and the new session's
    identifier, and leaves exactly one more row, in progress, for the user
    and the role; the camera is on exactly if it was on or the browser
    grants it. *)
Theorem successful_start (st : State) (w : World) (status0 : Z)
  (content : Content string) (rest : list (Reply string)) :
  api_key w = true ->
  questions_oracle w = Replied status0 content :: rest ->
  JS.status_ok status0 = true ->
  faults w = [] ->
  let st' := fst (generateQuestions st w) in
  let w' := snd (generateQuestions st w) in
  step st' = step_interview
  /\ map text (questions st')
     = Questions.generateQuestions (Questions.randomSeed (now w)) content
  /\ List.length (questions st') = 5%nat
  /\ Forall (fun q => answer q = None) (questions st')
  /\ currentQuestion st' = currentQuestion st
  /\ interviewId st' = new_id w
  /\ isGenerating st' = false
  /\ cameraEnabled st' = (camera_granted w || cameraEnabled st)%bool
  /\ interviews w'
     = (interviews w
        ++ [mkInterviewRow (new_id w) (userId st) (selectedRole st)
              (Some 0%Q) in_progress None])%list
  /\ questions_oracle w' = rest.
Proof.
  intros Hkey Horacle Hst Hfaults.
  destruct (uploadResume_no_fault st w Hfaults) as (Hf1 & _).
  destruct (uploadResume_keeps st w) as (Hk1 & Hn1 & Ho1 & _ & Hi1 & _ & Hc1).
  set (w1 := snd (uploadResume st w)) in *.
  set (row := mkInterviewRow (new_id w) (userId st) (selectedRole st)
                (Some 0%Q) in_progress None).
  assert (Hrow : mkInterviewRow (new_id w1) (userId st) (selectedRole st)
                   (Some 0%Q) in_progress None = row).
  { unfold row, new_id. now rewrite Hi1. }
  set (invoked := set_interviews (interviews w1 ++ [row]) w1).
  set (qs := Questions.generateQuestions (Questions.randomSeed (now w)) content).
  assert (Hinvoke : generate_questions invoked
                    = (mkResponse 200 (QuestionsBody qs),
                       set_questions_oracle rest invoked)).
  { rewrite (generate_questions_ok invoked status0 content rest);
      [| unfold invoked; simpl; congruence
       | unfold invoked; simpl; congruence | exact Hst].
    unfold qs, invoked. simpl. now rewrite Hn1. }
  assert (Hrun : generateQuestions st w
                 = (let st1 := render st (set_isGenerating true st) in
                    let st2 := render st1 (set_interviewId (id row) st1) in
                    let st3 :=
                      render st2
                        (set_step step_interview
                           (set_questions (map (fun q => mkQuestion q None) qs)
                              st2)) in
                    let st4 :=
                      render st3
                        (startCamera (set_questions_oracle rest invoked) st3) in
                    render st4 (set_isGenerating false st4),
                    set_questions_oracle rest invoked)).
  { unfold generateQuestions.
    rewrite (surjective_pairing (uploadResume st w)).
    fold w1. rewrite Hrow.
    unfold db_call at 1. rewrite Hf1. fold invoked.
    rewrite Hinvoke. reflexivity. }
  cbv zeta. rewrite Hrun. cbn [fst snd].
  assert (Hgrant : camera_granted (set_questions_oracle rest invoked)
                   = camera_granted w) by (simpl; exact Hc1).
  unfold startCamera. rewrite Hgrant.
  rewrite cameraEnabled_render.
  destruct (camera_granted w);
    repeat (autorewrite with render; simpl);
    rewrite ?cameraEnabled_render;
    repeat (autorewrite with render; simpl);
    rewrite ?cameraEnabled_render;
    repeat (autorewrite with render; simpl);
    rewrite ?map_map, ?length_map; simpl; rewrite ?map_id;
    repeat split; try reflexivity;
    first
      [ apply QuestionFacts.exactlyFive_length
      | apply Forall_forall; intros q Hq; apply in_map_iff in Hq;
        destruct Hq as (t & <- & _); reflexivity
      | now rewrite Hi1 ].
Qed.

Lemma successful_start_witness :
  let st' := fst (generateQuestions MoreSamples.ready_to_start
                    Samples.session_world) in
  let w' := snd (generateQuestions MoreSamples.ready_to_start
                   Samples.session_world) in
  step st' = step_interview
  /\ map text (questions st') = Samples.five_texts
  /\ cameraEnabled st' = true
  /\ map status (interviews w') = [in_progress].
Proof.
  destruct (successful_start MoreSamples.ready_to_start Samples.session_world
              200 (JsonArray Samples.five_texts) []
              eq_refl eq_refl eq_refl eq_refl)
    as (Hstep & Htexts & _ & _ & _ & _ & _ & Hcam & Hrows & _).
  cbv zeta. rewrite Hstep, Htexts, Hcam, Hrows. repeat split.
Defined.

(** When the insertion of the session's row reports an error, the start
    stops there: the gateway is not called, no row is added, and the page
    stays where it was, without questions or identifier of a session, and
    is no longer generating. *)
Theorem failed_insert_stops_start (st : State) (w : World)
  (later : list bool) :
  faults (snd (uploadResume st w)) = true :: later ->
  let st' := fst (generateQuestions st w) in
  let w' := snd (generateQuestions st w) in
  w' = set_faults later (snd (uploadResume st w))
  /\ questions_oracle w' = questions_oracle w
  /\ interviews w' = interviews w
  /\ step st' = step st
  /\ questions st' = questions st
  /\ interviewId st' = interviewId st
  /\ isGenerating st' = false.
Proof.
  intros Hfaults.
  destruct (uploadResume_keeps st w) as (_ & _ & Ho1 & _ & Hi1 & _).
  set (w1 := snd (uploadResume st w)) in *.
  assert (Hrun : generateQuestions st w
                 = (let st1 := render st (set_isGenerating true st) in
                    render st1 (set_isGenerating false st1),
                    set_faults later w1)).
  { unfold generateQuestions.
    rewrite (surjective_pairing (uploadResume st w)). fold w1.
    unfold db_call. rewrite Hfaults. reflexivity. }
  cbv zeta. rewrite Hrun. cbn [fst snd].
  repeat (autorewrite with render; simpl). repeat split; assumption.
Qed.

Lemma failed_insert_stops_start_witness :
  let st' := fst (generateQuestions MoreSamples.ready_to_start
                    MoreSamples.insert_fault_world) in
  let w' := snd (generateQuestions MoreSamples.ready_to_start
                   MoreSamples.insert_fault_world) in
  List.length (questions_oracle w') = 1%nat
  /\ interviews w' = []
  /\ step st' = step_role
  /\ questions st' = [].
Proof.
  destruct (failed_insert_stops_start MoreSamples.ready_to_start
              MoreSamples.insert_fault_world [] eq_refl)
    as (_ & Ho & Hi & Hs & Hq & _).
  cbv zeta. rewrite Ho, Hi, Hs, Hq. repeat split.
Defined.

Lemma recordAnswers_length (texts : list string) :
  forall (i : nat) (qs : list Question),
    List.length (recordAnswers i texts qs) = List.length qs.
Proof.
  induction texts as [| a texts IH]; intros i qs; simpl; [reflexivity |].
  now rewrite IH, setAnswer_length.
Qed.

Lemma setAnswer_text (i : nat) (a : string) (qs : list Question) :
  map text (setAnswer i a qs) = map text qs.
Proof.
  revert i. induction qs as [| q qs IH]; intros [| i]; simpl;
    try reflexivity.
  now rewrite IH.
Qed.

Lemma recordAnswers_text (texts : list string) :
  forall (i : nat) (qs : list Question),
    map text (recordAnswers i texts qs) = map text qs.
Proof.
  induction texts as [| a texts IH]; intros i qs; simpl; [reflexivity |].
  now rewrite IH, setAnswer_text.
Qed.

Lemma recordAnswers_nth (texts : list string) :
  forall (i : nat) (qs : list Question) (k : nat),
    (i + List.length texts <= List.length qs)%nat ->
    option_map answer (nth_error (recordAnswers i texts qs) k)
    = if ((i <=? k) && (k <? i + List.length texts))%nat
      then Some (Some (nth (k - i) texts EmptyString))
      else option_map answer (nth_error qs k).
Proof.
  induction texts as [| a texts IH]; intros i qs k Hlen; simpl in *.
  - destruct (Nat.leb_spec i k); destruct (Nat.ltb_spec k (i + 0)); simpl;
      (reflexivity || lia).
  - rewrite IH by (rewrite setAnswer_length; lia).
    destruct (Nat.leb_spec (S i) k); destruct (Nat.ltb_spec k (S i + List.length texts));
      destruct (Nat.leb_spec i k); destruct (Nat.ltb_spec k (i + S (List.length texts)));
      simpl; try lia.
    + replace (k - i)%nat with (S (k - S i)) by lia. reflexivity.
    + apply f_equal. apply setAnswer_other. lia.
    + assert (k = i) by lia. subst k. rewrite Nat.sub_diag.
      apply setAnswer_same. lia.
    + apply f_equal. apply setAnswer_other. lia.
Qed.

Lemma answering_run (texts : list string) :
  forall (st : State) (w : World),
    location st = "/interview"%string ->
    step st = step_interview ->
    Forall not_blank texts ->
    (currentQuestion st + List.length texts < List.length (questions st))%nat ->
    let r := run (answering texts) st w in
    snd r = w
    /\ currentQuestion (fst r)
       = (currentQuestion st + List.length texts)%nat
    /\ questions (fst r)
       = recordAnswers (currentQuestion st) texts (questions st)
    /\ step (fst r) = step_interview
    /\ location (fst r) = location st
    /\ scorePenalty (fst r) = scorePenalty st
    /\ interviewId (fst r) = interviewId st.
Proof.
  induction texts as [| a texts IH]; intros st w Hloc Hstep Hall Hlen.
  - simpl. rewrite Nat.add_0_r. repeat split. exact Hstep.
  - inversion Hall as [| a' texts' Ha Htexts]; subst.
    simpl in Hlen.
    assert (Hnonempty : (0 <? List.length (questions st))%nat = true)
      by (apply Nat.ltb_lt; lia).
    assert (Htype : react (TypeAnswer a) st w = (set_currentAnswer a st, w)).
    { unfold react. rewrite Hloc. simpl. rewrite Hstep, Hnonempty. simpl.
      now rewrite render_same_deps. }
    pose (st2 := set_currentAnswer EmptyString
                   (set_currentQuestion (currentQuestion st + 1)
                      (set_questions
                         (setAnswer (currentQuestion st) a (questions st))
                         (set_currentAnswer a st)))).
    assert (Hnext : react Next (set_currentAnswer a st) w = (st2, w)).
    { unfold react. simpl. rewrite Hloc. simpl. rewrite Hstep, Hnonempty.
      simpl.
      destruct (String.eqb_spec (Questions.trim a) EmptyString) as [Hb | _];
        [now contradiction Ha |].
      simpl. unfold handleNext. simpl.
      destruct (nth_error (questions st) (currentQuestion st)) eqn:Hnth;
        [| apply nth_error_None in Hnth; lia].
      destruct (Nat.ltb_spec (currentQuestion st)
                  (List.length (questions st) - 1)); [| lia].
      now rewrite render_same_deps. }
    unfold answering. simpl flat_map. fold (answering texts).
    cbn [run app]. rewrite Htype. cbn [run]. rewrite Hnext.
    destruct (IH st2 w) as (Hw & Hcq & Hqs & Hs & Hl & Hp & Hi);
      [exact Hloc | exact Hstep | exact Htexts
      | simpl; rewrite setAnswer_length; lia |].
    cbv zeta. rewrite Hw, Hcq, Hqs, Hs, Hl, Hp, Hi. simpl.
    replace (currentQuestion st + 1)%nat with (S (currentQuestion st)) by lia.
    repeat split. lia.
Qed.

(** Typing and confirming answers before the last question records each
    answer at its question, in order, moves on by one question each time,
    changes no question's text and no other answer, and sends nothing:
    the world and the penalty are as before. *)
Theorem answers_recorded_in_order (texts : list string) (st : State)
  (w : World) :
  location st = "/interview"%string ->
  step st = step_interview ->
  Forall not_blank texts ->
  (currentQuestion st + List.length texts < List.length (questions st))%nat ->
  let st' := fst (run (answering texts) st w) in
  snd (run (answering texts) st w) = w
  /\ currentQuestion st' = (currentQuestion st + List.length texts)%nat
  /\ step st' = step_interview
  /\ scorePenalty st' = scorePenalty st
  /\ map text (questions st') = map text (questions st)
  /\ (forall j, (j < List.length texts)%nat ->
        option_map answer (nth_error (questions st') (currentQuestion st + j))
        = Some (Some (nth j texts EmptyString)))
  /\ (forall k, (k < currentQuestion st
                 \/ currentQuestion st + List.length texts <= k)%nat ->
        option_map answer (nth_error (questions st') k)
        = option_map answer (nth_error (questions st) k)).
Proof.
  intros Hloc Hstep Hall Hlen.
  destruct (answering_run texts st w Hloc Hstep Hall Hlen)
    as (Hw & Hcq & Hqs & Hs & _ & Hp & _).
  cbv zeta. rewrite Hqs.
  split; [exact Hw |]. split; [exact Hcq |]. split; [exact Hs |].
  split; [exact Hp |]. split; [apply recordAnswers_text |]. split.
  - intros j Hj. rewrite recordAnswers_nth by lia.
    destruct (Nat.leb_spec (currentQuestion st) (currentQuestion st + j));
      [| lia].
    destruct (Nat.ltb_spec (currentQuestion st + j)
                (currentQuestion st + List.length texts)); [| lia].
    simpl. replace (currentQuestion st + j - currentQuestion st)%nat with j
      by lia.
    reflexivity.
  - intros k Hk. rewrite recordAnswers_nth by lia.
    destruct (Nat.leb_spec (currentQuestion st) k);
      destruct (Nat.ltb_spec k (currentQuestion st + List.length texts));
      simpl; (reflexivity || lia).
Qed.

Lemma answers_recorded_in_order_witness :
  let st := fst MoreSamples.just_started in
  let w := snd MoreSamples.just_started in
  let st' := fst (run (answering MoreSamples.three_answers) st w) in
  snd (run (answering MoreSamples.three_answers) st w) = w
  /\ currentQuestion st' = 3%nat
  /\ map text (questions st') = Samples.five_texts.
Proof.
  intros st w st'.
  destruct (answers_recorded_in_order MoreSamples.three_answers st w)
    as (Hw & Hcq & _ & _ & Htexts & _).
  - vm_compute. reflexivity.
  - vm_compute. reflexivity.
  - repeat constructor; vm_compute; discriminate.
  - vm_compute. lia.
  - fold st' in Hcq, Htexts. rewrite Hw, Hcq, Htexts.
    repeat split; vm_compute; reflexivity.
Defined.

(** A submission, accepted or not, turns the proctoring off: after the
    last question is confirmed the camera is off and the detection interval
    is stopped, so a retry after a failed submission runs without
    detection unless the user switches the camera on again. *)
Theorem submission_stops_proctoring (st : State) (w : World) :
  on_last_question st ->
  let st' := fst (handleNext st w) in
  cameraEnabled st' = false
  /\ DeviceDetection.isDetecting (detection st') = false
  /\ (step st' = step_interview \/ step st' = step_submitting).
Proof.
  intros [_ Hlast]. cbv zeta. rewrite (handleNext_last st w Hlast).
  unfold submitInterview.
  destruct (generate_feedback _ w) as [response w1].
  destruct (invoke_ok response); cbn [fst];
    repeat (autorewrite with render; simpl); auto.
Qed.

Lemma submission_stops_proctoring_witness :
  let st := fst Samples.before_submission in
  let st' := fst (handleNext st (snd Samples.before_submission)) in
  cameraEnabled st = true
  /\ cameraEnabled st' = false
  /\ DeviceDetection.isDetecting (detection st') = false.
Proof.
  intros st st'.
  assert (Hlast : on_last_question st) by (split; vm_compute; reflexivity).
  destruct (submission_stops_proctoring st (snd Samples.before_submission)
              Hlast) as (Hcam & Hrun & _).
  split; [vm_compute; reflexivity |]. split; assumption.
Defined.

Lemma handleNext_texts (st : State) (w : World) :
  map text (questions (fst (handleNext st w))) = map text (questions st).
Proof.
  unfold handleNext.
  destruct (nth_error _ _); [| reflexivity].
  destruct (_ <? _)%nat.
  - cbn [fst]. repeat (autorewrite with render; simpl).
    apply setAnswer_text.
  - unfold submitInterview.
    destruct (generate_feedback _ w) as [response w1].
    destruct (invoke_ok response); cbn [fst];
      repeat (autorewrite with render; simpl); apply setAnswer_text.
Qed.

Lemma handleNext_ids (st : State) (w : World) :
  map id (interviews (snd (handleNext st w))) = map id (interviews w).
Proof.
  unfold handleNext.
  destruct (nth_error _ _); [| reflexivity].
  destruct (_ <? _)%nat; [reflexivity |].
  unfold submitInterview.
  pose proof (HandlerFacts.generate_feedback_keeps_ids
                (feedbackRequest st
                   (setAnswer (currentQuestion st) (currentAnswer st)
                      (questions st))) w) as Hids.
  destruct (generate_feedback _ w) as [response w1].
  destruct (invoke_ok response); exact Hids.
Qed.

Lemma started_react (e : Event) (st : State) (w : World) :
  step st <> step_role ->
  let st' := fst (react e st w) in
  step st' <> step_role
  /\ map text (questions st') = map text (questions st)
  /\ interviewId st' = interviewId st
  /\ selectedRole st' = selectedRole st
  /\ map id (interviews (snd (react e st w))) = map id (interviews w).
Proof.
  intros Hstarted. cbv zeta. unfold react.
  destruct (String.eqb (location st) "/interview"); [| auto].
  unfold handle.
  assert (Hrole : step_eqb (step st) step_role = false)
    by (destruct (step st); [contradiction | reflexivity | reflexivity]).
  rewrite Hrole.
  destruct e as [ok | r | name | | a | | hidden | ready time preds | | ];
    cbn [andb fst snd]; try (repeat split; auto; fail).
  - repeat (autorewrite with render; simpl). auto.
  - destruct (_ && _)%bool; cbn [fst snd];
      repeat (autorewrite with render; simpl); auto.
  - destruct (_ && _)%bool; [| auto].
    destruct (handleNext_frame st w) as (_ & _ & Hid & Hsel & Hstep).
    split.
    { destruct Hstep as [(-> & _) | (_ & _ & [-> | ->])];
        [exact Hstarted | discriminate | discriminate]. }
    split; [apply handleNext_texts |]. split; [exact Hid |].
    split; [exact Hsel | apply handleNext_ids].
  - unfold handleVisibilityChange. destruct (_ && _)%bool;
      repeat (autorewrite with render; simpl); auto.
  - unfold detectionTick. destruct (DeviceDetection.isDetecting _);
      repeat (autorewrite with render; simpl); auto.
  - destruct (_ && _)%bool; cbn [fst snd]; [| auto].
    repeat (autorewrite with render; simpl).
    destruct (cameraEnabled st); [auto |].
    unfold startCamera. destruct (camera_granted w); auto.
  - repeat (autorewrite with render; simpl). auto.
Qed.

(** Once a session has started, the page never goes back to the role step,
    never changes the texts of the questions, the session's identifier or
    its role, and creates no further session row, whatever happens next. *)
Theorem session_fixed_once_started (events : list Event) (st : State)
  (w : World) :
  step st <> step_role ->
  let st' := fst (run events st w) in
  step st' <> step_role
  /\ map text (questions st') = map text (questions st)
  /\ interviewId st' = interviewId st
  /\ selectedRole st' = selectedRole st
  /\ map id (interviews (snd (run events st w))) = map id (interviews w).
Proof.
  revert st w. induction events as [| e events IH]; intros st w Hstarted;
    simpl; [auto |].
  destruct (started_react e st w Hstarted) as (Hs & Hq & Hi & Hr & Hw).
  destruct (react e st w) as [st1 w1]. cbn [fst snd] in *.
  destruct (IH st1 w1 Hs) as (Hs' & Hq' & Hi' & Hr' & Hw').
  cbv zeta in *. split; [exact Hs' |].
  split; [congruence |]. split; [congruence |]. split; congruence.
Qed.

Lemma session_fixed_once_started_witness :
  let st := fst MoreSamples.just_started in
  let w := snd MoreSamples.just_started in
  let r := run (answering MoreSamples.three_answers ++ [ToggleCamera]) st w in
  step (fst r) <> step_role
  /\ map text (questions (fst r)) = Samples.five_texts
  /\ interviewId (fst r) = "0"%string.
Proof.
  intros st w r.
  destruct (session_fixed_once_started
              (answering MoreSamples.three_answers ++ [ToggleCamera]) st w)
    as (Hs & Hq & Hi & _).
  - vm_compute. discriminate.
  - fold r in Hs, Hq, Hi. split; [exact Hs |].
    split; [rewrite Hq | rewrite Hi]; vm_compute; reflexivity.
Defined.

End StartFacts.

(** ** The line-splitting branch of the question handler *)

Module LineFacts.

Import Questions Conditions.
Local Open Scope string_scope.

Lemma dropWhile_idem (p : ascii -> bool) (s : string) :
  dropWhile p (dropWhile p s) = dropWhile p s.
Proof.
  induction s as [| c s IH]; simpl; [reflexivity |].
  destruct (p c) eqn:Hc; [exact IH |]. simpl. now rewrite Hc.
Qed.

Lemma dropWhile_head (p : ascii -> bool) (s : string) (c : ascii)
  (r : string) :
  dropWhile p s = String c r -> p c = false.
Proof.
  induction s as [| c' s IH]; simpl; [discriminate |].
  destruct (p c') eqn:Hc; [exact IH |].
  intros H. injection H as -> _. exact Hc.
Qed.

Lemma append_nil_r (s : string) : s ++ EmptyString = s.
Proof. induction s as [| c s IH]; simpl; [| rewrite IH]; reflexivity. Qed.

Lemma append_assoc (a b c : string) : (a ++ b) ++ c = a ++ (b ++ c).
Proof. induction a as [| x a IH]; simpl; [| rewrite IH]; reflexivity. Qed.

Lemma reverse_acc (s : string) :
  forall acc, reverse s acc = reverse s EmptyString ++ acc.
Proof.
  induction s as [| c s IH]; intros acc; simpl; [reflexivity |].
  rewrite (IH (String c acc)), (IH (String c EmptyString)), append_assoc.
  reflexivity.
Qed.

Lemma reverse_reverse (s : string) :
  forall acc acc', reverse (reverse s acc) acc' = reverse acc (s ++ acc').
Proof.
  induction s as [| c s IH]; intros acc acc'; simpl; [reflexivity |].
  now rewrite IH.
Qed.

Lemma reverse_involutive (s : string) :
  reverse (reverse s EmptyString) EmptyString = s.
Proof. rewrite reverse_reverse. simpl. apply append_nil_r. Qed.

Lemma reverse_app (a b : string) :
  forall acc, reverse (a ++ b) acc = reverse b (reverse a acc).
Proof.
  induction a as [| c a IH]; intros acc; simpl; [reflexivity |]. apply IH.
Qed.

Lemma dropWhile_keeps_last (p : ascii -> bool) (y : string) (c : ascii) :
  p c = false ->
  exists x, dropWhile p (y ++ String c EmptyString) = x ++ String c EmptyString.
Proof.
  intros Hc. induction y as [| d y IH]; simpl.
  - rewrite Hc. now exists EmptyString.
  - destruct (p d); [exact IH |]. now exists (String d y).
Qed.

Lemma trimEnd_idem (s : string) : trimEnd (trimEnd s) = trimEnd s.
Proof.
  unfold trimEnd. now rewrite reverse_involutive, dropWhile_idem.
Qed.

Lemma trimStart_trimEnd (u : string) :
  trimStart u = u -> trimStart (trimEnd u) = trimEnd u.
Proof.
  intros Hu. destruct u as [| c u]; [reflexivity |].
  assert (Hc : is_space c = false)
    by (apply (dropWhile_head is_space (String c u) c u); exact Hu).
  unfold trimEnd. cbn [reverse].
  rewrite (reverse_acc u (String c EmptyString)).
  destruct (dropWhile_keeps_last is_space (reverse u EmptyString) c Hc)
    as (x & ->).
  rewrite reverse_app. cbn [reverse]. unfold trimStart. cbn [dropWhile].
  now rewrite Hc.
Qed.

(** [trim] leaves no white space at either end. *)
Lemma trim_trimmed (s : string) : trimmed (trim s).
Proof.
  unfold trimmed, trim. split.
  - apply trimStart_trimEnd. unfold trimStart. apply dropWhile_idem.
  - apply trimEnd_idem.
Qed.

(** When the reply holds no bracketed part, at most five questions are
    taken from its lines, and each has been stripped of the white space at
    both of its ends. *)
Theorem splitLines_entries (content : string) :
  (List.length (splitLines content) <= 5)%nat
  /\ Forall trimmed (splitLines content).
Proof.
  unfold splitLines. split.
  - rewrite length_map. apply firstn_le_length.
  - apply Forall_forall. intros q Hq. apply in_map_iff in Hq.
    destruct Hq as (line & <- & _). apply trim_trimmed.
Qed.

Lemma filter_none {A : Type} (f : A -> bool) (l : list A) :
  Forall (fun x => f x = false) l -> filter f l = [].
Proof.
  induction 1 as [| x l Hx _ IH]; simpl; [reflexivity |]. now rewrite Hx.
Qed.

(** A reply without brackets whose lines all have ten characters or fewer
    once trimmed gives no question of its own: the five questions returned
    are five copies of the filler.  This is the case of a reply whose
    content is empty or missing. *)
Theorem short_lines_give_fillers (seed : Z) (content : string) :
  Forall short_line (split newline content) ->
  generateQuestions seed (Oracle.PlainText content) = repeat filler 5.
Proof.
  intros Hshort. unfold generateQuestions. simpl parseQuestions.
  unfold splitLines. rewrite filter_none; [reflexivity |].
  apply Forall_forall. intros line Hline.
  pose proof (proj1 (Forall_forall _ _) Hshort line Hline) as H.
  unfold short_line in H. apply Nat.ltb_ge. exact H.
Qed.

Lemma short_lines_give_fillers_witness :
  generateQuestions 1 (Oracle.PlainText MoreSamples.terse_reply)
  = repeat filler 5
  /\ generateQuestions 1 (Oracle.PlainText EmptyString) = repeat filler 5.
Proof.
  split.
  - apply (short_lines_give_fillers 1 MoreSamples.terse_reply).
    apply Forall_forall. intros line Hline. vm_compute in Hline.
    destruct Hline as [<- | [<- | []]]; unfold short_line; vm_compute; lia.
  - apply (short_lines_give_fillers 1 EmptyString).
    apply Forall_forall. intros line Hline. vm_compute in Hline.
    destruct Hline as [<- | []]; unfold short_line; vm_compute; lia.
Defined.

End LineFacts.

(** ** The coaching handler *)

Module CoachingFacts.

Import Coaching.



End CoachingFacts.

(** ** The labels of the feedback page *)

Module LabelFacts.

Import FeedbackPage.
Local Open Scope string_scope.

Lemma ge_bool_true (score bound : Q) :
  ge_bool score bound = true <-> (bound <= score)%Q.
Proof. unfold ge_bool. apply Qle_bool_iff. Qed.

Lemma ge_bool_false (score bound : Q) :
  ge_bool score bound = false <-> (score < bound)%Q.
Proof.
  unfold ge_bool. split.
  - intros H. apply Qnot_le_lt. intros Hle.
    apply Qle_bool_iff in Hle. congruence.
  - intros H. destruct (Qle_bool bound score) eqn:Hb; [| reflexivity].
    apply Qle_bool_iff in Hb. lra.
Qed.

(** The label of a score never gets worse when the score gets better, and
    the colour goes with the label: green for Excellent, amber for Good and
    red for Fair and for Needs Work. *)
Theorem better_score_better_label (s s' : Q) :
  (s <= s')%Q ->
  (labelRank (getScoreLabel s) <= labelRank (getScoreLabel s'))%nat
  /\ (getScoreColor s = "text-green-500" <-> getScoreLabel s = "Excellent")
  /\ (getScoreColor s = "text-amber-400" <-> getScoreLabel s = "Good")
  /\ (getScoreColor s = "text-red-400"
      <-> getScoreLabel s = "Fair" \/ getScoreLabel s = "Needs Work").
Proof.
  intros Hle. unfold getScoreLabel, getScoreColor.
  destruct (ge_bool s 80) eqn:H80; destruct (ge_bool s 60) eqn:H60;
    destruct (ge_bool s 40) eqn:H40;
    destruct (ge_bool s' 80) eqn:H80'; destruct (ge_bool s' 60) eqn:H60';
    destruct (ge_bool s' 40) eqn:H40';
    repeat match goal with
           | H : ge_bool _ _ = true |- _ => apply ge_bool_true in H
           | H : ge_bool _ _ = false |- _ => apply ge_bool_false in H
           end;
    try lra;
    (split; [vm_compute; lia |]);
    repeat split; intros; try discriminate; try reflexivity; auto;
    repeat match goal with
           | H : _ \/ _ |- _ => destruct H
           end;
    discriminate.
Qed.

Lemma better_score_better_label_witness :
  (labelRank (getScoreLabel 59) <= labelRank (getScoreLabel 60))%nat.
Proof.
  assert (Hle : (59 <= 60)%Q) by (vm_compute; discriminate).
  exact (proj1 (better_score_better_label 59 60 Hle)).
Defined.

End LabelFacts.

(** ** The statistics of the dashboard *)

Module DashboardFacts.

Import JS Dashboard RoundingFacts.
Local Open Scope Q_scope.

Lemma num_or_0 (x : Q) : num_or x 0 == x.
Proof.
  unfold num_or. destruct (Qeq_bool x 0) eqn:H; [| reflexivity].
  apply Qeq_bool_iff in H. now rewrite H.
Qed.

Lemma fold_sum_range {A : Type} (f : A -> Q) (l : list A) (acc : Q) :
  Forall (fun a => 0 <= f a <= 100) l ->
  acc <= fold_left (fun s a => s + f a) l acc
  /\ fold_left (fun s a => s + f a) l acc
     <= acc + 100 * inject_Z (Z.of_nat (List.length l)).
Proof.
  intros H. revert acc. induction H as [| a l Ha _ IH]; intros acc.
  - simpl. split; [lra |]. change (inject_Z 0) with 0. lra.
  - cbn [fold_left List.length]. destruct (IH (acc + f a)) as [Hlo Hhi].
    rewrite Nat2Z.inj_succ, <- Z.add_1_r, inject_Z_plus.
    change (inject_Z 1) with 1. split; lra.
Qed.

Lemma average_range {A : Type} (f : A -> Q) (a : A) (l : list A) :
  Forall (fun a => 0 <= f a <= 100) (a :: l) ->
  0 <= fold_left (fun s a => s + f a) (a :: l) 0
       / inject_Z (Z.of_nat (List.length (a :: l))) <= 100.
Proof.
  intros H. destruct (fold_sum_range f (a :: l) 0 H) as [Hlo Hhi].
  set (n := inject_Z (Z.of_nat (List.length (a :: l)))) in *.
  assert (Hn : 0 < n).
  { unfold n. change 0 with (inject_Z 0). rewrite <- Zlt_Qlt.
    cbn [List.length]. lia. }
  split.
  - apply Qle_shift_div_l; [exact Hn | lra].
  - apply Qle_shift_div_r; [exact Hn | lra].
Qed.

Lemma averageOf_range (column : Feedback.AnswerRow -> Q)
  (a : Feedback.AnswerRow) (l : list Feedback.AnswerRow) :
  Forall (fun row => 0 <= column row <= 100) (a :: l) ->
  0 <= averageOf column a l <= 100.
Proof.
  intros H. unfold averageOf.
  apply (average_range (fun row => num_or (column row) 0)).
  eapply Forall_impl; [| exact H]. intros row Hrow. cbv beta.
  now rewrite num_or_0.
Qed.

Lemma Math_round_scale (x : Q) :
  0 <= x <= 100 -> (0 <= Math_round x <= 100)%Z.
Proof.
  intros [H0 H1]. split.
  - change 0%Z with (Math_round 0). now apply Math_round_mono.
  - change 100%Z with (Math_round 100). now apply Math_round_mono.
Qed.

Lemma overallOrZero_range (row : Server.InterviewRow) :
  session_on_scale row -> 0 <= overallOrZero row <= 100.
Proof.
  unfold session_on_scale, overallOrZero. intros H.
  destruct (Server.overall_score row) as [s |]; [| lra].
  rewrite num_or_0. now apply H.
Qed.

Lemma averagesOrZeros_range (rows : option (list Feedback.AnswerRow)) :
  rows_on_scale rows ->
  0 <= relevance (averagesOrZeros rows) <= 100
  /\ 0 <= clarity (averagesOrZeros rows) <= 100
  /\ 0 <= grammar (averagesOrZeros rows) <= 100
  /\ 0 <= confidence (averagesOrZeros rows) <= 100.
Proof.
  intros H. unfold averagesOrZeros.
  destruct rows as [[| a l] |]; simpl; try (repeat split; lra).
  specialize (H _ eq_refl).
  repeat split; apply averageOf_range;
    (eapply Forall_impl; [| exact H]);
    unfold Feedback.row_scores_in_range; intros row Hrow; tauto.
Qed.

Lemma zeros_range :
  0 <= relevance zeros <= 100 /\ 0 <= clarity zeros <= 100
  /\ 0 <= grammar zeros <= 100 /\ 0 <= confidence zeros <= 100.
Proof. simpl. repeat split; lra. Qed.

Lemma skillData_scale (userSkills platformAvg : Averages) :
  (0 <= relevance userSkills <= 100 /\ 0 <= clarity userSkills <= 100
   /\ 0 <= grammar userSkills <= 100 /\ 0 <= confidence userSkills <= 100) ->
  (0 <= relevance platformAvg <= 100 /\ 0 <= clarity platformAvg <= 100
   /\ 0 <= grammar platformAvg <= 100 /\ 0 <= confidence platformAvg <= 100) ->
  Forall bar_on_scale (skillData userSkills platformAvg).
Proof.
  intros (Hr & Hc & Hg & Hk) (Hr' & Hc' & Hg' & Hk').
  unfold skillData, bar_on_scale.
  repeat constructor; cbn [userScore platformScore];
    now apply Math_round_scale.
Qed.

(** When the scores read from the database lie between 0 and 100, so does
    every figure the dashboard shows: the eight bars of the skill
    comparison, whichever of the queries gave rows, and the average score of
    a user who has a session, shown with the number of the sessions. *)
Theorem dashboard_figures_on_scale (stats : Stats)
  (interviewData : option (list Server.InterviewRow))
  (userAnswers allAnswers : option (list Feedback.AnswerRow)) :
  sessions_on_scale interviewData ->
  rows_on_scale userAnswers ->
  rows_on_scale allAnswers ->
  let shown := fetchData stats interviewData userAnswers allAnswers in
  Forall bar_on_scale (snd shown)
  /\ List.length (snd shown) = 4%nat
  /\ forall i l,
       interviewData = Some (i :: l) ->
       0 <= averageScore (fst shown) <= 100
       /\ totalInterviews (fst shown) = S (List.length l).
Proof.
  intros Hsessions Huser Hall. unfold fetchData.
  pose proof (averagesOrZeros_range _ Huser) as Hu.
  pose proof (averagesOrZeros_range _ Hall) as Hp.
  destruct interviewData as [[| i l] |]; cbn [fst snd].
  - split; [apply skillData_scale; [apply zeros_range | exact Hp] |].
    split; [reflexivity | discriminate].
  - split; [apply skillData_scale; assumption |].
    split; [reflexivity |].
    intros i0 l0 Heq. injection Heq as <- <-.
    cbn [averageScore totalInterviews]. split; [| reflexivity].
    apply round1_range. unfold avgScore. apply average_range.
    specialize (Hsessions _ eq_refl).
    eapply Forall_impl; [| exact Hsessions].
    intros row. apply overallOrZero_range.
  - split; [apply skillData_scale; [apply zeros_range | exact Hp] |].
    split; [reflexivity | discriminate].
Qed.

Lemma dashboard_figures_on_scale_witness :
  0 <= averageScore
         (fst (fetchData initialStats (Some MoreSamples.two_sessions)
                 (Some MoreSamples.scored_rows) None)) <= 100.
Proof.
  assert (Hs : sessions_on_scale (Some MoreSamples.two_sessions)).
  { intros l Hl. injection Hl as <-.
    unfold MoreSamples.two_sessions.
    apply Forall_cons; [| apply Forall_cons; [| apply Forall_nil]];
      intros s Hs; cbn in Hs; [| discriminate].
    injection Hs as <-. split; vm_compute; discriminate. }
  assert (Hu : rows_on_scale (Some MoreSamples.scored_rows)).
  { intros l Hl. injection Hl as <-.
    unfold MoreSamples.scored_rows, Feedback.row_scores_in_range.
    apply Forall_cons; [| apply Forall_cons; [| apply Forall_nil]];
      cbn; repeat split; vm_compute; discriminate. }
  assert (Ha : rows_on_scale None) by (intros l Hl; discriminate).
  destruct (dashboard_figures_on_scale initialStats _ _ _ Hs Hu Ha)
    as (_ & _ & Havg).
  exact (proj1 (Havg _ _ eq_refl)).
Defined.

Lemma Qle_bool_false (x y : Q) : Qle_bool x y = false -> y < x.
Proof.
  intros H. apply Qnot_le_lt. intros Hle.
  apply Qle_bool_iff in Hle. congruence.
Qed.

(** For a user with sessions and answers, the best skill named on the
    dashboard is one of the four skills and no skill has a higher average;
    the weakest is one of the four and no skill has a lower average; and the
    two names differ, even when all four averages are equal. *)
Theorem best_and_weak_skill (stats : Stats)
  (i : Server.InterviewRow) (l : list Server.InterviewRow)
  (a : Feedback.AnswerRow) (rows : list Feedback.AnswerRow)
  (allAnswers : option (list Feedback.AnswerRow)) :
  let shown :=
    fst (fetchData stats (Some (i :: l)) (Some (a :: rows)) allAnswers) in
  let skills := entries (averages a rows) in
  exists best weak,
    In (bestSkill shown, best) skills
    /\ In (weakSkill shown, weak) skills
    /\ Forall (fun e => weak <= snd e <= best) skills
    /\ bestSkill shown <> weakSkill shown.
Proof.
  unfold fetchData, averagesOrZeros.
  cbn [fst snd bestSkill weakSkill].
  generalize (averages a rows). intros [r c g k].
  unfold entries, sortEntries.
  cbn [relevance clarity grammar confidence fold_right insertEntry fst snd].
  repeat match goal with
         | |- context [Qle_bool ?x ?y] =>
             let H := fresh "H" in
             destruct (Qle_bool x y) eqn:H;
             [apply Qle_bool_iff in H | apply Qle_bool_false in H];
             cbn [insertEntry fst snd]
         end;
    try lra;
    cbn [firstName lastName rev app str_or fst snd];
    eexists; eexists;
    (split; [cbn [In]; first
               [ left; reflexivity | right; left; reflexivity
               | right; right; left; reflexivity
               | right; right; right; left; reflexivity ] |]);
    (split; [cbn [In]; first
               [ left; reflexivity | right; left; reflexivity
               | right; right; left; reflexivity
               | right; right; right; left; reflexivity ] |]);
    (split; [repeat constructor; cbn [snd]; lra | discriminate]).
Qed.

End DashboardFacts.
